(** * The chat hubs of Net-centric-lab, embedded in Rocq

    Two programs of the repository are modelled:

    - [Chat]: the room-based hub of [lab_7/websocket-chat/server/main.go]
      (rooms, notifications, commands);
    - [Bcast]: the room-less broadcast hub whose control loop is [Hub.run]
      over one client set, with byte messages.

    Go values are modelled as follows.  A [*Client] is an address
    ([ClientId]) into a store of client objects; a buffered channel is a
    record with its capacity, its queue and its closed flag; a map is a
    [gmap], a [map[K]bool] that only ever stores [true] is a [gset].

    The mutexes are not modelled: every operation of a hub is one atomic
    step on the state.  The task that drains a mailbox to the connection
    runs beside the hub and is not part of a step, so a send that finds the
    mailbox full cannot go on within the step: the step ends in [Blocked].
    A step that would panic (send on a closed channel, close of a closed
    channel, dangling address) ends in [Panic].

    What the runtime decides is a parameter: the order of [range] over a
    map, the readings of [time.Now()], the identifier of
    [uuid.NewString()], the texts of [json.MarshalIndent] and of
    [Time.Format]. *)

From stdpp Require Import base strings list gmap fin_maps fin_sets pretty.

Open Scope string_scope.
Open Scope list_scope.
Open Scope nat_scope.

(** ** Outcomes of a step *)

Inductive outcome (A : Type) : Type :=
  | Done (a : A)
  | Blocked
  | Panic.
Arguments Done {A} a.
Arguments Blocked {A}.
Arguments Panic {A}.

#[global] Instance outcome_ret : MRet outcome := fun A a => Done a.
#[global] Instance outcome_bind : MBind outcome := fun A B f o =>
  match o with
  | Done a => f a
  | Blocked => Blocked
  | Panic => Panic
  end.

(** [forM_ f l s]: the body [f] run for every element of [l] in turn, the
    state threaded through; the first [Blocked] or [Panic] ends the loop. *)
Fixpoint forM_ {A S : Type} (f : A -> S -> outcome S) (l : list A) (s : S)
  : outcome S :=
  match l with
  | [] => Done s
  | x :: l' => s' ← f x s; forM_ f l' s'
  end.

(** ** Buffered channels *)

Record Chan (A : Type) : Type := mkChan {
  cap : nat;
  buf : list A;
  closed : bool
}.
Arguments mkChan {A} cap buf closed.
Arguments cap {A} c.
Arguments buf {A} c.
Arguments closed {A} c.

(** [make(chan A, n)] *)
Definition make_chan {A : Type} (n : nat) : Chan A := mkChan n [] false.

Definition enqueue {A : Type} (ch : Chan A) (v : A) : Chan A :=
  mkChan (cap ch) (buf ch ++ [v]) (closed ch).

Definition has_room {A : Type} (ch : Chan A) : bool :=
  Nat.ltb (length (buf ch)) (cap ch).

(** [ch <- v] *)
Definition chan_send {A : Type} (ch : Chan A) (v : A) : outcome (Chan A) :=
  if closed ch then Panic
  else if has_room ch then Done (enqueue ch v)
  else Blocked.

(** [select { case ch <- v: ... default: ... }]; [None] is the [default]
    branch. *)
Definition chan_try_send {A : Type} (ch : Chan A) (v : A)
  : outcome (option (Chan A)) :=
  if closed ch then Panic
  else if has_room ch then Done (Some (enqueue ch v))
  else Done None.

(** [close(ch)] *)
Definition chan_close {A : Type} (ch : Chan A) : outcome (Chan A) :=
  if closed ch then Panic else Done (mkChan (cap ch) (buf ch) true).

(** ** Strings *)

Definition nl : string := String (Ascii.ascii_of_nat 10) EmptyString.

(** [strings.HasPrefix(s, p)] *)
Fixpoint HasPrefix (s p : string) {struct p} : bool :=
  match p with
  | EmptyString => true
  | String a p' =>
      match s with
      | EmptyString => false
      | String b s' => if Ascii.eqb a b then HasPrefix s' p' else false
      end
  end.

Fixpoint string_drop (n : nat) (s : string) : string :=
  match n with
  | O => s
  | S n' => match s with EmptyString => EmptyString | String _ s' => string_drop n' s' end
  end.

(** [strings.TrimPrefix(s, p)] *)
Definition TrimPrefix (s p : string) : string :=
  if HasPrefix s p then string_drop (String.length p) s else s.

(** ** The platform

    What the Go runtime and the libraries decide: the order in which a
    [range] over a map yields its entries ([range_order], any permutation),
    the text of [json.MarshalIndent] for the statistics, the text of
    [Time.Format(time.RFC3339)].  [len] of a map or slice is a [nat]. *)

Definition Time := Z.
Definition ClientId := positive.

Record Stats : Type := mkStats {
  total_users : nat;
  total_rooms : nat;
  room_details : gmap string nat
}.

Class Platform : Type := {
  range_order : forall A : Type, list A -> list A;
  range_order_perm : forall (A : Type) (l : list A), range_order A l ≡ₚ l;
  marshalIndent : Stats -> string;
  rfc3339 : Time -> string
}.

Definition range_set `{Platform} (s : gset ClientId) : list ClientId :=
  range_order _ (elements s).

Definition range_map `{Platform} {V : Type} (m : gmap string V)
  : list (string * V) :=
  range_order _ (map_to_list m).

(** ** The room-based hub (lab_7/websocket-chat/server/main.go) *)

Module Chat.

(** The fields [Type], [Room], [Username], [Text] and [Time] of the Go
    [Message], and below the fields of the Go [Notification], with a prefix:
    Rocq has one name space for types and fields. *)
Record Message : Type := mkMessage {
  msgType : string;
  msgRoom : string;
  msgUsername : string;
  msgText : string;
  msgTime : string
}.

Definition MsgChat := "chat".
Definition MsgSystem := "system".
Definition MsgUserList := "user_list".
Definition MsgStats := "stats".
Definition MsgCommand := "command".

Record Notification : Type := mkNotification {
  nID : string;
  nType : string;
  nTitle : string;
  nMessage : string;
  nTimestamp : Time;
  nTarget : string
}.

(** The fields of [Client] the hub reads; [conn] and [hub] are left out. *)
Record Client : Type := mkClient {
  username : string;
  room : string;
  send : Chan Message
}.

Record Room : Type := mkRoom {
  Name : string;
  Clients : gset ClientId
}.

(** [rooms] and [history] are the fields of the Go [Hub]; [heap] is the
    store of the [Client] objects the [*Client] addresses point to.  The
    three request channels are the [Request]s given to [run_step]. *)
Record Hub : Type := mkHub {
  rooms : gmap string Room;
  history : list Notification;
  heap : gmap ClientId Client
}.

Definition set_rooms (h : Hub) (rs : gmap string Room) : Hub :=
  mkHub rs (history h) (heap h).
Definition set_history (h : Hub) (hs : list Notification) : Hub :=
  mkHub (rooms h) hs (heap h).
Definition set_heap (h : Hub) (m : gmap ClientId Client) : Hub :=
  mkHub (rooms h) (history h) m.
Definition set_send (cl : Client) (ch : Chan Message) : Client :=
  mkClient (username cl) (room cl) ch.

Definition NewHub (m : gmap ClientId Client) : Hub := mkHub ∅ [] m.

(** The client [serveWs] builds: [send: make(chan Message, 256)]. *)
Definition newClient (u r : string) : Client := mkClient u r (make_chan 256).

(** [c.send <- m] *)
Definition client_send (c : ClientId) (m : Message) (h : Hub) : outcome Hub :=
  match heap h !! c with
  | None => Panic
  | Some cl =>
      ch ← chan_send (send cl) m;
      Done (set_heap h (<[c := set_send cl ch]> (heap h)))
  end.

(** [select { case c.send <- m: default: }] *)
Definition client_try_send (c : ClientId) (m : Message) (h : Hub)
  : outcome Hub :=
  match heap h !! c with
  | None => Panic
  | Some cl =>
      o ← chan_try_send (send cl) m;
      Done (match o with
            | Some ch => set_heap h (<[c := set_send cl ch]> (heap h))
            | None => h
            end)
  end.

Section WithPlatform.
Context `{Platform}.

Definition getOrCreateRoom (h : Hub) (name : string) : Hub * Room :=
  match rooms h !! name with
  | Some r => (h, r)
  | None =>
      let r := mkRoom name ∅ in
      (set_rooms h (<[name := r]> (rooms h)), r)
  end.

Definition broadcastToRoom (roomName : string) (msg : Message) (h : Hub)
  : outcome Hub :=
  match rooms h !! roomName with
  | None => Done h
  | Some r => forM_ (fun c => client_try_send c msg) (range_set (Clients r)) h
  end.

(** The [users] slice of [sendUserListToRoom]. *)
Fixpoint usernames (m : gmap ClientId Client) (l : list ClientId)
  : outcome (list string) :=
  match l with
  | [] => Done []
  | c :: l' =>
      match m !! c with
      | None => Panic
      | Some cl => us ← usernames m l'; Done (username cl :: us)
      end
  end.

Definition user_list_text (roomName : string) (users : list string) : string :=
  foldl (fun text u => text +:+ "- " +:+ u +:+ nl)
        ("Users in '" +:+ roomName +:+ "' (" +:+ pretty (length users) +:+ "):" +:+ nl)
        users.

Definition user_list_msg (now : Time) (roomName : string) (users : list string)
  : Message :=
  mkMessage MsgUserList roomName "SYSTEM" (user_list_text roomName users)
            (rfc3339 now).

Definition sendUserListToRoom (now : Time) (roomName : string) (h : Hub)
  : outcome Hub :=
  match rooms h !! roomName with
  | None => Done h
  | Some r =>
      users ← usernames (heap h) (range_set (Clients r));
      broadcastToRoom roomName (user_list_msg now roomName users) h
  end.

(** The [switch] of the history replay in [addClientToRoom]. *)
Definition replay_match (cl : Client) (n : Notification) : bool :=
  if String.eqb (nTarget n) "all" then true
  else if HasPrefix (nTarget n) "room:" then
    String.eqb (TrimPrefix (nTarget n) "room:") (room cl)
  else if HasPrefix (nTarget n) "user:" then
    String.eqb (TrimPrefix (nTarget n) "user:") (username cl)
  else false.

Definition replay_msg (cl : Client) (n : Notification) : Message :=
  mkMessage MsgSystem (room cl) "SYSTEM"
            ("[NOTIF] " +:+ nTitle n +:+ ": " +:+ nMessage n)
            (rfc3339 (nTimestamp n)).

Definition join_msg (now : Time) (r : Room) (cl : Client) : Message :=
  mkMessage "join" (Name r) (username cl) (username cl +:+ " joined")
            (rfc3339 now).

Definition addClientToRoom (t_join t_list : Time) (c : ClientId) (h : Hub)
  : outcome Hub :=
  match heap h !! c with
  | None => Panic
  | Some cl =>
      let '(h1, r) := getOrCreateRoom h (room cl) in
      let h2 :=
        set_rooms h1 (<[room cl := mkRoom (Name r) ({[c]} ∪ Clients r)]> (rooms h1)) in
      h3 ← broadcastToRoom (Name r) (join_msg t_join r cl) h2;
      h4 ← forM_ (fun n h' =>
                    if replay_match cl n
                    then client_send c (replay_msg cl n) h'
                    else Done h')
                 (history h3) h3;
      sendUserListToRoom t_list (Name r) h4
  end.

Definition leave_msg (now : Time) (r : Room) (cl : Client) : Message :=
  mkMessage "leave" (Name r) (username cl) (username cl +:+ " left")
            (rfc3339 now).

Definition removeClientFromRoom (t_leave t_list : Time) (c : ClientId) (h : Hub)
  : outcome Hub :=
  match heap h !! c with
  | None => Panic
  | Some cl =>
      match rooms h !! room cl with
      | None => Done h
      | Some r =>
          let r' := mkRoom (Name r) (Clients r ∖ {[c]}) in
          let h1 := set_rooms h (<[room cl := r']> (rooms h)) in
          let remaining := size (Clients r') in
          h2 ← broadcastToRoom (Name r) (leave_msg t_leave r cl) h1;
          h3 ← sendUserListToRoom t_list (Name r) h2;
          Done (if Nat.eqb remaining 0
                then set_rooms h3 (delete (Name r) (rooms h3))
                else h3)
      end
  end.

(** [roomDetails] of the [/stats] command, filled entry by entry. *)
Definition roomDetails (h : Hub) : gmap string nat :=
  foldl (fun d '(name, r) => <[name := size (Clients r)]> d) ∅
        (range_map (rooms h)).

Definition hub_stats (h : Hub) : Stats :=
  let d := roomDetails h in
  mkStats (foldl (fun t '(_, v) => t + v) 0 (range_map d)) (size d) d.

Definition rooms_text (names : list string) : string :=
  foldl (fun text n => text +:+ "- " +:+ n +:+ nl) ("Rooms:" +:+ nl) names.

Definition handleCommand (now : Time) (c : ClientId) (cmd : string) (h : Hub)
  : outcome Hub :=
  match heap h !! c with
  | None => Panic
  | Some cl =>
      if String.eqb cmd "/users" then sendUserListToRoom now (room cl) h
      else if String.eqb cmd "/stats" then
        client_send c (mkMessage MsgStats (room cl) "SYSTEM"
                                 (marshalIndent (hub_stats h)) (rfc3339 now)) h
      else if String.eqb cmd "/rooms" then
        client_send c (mkMessage MsgSystem (room cl) "SYSTEM"
                                 (rooms_text (range_map (rooms h)).*1)
                                 (rfc3339 now)) h
      else
        client_send c (mkMessage MsgSystem (room cl) "SYSTEM"
                                 "Unknown command" (rfc3339 now)) h
  end.

(** [uuid] is the value [uuid.NewString()] returns if it is called. *)
Definition addNotification (uuid : string) (n : Notification) (h : Hub) : Hub :=
  let n' :=
    if String.eqb (nID n) ""
    then mkNotification uuid (nType n) (nTitle n) (nMessage n) (nTimestamp n) (nTarget n)
    else n in
  let hs := history h ++ [n'] in
  set_history h (if Nat.ltb 50 (length hs) then drop (length hs - 50) hs else hs).

Definition admin_msg (roomName : string) (n : Notification) : Message :=
  mkMessage MsgSystem roomName "ADMIN" (nTitle n +:+ ": " +:+ nMessage n)
            (rfc3339 (nTimestamp n)).

Definition routeNotification (uuid : string) (n : Notification) (h : Hub)
  : outcome Hub :=
  let h1 := addNotification uuid n h in
  if String.eqb (nTarget n) "all" then
    forM_ (fun name => broadcastToRoom name (admin_msg name n))
          (range_map (rooms h1)).*1 h1
  else if HasPrefix (nTarget n) "room:" then
    let rm := TrimPrefix (nTarget n) "room:" in
    broadcastToRoom rm (admin_msg rm n) h1
  else if HasPrefix (nTarget n) "user:" then
    let user := TrimPrefix (nTarget n) "user:" in
    forM_ (fun '(_, r) =>
             forM_ (fun c h' =>
                      match heap h' !! c with
                      | None => Panic
                      | Some cl =>
                          if String.eqb (username cl) user
                          then client_send c (admin_msg (Name r) n) h'
                          else Done h'
                      end)
                   (range_set (Clients r)))
          (range_map (rooms h1)) h1
  else Done h1.

(** One iteration of [Hub.run]: the request received from [register],
    [unregister] or [broadcast].  [now i] is the reading of the [i]-th
    call of [time.Now()] in the step. *)
Inductive Request : Type :=
  | Register (c : ClientId)
  | Unregister (c : ClientId)
  | Broadcast (msg : Message).

Definition run_step (now : nat -> Time) (q : Request) (h : Hub) : outcome Hub :=
  match q with
  | Register c => addClientToRoom (now 0) (now 1) c h
  | Unregister c => removeClientFromRoom (now 0) (now 1) c h
  | Broadcast msg => broadcastToRoom (msgRoom msg) msg h
  end.

(** The loop of [Hub.run] over the requests it receives, in receipt order;
    [clock k] is the clock of the [k]-th iteration. *)
Fixpoint run (clock : nat -> nat -> Time) (k : nat) (qs : list Request) (h : Hub)
  : outcome Hub :=
  match qs with
  | [] => Done h
  | q :: qs' => h' ← run_step (clock k) q h; run clock (S k) qs' h'
  end.

End WithPlatform.

End Chat.

(** ** The room-less broadcast hub ([Hub.run] with one client set) *)

Module Bcast.

(** A message is the [[]byte] of a Go string. *)
Record Client : Type := mkClient {
  ID : string;
  Send : Chan string
}.

(** [clients] is the field of the Go [Hub]; [heap] is the store of the
    [Client] objects. *)
Record Hub : Type := mkHub {
  clients : gset ClientId;
  heap : gmap ClientId Client
}.

Definition newHub (m : gmap ClientId Client) : Hub := mkHub ∅ m.

(** [close(client.Send)] *)
Definition close_send (c : ClientId) (h : Hub) : outcome Hub :=
  match heap h !! c with
  | None => Panic
  | Some cl =>
      ch ← chan_close (Send cl);
      Done (mkHub (clients h) (<[c := mkClient (ID cl) ch]> (heap h)))
  end.

(** [delete(h.clients, client)] *)
Definition delete_client (c : ClientId) (h : Hub) : Hub :=
  mkHub (clients h ∖ {[c]}) (heap h).

(** The body of the loop of the [broadcast] case. *)
Definition broadcast_one (message : string) (c : ClientId) (h : Hub)
  : outcome Hub :=
  match heap h !! c with
  | None => Panic
  | Some cl =>
      o ← chan_try_send (Send cl) message;
      match o with
      | Some ch => Done (mkHub (clients h) (<[c := mkClient (ID cl) ch]> (heap h)))
      | None => h' ← close_send c h; Done (delete_client c h')
      end
  end.

Inductive Request : Type :=
  | Register (c : ClientId)
  | Unregister (c : ClientId)
  | Broadcast (message : string).

(** One iteration of [Hub.run]. *)
Definition run_step `{Platform} (q : Request) (h : Hub) : outcome Hub :=
  match q with
  | Register c => Done (mkHub ({[c]} ∪ clients h) (heap h))
  | Unregister c =>
      if decide (c ∈ clients h)
      then close_send c (delete_client c h)
      else Done h
  | Broadcast message =>
      forM_ (broadcast_one message) (range_set (clients h)) h
  end.

Fixpoint run `{Platform} (qs : list Request) (h : Hub) : outcome Hub :=
  match qs with
  | [] => Done h
  | q :: qs' => h' ← run_step q h; run qs' h'
  end.

End Bcast.

(** ** A concrete platform

    [range] yields the entries in the order of [elements] and
    [map_to_list]; the two texts are simple renderings.  It is the platform
    of the examples; the theorems hold for every platform. *)

Definition sample_marshal (s : Stats) : string :=
  "{total_users: " +:+ pretty (total_users s) +:+
  ", total_rooms: " +:+ pretty (total_rooms s) +:+
  ", room_details: {" +:+
  foldr (fun '(k, v) acc => k +:+ ": " +:+ pretty v +:+ "; " +:+ acc) "}}"
        (map_to_list (room_details s)).

Definition sample_platform : Platform :=
  {| range_order := fun A l => l;
     range_order_perm := fun A l => reflexivity l;
     marshalIndent := sample_marshal;
     rfc3339 := fun t => pretty t |}.

(** * Vocabulary of the properties *)

Import Chat.

(** The client after a message was put in its mailbox. *)
Definition push (m : Message) (cl : Client) : Client :=
  set_send cl (enqueue (send cl) m).

Definition push_all (ms : list Message) (cl : Client) : Client :=
  set_send cl (mkChan (cap (send cl)) (buf (send cl) ++ ms) (closed (send cl))).

(** The client after a message was offered without waiting: put in the
    mailbox if it has room, dropped otherwise. *)
Definition offer (m : Message) (cl : Client) : Client :=
  if has_room (send cl) then push m cl else cl.

(** The store after [m] was offered to every client of [s]. *)
Definition offer_all (m : Message) (s : gset ClientId)
  (hp : gmap ClientId Client) : gmap ClientId Client :=
  map_imap (fun c cl => Some (if decide (c ∈ s) then offer m cl else cl)) hp.

(** Well-formed hubs: every room is stored under its own name, has a
    member, and its members are clients of the store whose [room] field is
    that name; no mailbox of the store is closed. *)
Definition member_ok (hp : gmap ClientId Client) (k : string) (c : ClientId)
  : bool :=
  match hp !! c with
  | Some cl => String.eqb (room cl) k
  | None => false
  end.

Definition room_ok (hp : gmap ClientId Client) (kr : string * Room) : bool :=
  String.eqb (Name kr.2) kr.1
  && negb (Nat.eqb (size (Clients kr.2)) 0)
  && forallb (member_ok hp kr.1) (elements (Clients kr.2)).

Definition heap_open (hp : gmap ClientId Client) : bool :=
  forallb (fun kc => negb (closed (send kc.2))) (map_to_list hp).

Definition wfb (h : Hub) : bool :=
  forallb (room_ok (heap h)) (map_to_list (rooms h)) && heap_open (heap h).

Definition wf (h : Hub) : Prop := wfb h = true.

(** The members of the room called [name]; no member if there is no such
    room. *)
Definition members (h : Hub) (name : string) : gset ClientId :=
  match rooms h !! name with
  | Some r => Clients r
  | None => ∅
  end.

Definition member_count (h : Hub) (name : string) : nat :=
  size (members h name).

(** The usernames of the clients of [l], in the order of [l]. *)
Definition names_of (hp : gmap ClientId Client) (l : list ClientId)
  : list string :=
  omap (fun c => username <$> hp !! c) l.

(** The number of messages waiting in the mailboxes of the store. *)
Definition pending (hp : gmap ClientId Client) : nat :=
  map_fold (fun _ cl n => length (buf (send cl)) + n) 0 hp.

(** What the hub keeps of a client whatever is sent to it. *)
Definition ident (cl : Client) : string * string * bool :=
  (username cl, room cl, closed (send cl)).

Definition same_ids (hp hp' : gmap ClientId Client) : Prop :=
  forall c, ident <$> hp' !! c = ident <$> hp !! c.

Section Results.
Context `{Platform}.

(** The mailbox of [cl] has room for what [register] puts in it before the
    user list: the join event and the matching notifications of the
    history.  Without a matching notification nothing has to fit. *)
Definition replay_fits (cl : Client) (h : Hub) : bool :=
  let k := length (filter (fun n => replay_match cl n = true) (history h)) in
  Nat.eqb k 0 || Nat.leb (length (buf (send cl)) + 1 + k) (cap (send cl)).

(** The hub after [register] of the client [cl] stored at [c], when the
    replay does not have to wait: the room of [cl] holds [c], the join event
    was offered to every member, the matching notifications were put in the
    mailbox of [c], the user list was offered to every member. *)
Definition after_register (t_join t_list : Time) (c : ClientId) (cl : Client)
  (h : Hub) : Hub :=
  let R := room cl in
  let mem := {[c]} ∪ members h R in
  let join := mkMessage "join" R (username cl) (username cl +:+ " joined")
                        (rfc3339 t_join) in
  let replay :=
    replay_msg cl <$> filter (fun n => replay_match cl n = true) (history h) in
  let ul := user_list_msg t_list R (names_of (heap h) (range_set mem)) in
  mkHub (<[R := mkRoom R mem]> (rooms h))
        (history h)
        (offer_all ul mem
           (<[c := push_all replay (offer join cl)]>
              (offer_all join mem (heap h)))).

(** The hub after [unregister] of the client [cl] stored at [c], when the
    room [r] of [cl] exists. *)
Definition after_unregister (t_leave t_list : Time) (c : ClientId) (cl : Client)
  (r : Room) (h : Hub) : Hub :=
  let R := room cl in
  let mem := Clients r ∖ {[c]} in
  let leave := mkMessage "leave" R (username cl) (username cl +:+ " left")
                         (rfc3339 t_leave) in
  let ul := user_list_msg t_list R (names_of (heap h) (range_set mem)) in
  mkHub (if Nat.eqb (size mem) 0 then delete R (rooms h)
         else <[R := mkRoom R mem]> (rooms h))
        (history h)
        (offer_all ul mem (offer_all leave mem (heap h))).

End Results.

(** The sessions registered and not unregistered since, after the requests
    [qs] were served. *)
Definition live_step (s : gset ClientId) (q : Request) : gset ClientId :=
  match q with
  | Register c => {[c]} ∪ s
  | Unregister c => s ∖ {[c]}
  | Broadcast _ => s
  end.

Definition live (qs : list Request) : gset ClientId := foldl live_step ∅ qs.

(** [s] is the set of the sessions that are members of their room. *)
Definition tracks (s : gset ClientId) (h : Hub) : Prop :=
  forall c cl, heap h !! c = Some cl -> (c ∈ members h (room cl) <-> c ∈ s).

#[global] Instance Notification_eq_dec : EqDecision Notification.
Proof. solve_decision. Defined.

#[global] Instance Message_eq_dec : EqDecision Message.
Proof. solve_decision. Defined.

(** A submission is a notification paired with the identifier that
    [uuid.NewString()] would give it; [stamped] is the notification as it
    is stored. *)
Definition stamped (p : string * Notification) : Notification :=
  if String.eqb (nID p.2) ""
  then mkNotification p.1 (nType p.2) (nTitle p.2) (nMessage p.2)
                      (nTimestamp p.2) (nTarget p.2)
  else p.2.

(** The submissions [ps] recorded one after the other. *)
Definition submit (ps : list (string * Notification)) (h : Hub) : Hub :=
  foldl (fun h' p => addNotification p.1 p.2 h') h ps.

(** The submissions [ps] routed one after the other. *)
Definition route_all `{Platform} (ps : list (string * Notification)) (h : Hub)
  : outcome Hub :=
  forM_ (fun p => routeNotification p.1 p.2) ps h.

(** What a send leaves alone: the directory and the history. *)
Definition frame (h : Hub) : gmap string Room * list Notification :=
  (rooms h, history h).

(** The mailbox of [c] is open, and open with room. *)
Definition is_open (hp : gmap ClientId Client) (c : ClientId) : bool :=
  match hp !! c with
  | Some cl => negb (closed (send cl))
  | None => false
  end.

Definition ready (hp : gmap ClientId Client) (c : ClientId) : bool :=
  match hp !! c with
  | Some cl => negb (closed (send cl)) && has_room (send cl)
  | None => false
  end.

Definition all_open (hp : gmap ClientId Client) (s : gset ClientId) : bool :=
  forallb (is_open hp) (elements s).

Definition all_ready (hp : gmap ClientId Client) (s : gset ClientId) : bool :=
  forallb (ready hp) (elements s).

(** The room-less hub: all its clients have an open mailbox; what a
    broadcast does to a client. *)
Definition bcast_open (h : Bcast.Hub) : bool :=
  forallb (fun c => match Bcast.heap h !! c with
                    | Some cl => negb (closed (Bcast.Send cl))
                    | None => false
                    end)
          (elements (Bcast.clients h)).

Definition bcast_client (message : string) (cl : Bcast.Client) : Bcast.Client :=
  if has_room (Bcast.Send cl)
  then Bcast.mkClient (Bcast.ID cl) (enqueue (Bcast.Send cl) message)
  else Bcast.mkClient (Bcast.ID cl)
         (mkChan (cap (Bcast.Send cl)) (buf (Bcast.Send cl)) true).

(** The member count of every room, and the sum of the counts. *)
Definition room_sizes (h : Hub) : gmap string nat :=
  (fun r => size (Clients r)) <$> rooms h.

Definition session_total (h : Hub) : nat :=
  sum_list ((fun kr : string * Room => size (Clients kr.2))
              <$> map_to_list (rooms h)).

(** The reply of the commands that answer the issuing session alone. *)
Definition command_reply `{Platform} (now : Time) (cl : Client) (cmd : string)
  (h : Hub) : Message :=
  if decide (cmd = "/stats") then
    mkMessage MsgStats (room cl) "SYSTEM"
      (marshalIndent (mkStats (session_total h) (size (rooms h)) (room_sizes h)))
      (rfc3339 now)
  else if decide (cmd = "/rooms") then
    mkMessage MsgSystem (room cl) "SYSTEM"
      (rooms_text (range_map (rooms h)).*1) (rfc3339 now)
  else
    mkMessage MsgSystem (room cl) "SYSTEM" "Unknown command" (rfc3339 now).

(** The store after [T] was applied to every client of [s]; the store
    after [T k] was applied to every member of the room [k], for the rooms
    [k] of [l]. *)
Definition apply_room (T : Client -> Client) (s : gset ClientId)
  (hp : gmap ClientId Client) : gmap ClientId Client :=
  map_imap (fun c cl => Some (if decide (c ∈ s) then T cl else cl)) hp.

Definition apply_rooms (T : string -> Client -> Client) (l : list string)
  (h : Hub) : gmap ClientId Client :=
  map_imap (fun c cl =>
              Some (if decide (room cl ∈ l /\ c ∈ members h (room cl))
                    then T (room cl) cl else cl))
           (heap h).

(** [m] put in the mailbox of the client if its username is [u]. *)
Definition to_user (u : string) (m : Message) (cl : Client) : Client :=
  if decide (username cl = u) then push m cl else cl.

(** Every member of a room whose username is [u] has room in its
    mailbox. *)
Definition user_ready (h : Hub) (u : string) : bool :=
  forallb (fun kc : ClientId * Client =>
             negb (bool_decide (kc.1 ∈ members h (room kc.2))
                   && String.eqb (username kc.2) u)
             || has_room (send kc.2))
          (map_to_list (heap h)).

(** The messages waiting in the mailbox of the session [c]. *)
Definition mailbox (h : Hub) (c : ClientId) : list Message :=
  match heap h !! c with
  | Some cl => buf (send cl)
  | None => []
  end.

(** One line ["- x"] for every string of the list, in order. *)
Fixpoint bullets (l : list string) : string :=
  match l with
  | [] => ""
  | x :: l' => "- " +:+ x +:+ nl +:+ bullets l'
  end.


(** * Sample inputs *)

Definition ex_clock : nat -> nat -> Time := fun _ _ => 0%Z.

Definition ex_heap : gmap ClientId Client :=
  <[1%positive := newClient "A" "lobby"]>
    (<[2%positive := newClient "B" "lobby"]>
       (<[3%positive := newClient "C" "dev"]> ∅)).

Definition ex_requests : list Request :=
  [Register 1%positive; Register 2%positive; Register 3%positive;
   Unregister 3%positive; Unregister 2%positive].

(** 51 submissions, numbered from 0, for the room ["lobby"]. *)
Definition ex_submissions : list (string * Notification) :=
  (fun i => ("", mkNotification (pretty i) "info" "Notice" (pretty i) 0%Z
                                "room:lobby")) <$> seq 0 51.

(** A hub with the room ["lobby"] of the sessions 1 and 2 and the room
    ["dev"] of the session 3, all mailboxes empty. *)
Definition ex_hub : Hub :=
  mkHub (<["lobby" := mkRoom "lobby" {[1%positive; 2%positive]}]>
           (<["dev" := mkRoom "dev" {[3%positive]}]> ∅))
        [] ex_heap.

Definition ex_chat : Message := mkMessage MsgChat "lobby" "A" "hi" "t0".

(** A hub with the room ["lobby"] of one session whose mailbox has
    capacity 1, and two chat events for that room. *)
Definition ex_slow_hub : Hub :=
  mkHub (<["lobby" := mkRoom "lobby" {[1%positive]}]> ∅) []
        (<[1%positive := mkClient "A" "lobby" (make_chan 1)]> ∅).

Definition ex_m1 : Message := mkMessage MsgChat "lobby" "B" "one" "t1".
Definition ex_m2 : Message := mkMessage MsgChat "lobby" "B" "two" "t2".

(** The same hub after the first event: the mailbox is full. *)
Definition ex_full_hub : Hub :=
  mkHub (<["lobby" := mkRoom "lobby" {[1%positive]}]> ∅) []
        (<[1%positive := mkClient "A" "lobby" (mkChan 1 [ex_m1] false)]> ∅).

(** A room-less hub with one client whose mailbox has capacity 1, empty
    and full. *)
Definition ex_bhub : Bcast.Hub :=
  Bcast.mkHub {[1%positive]}
    (<[1%positive := Bcast.mkClient "User-1" (make_chan 1)]> ∅).

Definition ex_full_bhub : Bcast.Hub :=
  Bcast.mkHub {[1%positive]}
    (<[1%positive := Bcast.mkClient "User-1" (mkChan 1 ["User-2: one"] false)]> ∅).

(** A history with one notification for every kind of target, and the hub
    [ex_hub] with that history. *)
Definition ex_history : list Notification :=
  [mkNotification "n1" "info" "Maintenance" "5 min" 0%Z "all";
   mkNotification "n2" "info" "Lobby" "hello" 0%Z "room:lobby";
   mkNotification "n3" "info" "Dev" "build" 0%Z "room:dev";
   mkNotification "n4" "info" "ForA" "ping" 0%Z "user:A";
   mkNotification "n5" "info" "ForZ" "pong" 0%Z "user:Z";
   mkNotification "n6" "info" "Stray" "lost" 0%Z "everyone"].

Definition ex_before_join : Hub :=
  mkHub (<["lobby" := mkRoom "lobby" {[2%positive]}]>
           (<["dev" := mkRoom "dev" {[3%positive]}]> ∅))
        ex_history ex_heap.

(** The hub [ex_hub] where the writer of the session 1 is stalled: the
    mailbox [serveWs] gave it holds 256 messages. *)
Definition ex_stalled_heap : gmap ClientId Client :=
  <[1%positive := mkClient "A" "lobby" (mkChan 256 (replicate 256 ex_m1) false)]>
    ex_heap.

Definition ex_stalled_hub : Hub :=
  mkHub (<["lobby" := mkRoom "lobby" {[1%positive; 2%positive]}]>
           (<["dev" := mkRoom "dev" {[3%positive]}]> ∅))
        [] ex_stalled_heap.

Definition ex_notice (target : string) : Notification :=
  mkNotification "n0" "info" "Maintenance" "5 min" 0%Z target.

(** * The rest of the two servers

    The functions of the two files beside the hubs: the handlers that
    accept a connection, the two pumps of a session, the two HTTP handlers
    of the room-based server.  A [Time] counts from the zero [time.Time],
    so that [IsZero] is the test for 0. *)

(** [v, ok := <-ch] when it does not wait: the oldest message, or nothing
    from a closed and empty channel.  A receive from an empty open channel
    waits. *)
Definition chan_recv {A : Type} (ch : Chan A) : outcome (option A * Chan A) :=
  match buf ch with
  | v :: rest => Done (Some v, mkChan (cap ch) rest (closed ch))
  | [] => if closed ch then Done (None, ch) else Blocked
  end.

(** How a run of a pump ends: it waits for the next message, or it has
    returned. *)
Inductive pump_end : Type := Waiting | Returned.

Module ChatServer.

(** The hub with its [broadcast] channel, [make(chan Message, 256)].  The
    channels [register] and [unregister] have no buffer: a send on them is
    the iteration of [Hub.run] that receives it. *)
Record Server : Type := mkServer {
  hub : Hub;
  broadcast : Chan Message
}.

Definition NewServer (m : gmap ClientId Client) : Server :=
  mkServer (NewHub m) (make_chan 256).

Inductive WsResponse : Type :=
  | BadRequest (body : string)
  | UpgradeFailed
  | Serving (c : ClientId).


(** The loop [for m := range c.send] over the queue [q]: [fails i] tells
    whether call number [i] of [WriteJSON] returns an error.  The result is
    the messages written, the messages left in the channel, and whether the
    loop was left on an error. *)
Fixpoint write_loop (fails : nat -> bool) (i : nat) (q : list Message)
  : list Message * list Message * bool :=
  match q with
  | [] => ([], [], false)
  | m :: q' =>
      if fails i then ([], q', true)
      else let '(w, rest, e) := write_loop fails (S i) q' in (m :: w, rest, e)
  end.

(** [writePump] of the client at [c], run on the messages that are in its
    mailbox. *)
Definition writePump (fails : nat -> bool) (c : ClientId) (h : Hub)
  : outcome (list Message * Hub * pump_end) :=
  match heap h !! c with
  | None => Panic
  | Some cl =>
      let '(w, rest, e) := write_loop fails 0 (buf (send cl)) in
      let ch := mkChan (cap (send cl)) rest (closed (send cl)) in
      Done (w, set_heap h (<[c := set_send cl ch]> (heap h)),
            if e then Returned
            else if closed (send cl) then Returned else Waiting)
  end.

Section WithPlatform.
Context `{Platform}.

(** [serveWs]: [upgrade] tells whether [upgrader.Upgrade] succeeds, [c] is
    the address of the new [Client]. *)
Definition serveWs (now : nat -> Time) (upgrade : bool) (c : ClientId)
  (username room : string) (h : Hub) : outcome (Hub * WsResponse) :=
  if String.eqb username "" || String.eqb room "" then
    Done (h, BadRequest "username and room query params required")
  else if negb upgrade then Done (h, UpgradeFailed)
  else
    h' ← run_step now (Register c)
           (set_heap h (<[c := newClient username room]> (heap h)));
    Done (h', Serving c).

(** One iteration of the loop of [readPump] on a decoded frame. *)
Definition readFrame (now : Time) (c : ClientId) (msg : Message) (s : Server)
  : outcome Server :=
  match heap (hub s) !! c with
  | None => Panic
  | Some cl =>
      if String.eqb (msgType msg) MsgCommand then
        h' ← handleCommand now c (msgText msg) (hub s);
        Done (mkServer h' (broadcast s))
      else
        bq ← chan_send (broadcast s)
               (mkMessage (msgType msg) (room cl) (username cl) (msgText msg)
                          (rfc3339 now));
        Done (mkServer (hub s) bq)
  end.

(** The deferred function of [readPump]. *)
Definition readPump_exit (now : nat -> Time) (c : ClientId) (s : Server)
  : outcome Server :=
  h' ← run_step now (Unregister c) (hub s);
  Done (mkServer h' (broadcast s)).

(** [readPump] on the frames decoded before [ReadJSON] returns an error,
    each with the reading of the clock when it is handled. *)
Definition readPump (frames : list (Time * Message)) (exit : nat -> Time)
  (c : ClientId) (s : Server) : outcome Server :=
  s' ← forM_ (fun tm => readFrame tm.1 c tm.2) frames s;
  readPump_exit exit c s'.

(** The case [msg := <-h.broadcast] of [Hub.run]. *)
Definition run_broadcast (s : Server) : outcome Server :=
  r ← chan_recv (broadcast s);
  let msg := default (mkMessage "" "" "" "" "") r.1 in
  h' ← broadcastToRoom (msgRoom msg) msg (hub s);
  Done (mkServer h' r.2).


(** [getStats]: the [StatsMessage] of the response. *)
Definition getStats (h : Hub) : Stats :=
  let d := roomDetails h in
  mkStats (foldl (fun t '(_, v) => t + v) 0 (range_map d)) (size d) d.

End WithPlatform.

End ChatServer.

Module BcastServer.

Inductive Frame : Type :=
  | TextMessage (m : string)
  | CloseMessage
  | PingMessage.

(** What wakes the [select] of [writePump], and whether the write that
    follows succeeds. *)
Inductive Wake : Type :=
  | FromSend (ok : bool)
  | FromTicker (ok : bool).

(** [writePump] on a channel, for the wake-ups [ws]: the frames written,
    the channel, and how the run ends.  A wake-up by [c.Send] that finds
    the channel empty and open is no wake-up of the [select]. *)
Fixpoint write_loop (ws : list Wake) (ch : Chan string)
  : list Frame * Chan string * pump_end :=
  match ws with
  | [] => ([], ch, Waiting)
  | FromTicker ok :: ws' =>
      if ok then
        let '(fs, ch', e) := write_loop ws' ch in (PingMessage :: fs, ch', e)
      else ([], ch, Returned)
  | FromSend ok :: ws' =>
      match buf ch with
      | m :: rest =>
          let ch1 := mkChan (cap ch) rest (closed ch) in
          if ok then
            let '(fs, ch', e) := write_loop ws' ch1 in
            (TextMessage m :: fs, ch', e)
          else ([], ch1, Returned)
      | [] =>
          if closed ch then ((if ok then [CloseMessage] else []), ch, Returned)
          else write_loop ws' ch
      end
  end.

Definition writePump (ws : list Wake) (c : ClientId) (h : Bcast.Hub)
  : outcome (list Frame * Bcast.Hub * pump_end) :=
  match Bcast.heap h !! c with
  | None => Panic
  | Some cl =>
      let '(fs, ch, e) := write_loop ws (Bcast.Send cl) in
      Done (fs,
            Bcast.mkHub (Bcast.clients h)
              (<[c := Bcast.mkClient (Bcast.ID cl) ch]> (Bcast.heap h)),
            e)
  end.

Section WithPlatform.
Context `{Platform}.

(** [readPump] on the messages read before [ReadMessage] returns an
    error.  [hub.broadcast] and [hub.unregister] have no buffer: a send is
    the iteration of [Hub.run] that receives it. *)
Definition readPump (frames : list string) (c : ClientId) (h : Bcast.Hub)
  : outcome Bcast.Hub :=
  match Bcast.heap h !! c with
  | None => Panic
  | Some cl =>
      h' ← forM_ (fun msg =>
                    Bcast.run_step
                      (Bcast.Broadcast (Bcast.ID cl +:+ ": " +:+ msg)))
                 frames h;
      Bcast.run_step (Bcast.Unregister c) h'
  end.

(** [handleWS]: [upgrade] tells whether [upgrader.Upgrade] succeeds, [nano]
    is [time.Now().UnixNano()], [c] the address of the new [Client]. *)
Definition handleWS (upgrade : bool) (nano : Z) (c : ClientId) (h : Bcast.Hub)
  : outcome (Bcast.Hub * option ClientId) :=
  if upgrade then
    h' ← Bcast.run_step (Bcast.Register c)
           (Bcast.mkHub (Bcast.clients h)
              (<[c := Bcast.mkClient ("User-" +:+ pretty nano) (make_chan 256)]>
                 (Bcast.heap h)));
    Done (h', Some c)
  else Done (h, None).

End WithPlatform.

End BcastServer.

(** * Vocabulary for the servers *)

(** What every operation of the room-based hub keeps of a client: its
    username, its room, the capacity of its mailbox and that it is open or
    closed; the messages that wait stay in the mailbox, in order, before the
    ones that are added; a mailbox within its capacity stays within it. *)
Definition grows (cl cl' : Client) : Prop :=
  username cl' = username cl /\ room cl' = room cl
  /\ cap (send cl') = cap (send cl)
  /\ closed (send cl') = closed (send cl)
  /\ buf (send cl) `prefix_of` buf (send cl')
  /\ (length (buf (send cl)) <= cap (send cl) ->
      length (buf (send cl')) <= cap (send cl')).

Definition extends (hp hp' : gmap ClientId Client) : Prop :=
  forall c, option_Forall2 grows (hp !! c) (hp' !! c).

(** The hub after the event [m] was offered to the members of its room, and
    after the events [ms] were, one after the other. *)
Definition deliver (h : Hub) (m : Message) : Hub :=
  set_heap h (offer_all m (members h (msgRoom m)) (heap h)).

Definition deliver_all (ms : list Message) (h : Hub) : Hub :=
  foldl deliver h ms.

(** The sessions that are members of a room. *)
Definition all_members (h : Hub) : gset ClientId :=
  ⋃ ((fun kr : string * Room => Clients kr.2) <$> map_to_list (rooms h)).

Section ServerVocabulary.
Context `{Platform}.

(** The event [readPump] sends to the hub for a frame: the type and the
    text are those of the frame, the username and the room those of the
    session. *)
Definition stamp (cl : Client) (tm : Time * Message) : Message :=
  mkMessage (msgType tm.2) (room cl) (username cl) (msgText tm.2)
            (rfc3339 tm.1).


(** [n] iterations of the [broadcast] case of [Hub.run]. *)
Definition drain (n : nat) (s : ChatServer.Server) : outcome ChatServer.Server :=
  forM_ (fun _ : nat => ChatServer.run_broadcast) (seq 0 n) s.

End ServerVocabulary.

(** The room-less hub: the clients a sequence of requests registers; the
    texts of the frames written; a client after messages were put in its
    mailbox; the message [readPump] builds. *)
Definition regs (qs : list Bcast.Request) : list ClientId :=
  omap (fun q => match q with Bcast.Register c => Some c | _ => None end) qs.

Definition texts (fs : list BcastServer.Frame) : list string :=
  omap (fun f => match f with BcastServer.TextMessage m => Some m | _ => None end)
       fs.

Definition bcast_push_all (ms : list string) (cl : Bcast.Client) : Bcast.Client :=
  Bcast.mkClient (Bcast.ID cl)
    (mkChan (cap (Bcast.Send cl)) (buf (Bcast.Send cl) ++ ms)
            (closed (Bcast.Send cl))).

Definition bcast_heap_open (hp : gmap ClientId Bcast.Client) : bool :=
  forallb (fun kc : ClientId * Bcast.Client => negb (closed (Bcast.Send kc.2)))
          (map_to_list hp).

Definition tagged (cl : Bcast.Client) (msg : string) : string :=
  Bcast.ID cl +:+ ": " +:+ msg.

(** Every client of the hub has room for [n] more messages. *)
Definition bcast_room_for (n : nat) (h : Bcast.Hub) : bool :=
  forallb (fun c => match Bcast.heap h !! c with
                    | Some cl =>
                        negb (closed (Bcast.Send cl))
                        && Nat.leb (length (buf (Bcast.Send cl)) + n)
                                   (cap (Bcast.Send cl))
                    | None => false
                    end)
          (elements (Bcast.clients h)).

(** An operation that keeps the clients and the history. *)
Definition hub_extends (h h' : Hub) : Prop :=
  extends (heap h) (heap h') /\ history h' = history h.

(** * Properties *)

Section StringFacts.

(* stdpp keeps [String.append] from being simplified; this is its
   equation on a non-empty string. *)

Lemma append_cons (a : Ascii.ascii) (p s : string) :
  String a p +:+ s = String a (p +:+ s).
Proof. reflexivity. Qed.

Lemma HasPrefix_app (p s : string) : HasPrefix (p +:+ s) p = true.
Proof.
  induction p as [|a p IH]; [done|].
  rewrite append_cons. simpl. by rewrite Ascii.eqb_refl.
Qed.

Lemma string_drop_app (p s : string) : string_drop (String.length p) (p +:+ s) = s.
Proof.
  induction p as [|a p IH]; [done|].
  rewrite append_cons. simpl. exact IH.
Qed.

Lemma TrimPrefix_app (p s : string) : TrimPrefix (p +:+ s) p = s.
Proof. unfold TrimPrefix. by rewrite HasPrefix_app, string_drop_app. Qed.

Lemma HasPrefix_split (s p : string) :
  HasPrefix s p = true -> s = p +:+ TrimPrefix s p.
Proof.
  intros Hp. unfold TrimPrefix. rewrite Hp.
  revert s Hp. induction p as [|a p IH]; intros s Hp; [done|].
  simpl in Hp. destruct s as [|b s]; [done|].
  destruct (Ascii.eqb a b) eqn:E; [|done].
  apply Ascii.eqb_eq in E as ->.
  rewrite append_cons. simpl. f_equal. by apply IH.
Qed.

End StringFacts.

Section LoopFacts.
Context {A S : Type}.

Lemma forM_app (f : A -> S -> outcome S) (l1 l2 : list A) (s : S) :
  forM_ f (l1 ++ l2) s = (s' ← forM_ f l1 s; forM_ f l2 s').
Proof.
  revert s. induction l1 as [|x l1 IH]; intros s; simpl; [done|].
  destruct (f x s); simpl; auto.
Qed.

End LoopFacts.

Section RangeFacts.
Context `{Platform}.

Lemma elem_of_range_set (c : ClientId) (s : gset ClientId) :
  c ∈ range_set s <-> c ∈ s.
Proof.
  unfold range_set. rewrite (range_order_perm _ (elements s)).
  apply elem_of_elements.
Qed.

Lemma NoDup_range_set (s : gset ClientId) : NoDup (range_set s).
Proof. unfold range_set. rewrite range_order_perm. apply NoDup_elements. Qed.

Lemma list_to_set_range_set (s : gset ClientId) :
  list_to_set (range_set s) = s.
Proof.
  apply set_eq. intros c. rewrite elem_of_list_to_set.
  apply elem_of_range_set.
Qed.

Lemma elem_of_range_map {V : Type} (m : gmap string V) (k : string) (v : V) :
  (k, v) ∈ range_map m <-> m !! k = Some v.
Proof.
  unfold range_map. rewrite (range_order_perm _ (map_to_list m)).
  apply elem_of_map_to_list.
Qed.

Lemma NoDup_fst_range_map {V : Type} (m : gmap string V) :
  NoDup (range_map m).*1.
Proof.
  unfold range_map. rewrite range_order_perm. apply NoDup_fst_map_to_list.
Qed.

Lemma elem_of_fst_range_map {V : Type} (m : gmap string V) (k : string) :
  k ∈ (range_map m).*1 <-> is_Some (m !! k).
Proof.
  rewrite list_elem_of_fmap. split.
  - intros [[k' v] [-> Hin]]. apply elem_of_range_map in Hin. by exists v.
  - intros [v Hv]. exists (k, v). split; [done|]. by apply elem_of_range_map.
Qed.

End RangeFacts.

Section WellFormed.

Lemma forallb_elem_of {A : Type} (f : A -> bool) (l : list A) :
  forallb f l = true <-> (forall x, x ∈ l -> f x = true).
Proof.
  rewrite forallb_forall. split; intros Hf x Hx; apply Hf; by apply list_elem_of_In.
Qed.

Lemma heap_open_spec (hp : gmap ClientId Client) :
  heap_open hp = true <->
  (forall c cl, hp !! c = Some cl -> closed (send cl) = false).
Proof.
  unfold heap_open. rewrite forallb_elem_of. split.
  - intros Hf c cl Hc. apply elem_of_map_to_list in Hc.
    apply Hf in Hc. simpl in Hc. by destruct (closed (send cl)).
  - intros Hf [c cl] Hc. apply elem_of_map_to_list in Hc.
    simpl. by rewrite (Hf c cl Hc).
Qed.

Lemma room_ok_spec (hp : gmap ClientId Client) (k : string) (r : Room) :
  room_ok hp (k, r) = true <->
  Name r = k /\ Clients r ≠ ∅ /\
  (forall c, c ∈ Clients r -> exists cl, hp !! c = Some cl /\ room cl = k).
Proof.
  unfold room_ok. simpl.
  rewrite !andb_true_iff, negb_true_iff, String.eqb_eq, Nat.eqb_neq,
    forallb_elem_of.
  rewrite size_non_empty_iff.
  assert (Hm : (forall x, x ∈ elements (Clients r) -> member_ok hp k x = true) <->
               (forall c, c ∈ Clients r -> exists cl, hp !! c = Some cl /\ room cl = k)).
  { split; intros Hf c Hc.
    - apply elem_of_elements in Hc. apply Hf in Hc. unfold member_ok in Hc.
      destruct (hp !! c) as [cl|]; [|done].
      exists cl. split; [done|]. by apply String.eqb_eq.
    - apply elem_of_elements in Hc. destruct (Hf c Hc) as (cl & Hcl & Hr).
      unfold member_ok. rewrite Hcl. by apply String.eqb_eq. }
  rewrite Hm. unfold_leibniz. tauto.
Qed.

Lemma wf_spec (h : Hub) :
  wf h <->
  (forall k r, rooms h !! k = Some r ->
     Name r = k /\ Clients r ≠ ∅ /\
     (forall c, c ∈ Clients r -> exists cl, heap h !! c = Some cl /\ room cl = k))
  /\ (forall c cl, heap h !! c = Some cl -> closed (send cl) = false).
Proof.
  unfold wf, wfb. rewrite andb_true_iff, heap_open_spec, forallb_elem_of.
  split; intros [Hr Ho]; (split; [|done]).
  - intros k r Hk. apply room_ok_spec. apply Hr. by apply elem_of_map_to_list.
  - intros [k r] Hk. apply room_ok_spec. apply Hr. by apply elem_of_map_to_list.
Qed.

Lemma wf_room (h : Hub) (k : string) (r : Room) :
  wf h -> rooms h !! k = Some r -> Name r = k /\ Clients r ≠ ∅.
Proof.
  intros Hwf Hk. apply wf_spec in Hwf as [Hr _].
  destruct (Hr k r Hk) as (Hn & He & _). done.
Qed.

Lemma wf_member (h : Hub) (k : string) (r : Room) (c : ClientId) :
  wf h -> rooms h !! k = Some r -> c ∈ Clients r ->
  exists cl, heap h !! c = Some cl /\ room cl = k.
Proof.
  intros Hwf Hk Hc. apply wf_spec in Hwf as [Hr _].
  destruct (Hr k r Hk) as (_ & _ & Hm). by apply Hm.
Qed.

Lemma wf_open (h : Hub) (c : ClientId) (cl : Client) :
  wf h -> heap h !! c = Some cl -> closed (send cl) = false.
Proof. intros Hwf Hc. apply wf_spec in Hwf as [_ Ho]. eauto. Qed.

End WellFormed.

Section SendFacts.

Lemma set_heap_id (h : Hub) : set_heap h (heap h) = h.
Proof. by destruct h. Qed.

Lemma offer_username (m : Message) (cl : Client) :
  username (offer m cl) = username cl.
Proof. unfold offer. by destruct (has_room (send cl)). Qed.

Lemma offer_room (m : Message) (cl : Client) : room (offer m cl) = room cl.
Proof. unfold offer. by destruct (has_room (send cl)). Qed.

Lemma offer_closed (m : Message) (cl : Client) :
  closed (send (offer m cl)) = closed (send cl).
Proof. unfold offer. by destruct (has_room (send cl)). Qed.

Lemma offer_cap (m : Message) (cl : Client) :
  cap (send (offer m cl)) = cap (send cl).
Proof. unfold offer. by destruct (has_room (send cl)). Qed.

Lemma offer_full (m : Message) (cl : Client) :
  has_room (send cl) = false -> offer m cl = cl.
Proof. unfold offer. by intros ->. Qed.

Lemma offer_room_left (m : Message) (cl : Client) :
  has_room (send cl) = true -> offer m cl = push m cl.
Proof. unfold offer. by intros ->. Qed.

Lemma client_try_send_offer (c : ClientId) (m : Message) (h : Hub) (cl : Client) :
  heap h !! c = Some cl -> closed (send cl) = false ->
  client_try_send c m h = Done (set_heap h (<[c := offer m cl]> (heap h))).
Proof.
  intros Hc Ho. unfold client_try_send, chan_try_send, offer. rewrite Hc, Ho.
  destruct (has_room (send cl)); simpl; [done|].
  by rewrite insert_id, set_heap_id.
Qed.

Lemma client_try_send_not_blocked (c : ClientId) (m : Message) (h : Hub) :
  client_try_send c m h <> Blocked.
Proof.
  unfold client_try_send, chan_try_send.
  destruct (heap h !! c) as [cl|]; [|done].
  destruct (closed (send cl)); [done|].
  by destruct (has_room (send cl)).
Qed.

Lemma forM_try_send_not_blocked (m : Message) (l : list ClientId) (h : Hub) :
  forM_ (fun c => client_try_send c m) l h <> Blocked.
Proof.
  revert h. induction l as [|c l IH]; intros h; simpl; [done|].
  pose proof (client_try_send_not_blocked c m h) as Hc.
  destruct (client_try_send c m h) as [h'| |]; simpl; [apply IH|done|done].
Qed.

Lemma client_send_push (c : ClientId) (m : Message) (h : Hub) (cl : Client) :
  heap h !! c = Some cl -> closed (send cl) = false ->
  has_room (send cl) = true ->
  client_send c m h = Done (set_heap h (<[c := push m cl]> (heap h))).
Proof.
  intros Hc Ho Hr. unfold client_send, chan_send. by rewrite Hc, Ho, Hr.
Qed.

Lemma client_send_blocked (c : ClientId) (m : Message) (h : Hub) (cl : Client) :
  heap h !! c = Some cl -> closed (send cl) = false ->
  has_room (send cl) = false ->
  client_send c m h = Blocked.
Proof.
  intros Hc Ho Hr. unfold client_send, chan_send. by rewrite Hc, Ho, Hr.
Qed.

Lemma offer_all_lookup (m : Message) (s : gset ClientId)
  (hp : gmap ClientId Client) (c : ClientId) :
  offer_all m s hp !! c =
  (fun cl => if decide (c ∈ s) then offer m cl else cl) <$> hp !! c.
Proof.
  unfold offer_all. rewrite map_lookup_imap. by destruct (hp !! c).
Qed.

Lemma offer_all_empty (m : Message) (hp : gmap ClientId Client) :
  offer_all m ∅ hp = hp.
Proof.
  apply map_eq. intros c. rewrite offer_all_lookup.
  destruct (hp !! c); simpl; [|done]. by rewrite decide_False by set_solver.
Qed.

Lemma offer_all_insert (m : Message) (s : gset ClientId)
  (hp : gmap ClientId Client) (c : ClientId) (cl : Client) :
  hp !! c = Some cl -> c ∉ s ->
  offer_all m s (<[c := offer m cl]> hp) = offer_all m ({[c]} ∪ s) hp.
Proof.
  intros Hc Hs. apply map_eq. intros i. rewrite !offer_all_lookup.
  destruct (decide (i = c)) as [->|Hne].
  - rewrite lookup_insert_eq, Hc. simpl.
    rewrite decide_False by done. by rewrite decide_True by set_solver.
  - rewrite lookup_insert_ne by done.
    destruct (hp !! i); simpl; [|done].
    f_equal. destruct (decide (i ∈ s)).
    + by rewrite decide_True by set_solver.
    + by rewrite decide_False by set_solver.
Qed.

(** The loop of [broadcastToRoom], over clients that are in the store with
    an open mailbox. *)
Lemma forM_try_send (m : Message) (l : list ClientId) (h : Hub) :
  NoDup l ->
  (forall c, c ∈ l -> exists cl, heap h !! c = Some cl /\ closed (send cl) = false) ->
  forM_ (fun c => client_try_send c m) l h
  = Done (set_heap h (offer_all m (list_to_set l) (heap h))).
Proof.
  revert h. induction l as [|c l IH]; intros h Hnd Hl; simpl.
  - by rewrite offer_all_empty, set_heap_id.
  - apply NoDup_cons in Hnd as [Hc Hnd].
    destruct (Hl c) as (cl & Hcl & Ho); [by left|].
    rewrite (client_try_send_offer c m h cl Hcl Ho). simpl.
    rewrite IH; [|done|].
    + simpl. rewrite offer_all_insert; [done..|]. set_solver.
    + intros d Hd. simpl. rewrite lookup_insert_ne by (intros ->; done).
      apply Hl. by right.
Qed.

End SendFacts.

Section ChatFacts.
Context `{Platform}.

Lemma broadcastToRoom_absent (name : string) (msg : Message) (h : Hub) :
  rooms h !! name = None -> broadcastToRoom name msg h = Done h.
Proof. intros Hn. unfold broadcastToRoom. by rewrite Hn. Qed.

Lemma broadcastToRoom_eq (name : string) (msg : Message) (h : Hub) (r : Room) :
  rooms h !! name = Some r ->
  (forall c, c ∈ Clients r ->
     exists cl, heap h !! c = Some cl /\ closed (send cl) = false) ->
  broadcastToRoom name msg h
  = Done (set_heap h (offer_all msg (Clients r) (heap h))).
Proof.
  intros Hr Hm. unfold broadcastToRoom. rewrite Hr.
  rewrite forM_try_send.
  - by rewrite list_to_set_range_set.
  - apply NoDup_range_set.
  - intros c Hc. apply Hm. by apply elem_of_range_set.
Qed.

Lemma broadcastToRoom_not_blocked (name : string) (msg : Message) (h : Hub) :
  broadcastToRoom name msg h <> Blocked.
Proof.
  unfold broadcastToRoom. destruct (rooms h !! name); [|done].
  apply forM_try_send_not_blocked.
Qed.

Lemma names_of_cons (hp : gmap ClientId Client) (c : ClientId)
  (l : list ClientId) :
  names_of hp (c :: l)
  = match username <$> hp !! c with
    | Some u => u :: names_of hp l
    | None => names_of hp l
    end.
Proof. reflexivity. Qed.

Lemma usernames_names_of (hp : gmap ClientId Client) (l : list ClientId) :
  (forall c, c ∈ l -> is_Some (hp !! c)) ->
  usernames hp l = Done (names_of hp l).
Proof.
  induction l as [|c l IH]; intros Hl; [done|].
  destruct (Hl c) as [cl Hcl]; [by left|].
  rewrite names_of_cons. simpl. rewrite Hcl. simpl.
  rewrite IH; [done|]. intros d Hd. apply Hl. by right.
Qed.

Lemma names_of_ext (hp1 hp2 : gmap ClientId Client) (l : list ClientId) :
  (forall c, username <$> hp1 !! c = username <$> hp2 !! c) ->
  names_of hp1 l = names_of hp2 l.
Proof.
  intros He. induction l as [|c l IH]; [done|].
  by rewrite !names_of_cons, He, IH.
Qed.

Lemma names_of_offer_all (m : Message) (s : gset ClientId)
  (hp : gmap ClientId Client) (l : list ClientId) :
  names_of (offer_all m s hp) l = names_of hp l.
Proof.
  apply names_of_ext. intros c. rewrite offer_all_lookup.
  destruct (hp !! c); simpl; [|done].
  destruct (decide (c ∈ s)); [|done]. by rewrite offer_username.
Qed.

Lemma sendUserListToRoom_absent (now : Time) (name : string) (h : Hub) :
  rooms h !! name = None -> sendUserListToRoom now name h = Done h.
Proof. intros Hn. unfold sendUserListToRoom. by rewrite Hn. Qed.

Lemma sendUserListToRoom_eq (now : Time) (name : string) (h : Hub) (r : Room) :
  rooms h !! name = Some r ->
  (forall c, c ∈ Clients r ->
     exists cl, heap h !! c = Some cl /\ closed (send cl) = false) ->
  sendUserListToRoom now name h
  = Done (set_heap h
            (offer_all
               (user_list_msg now name (names_of (heap h) (range_set (Clients r))))
               (Clients r) (heap h))).
Proof.
  intros Hr Hm. unfold sendUserListToRoom. rewrite Hr.
  rewrite usernames_names_of.
  - simpl. by apply broadcastToRoom_eq.
  - intros c Hc. apply elem_of_range_set in Hc.
    destruct (Hm c Hc) as (cl & Hcl & _). by exists cl.
Qed.

(** The replay loop of [addClientToRoom]: the matching notifications are
    put in the mailbox of the new client as long as it has room. *)
Lemma push_all_nil (cl : Client) : push_all [] cl = cl.
Proof.
  unfold push_all, set_send. rewrite app_nil_r. by destruct cl as [u r [? ? ?]].
Qed.

Lemma push_all_cons (m : Message) (ms : list Message) (cl : Client) :
  push_all ms (push m cl) = push_all (m :: ms) cl.
Proof. unfold push_all, push, set_send, enqueue. simpl. by rewrite <- app_assoc. Qed.

Lemma has_room_true {A : Type} (ch : Chan A) :
  has_room ch = true <-> length (buf ch) < cap ch.
Proof. unfold has_room. apply Nat.ltb_lt. Qed.

Lemma has_room_false {A : Type} (ch : Chan A) :
  has_room ch = false <-> cap ch <= length (buf ch).
Proof. unfold has_room. apply Nat.ltb_ge. Qed.

Lemma replay_loop (c : ClientId) (cl : Client) (ns : list Notification)
  (h : Hub) (cl1 : Client) :
  heap h !! c = Some cl1 -> closed (send cl1) = false ->
  filter (fun n => replay_match cl n = true) ns = [] \/
  length (buf (send cl1)) + length (filter (fun n => replay_match cl n = true) ns)
    <= cap (send cl1) ->
  forM_ (fun n h' =>
           if replay_match cl n then client_send c (replay_msg cl n) h'
           else Done h') ns h
  = Done (set_heap h
            (<[c := push_all (replay_msg cl <$>
                                filter (fun n => replay_match cl n = true) ns) cl1]>
               (heap h))).
Proof.
  revert h cl1. induction ns as [|n ns IH]; intros h cl1 Hc Ho Hcap; simpl.
  - by rewrite push_all_nil, insert_id, set_heap_id.
  - rewrite filter_cons in *. destruct (replay_match cl n) eqn:Hm.
    + rewrite decide_True in * by done.
      destruct Hcap as [Hcap|Hcap]; [done|]. simpl in Hcap.
      rewrite (client_send_push c _ h cl1 Hc Ho) by (apply has_room_true; lia).
      simpl. rewrite (IH _ (push (replay_msg cl n) cl1)).
      * simpl. by rewrite insert_insert_eq, push_all_cons.
      * simpl. by rewrite lookup_insert_eq.
      * done.
      * right. simpl. rewrite length_app. simpl. lia.
    + rewrite decide_False in * by done. simpl. by apply IH.
Qed.

Lemma replay_loop_blocked (c : ClientId) (cl : Client) (ns : list Notification)
  (h : Hub) (cl1 : Client) :
  heap h !! c = Some cl1 -> closed (send cl1) = false ->
  filter (fun n => replay_match cl n = true) ns <> [] ->
  cap (send cl1) <
    length (buf (send cl1)) + length (filter (fun n => replay_match cl n = true) ns) ->
  forM_ (fun n h' =>
           if replay_match cl n then client_send c (replay_msg cl n) h'
           else Done h') ns h
  = Blocked.
Proof.
  revert h cl1. induction ns as [|n ns IH]; intros h cl1 Hc Ho Hne Hcap; [done|].
  simpl. rewrite filter_cons in *. destruct (replay_match cl n) eqn:Hm.
  - rewrite decide_True in * by done. simpl in Hcap.
    destruct (has_room (send cl1)) eqn:Hr.
    + rewrite (client_send_push c _ h cl1 Hc Ho Hr). simpl.
      apply has_room_true in Hr.
      apply (IH _ (push (replay_msg cl n) cl1)).
      * simpl. by rewrite lookup_insert_eq.
      * done.
      * intros Hnil. rewrite Hnil in Hcap. simpl in Hcap. lia.
      * simpl. rewrite length_app. simpl. lia.
    + by rewrite (client_send_blocked c _ h cl1 Hc Ho Hr).
  - rewrite decide_False in * by done. simpl. by apply (IH h cl1).
Qed.

End ChatFacts.

Section Identity.

Lemma same_ids_refl (hp : gmap ClientId Client) : same_ids hp hp.
Proof. by intros c. Qed.

Lemma same_ids_trans (hp1 hp2 hp3 : gmap ClientId Client) :
  same_ids hp1 hp2 -> same_ids hp2 hp3 -> same_ids hp1 hp3.
Proof. intros H12 H23 c. by rewrite H23, H12. Qed.

Lemma ident_offer (m : Message) (cl : Client) : ident (offer m cl) = ident cl.
Proof. unfold ident. by rewrite offer_username, offer_room, offer_closed. Qed.

Lemma ident_push_all (ms : list Message) (cl : Client) :
  ident (push_all ms cl) = ident cl.
Proof. done. Qed.

Lemma same_ids_offer_all (m : Message) (s : gset ClientId)
  (hp : gmap ClientId Client) :
  same_ids hp (offer_all m s hp).
Proof.
  intros c. rewrite offer_all_lookup. destruct (hp !! c); simpl; [|done].
  destruct (decide (c ∈ s)); [|done]. by rewrite ident_offer.
Qed.

Lemma same_ids_insert (hp : gmap ClientId Client) (c : ClientId)
  (cl cl' : Client) :
  hp !! c = Some cl -> ident cl' = ident cl -> same_ids hp (<[c := cl']> hp).
Proof.
  intros Hc Hi d. destruct (decide (d = c)) as [->|Hne].
  - rewrite lookup_insert_eq, Hc. simpl. by rewrite Hi.
  - by rewrite lookup_insert_ne.
Qed.

Lemma same_ids_lookup (hp hp' : gmap ClientId Client) (c : ClientId)
  (cl : Client) :
  same_ids hp hp' -> hp !! c = Some cl ->
  exists cl', hp' !! c = Some cl' /\ ident cl' = ident cl.
Proof.
  intros Hs Hc. specialize (Hs c). rewrite Hc in Hs.
  destruct (hp' !! c) as [cl'|]; [|done].
  exists cl'. split; [done|]. simpl in Hs. congruence.
Qed.

Lemma same_ids_sym (hp hp' : gmap ClientId Client) :
  same_ids hp hp' -> same_ids hp' hp.
Proof. intros Hs c. by rewrite Hs. Qed.

Lemma same_ids_names_of (hp hp' : gmap ClientId Client) (l : list ClientId) :
  same_ids hp hp' -> names_of hp' l = names_of hp l.
Proof.
  intros Hs. apply names_of_ext. intros c. specialize (Hs c).
  destruct (hp' !! c), (hp !! c); simpl in *; try done.
  unfold ident in Hs. congruence.
Qed.

Lemma wf_same_ids (rs : gmap string Room) (hs hs' : list Notification)
  (hp hp' : gmap ClientId Client) :
  wf (mkHub rs hs hp) -> same_ids hp hp' -> wf (mkHub rs hs' hp').
Proof.
  intros Hwf Hs. apply wf_spec in Hwf as [Hr Ho]. simpl in *.
  apply wf_spec. simpl. split.
  - intros k r Hk. destruct (Hr k r Hk) as (Hn & He & Hm).
    split; [done|]. split; [done|]. intros c Hc.
    destruct (Hm c Hc) as (cl & Hcl & Hrm).
    destruct (same_ids_lookup _ _ _ _ Hs Hcl) as (cl' & Hcl' & Hi).
    exists cl'. split; [done|]. unfold ident in Hi. congruence.
  - intros c cl' Hcl'.
    destruct (same_ids_lookup _ _ _ _ (same_ids_sym _ _ Hs) Hcl') as (cl & Hcl & Hi).
    rewrite <- (Ho c cl Hcl). unfold ident in Hi. congruence.
Qed.

End Identity.

Section RegisterFacts.
Context `{Platform}.

Lemma members_lookup (h : Hub) (k : string) (r : Room) :
  rooms h !! k = Some r -> members h k = Clients r.
Proof. intros Hk. unfold members. by rewrite Hk. Qed.

Lemma members_absent (h : Hub) (k : string) :
  rooms h !! k = None -> members h k = ∅.
Proof. intros Hk. unfold members. by rewrite Hk. Qed.

Lemma members_in_heap (h : Hub) (k : string) (c : ClientId) :
  wf h -> c ∈ members h k ->
  exists cl, heap h !! c = Some cl /\ room cl = k /\ closed (send cl) = false.
Proof.
  intros Hwf Hc. unfold members in Hc.
  destruct (rooms h !! k) as [r|] eqn:Hk; [|set_solver].
  destruct (wf_member h k r c Hwf Hk Hc) as (cl & Hcl & Hr).
  exists cl. split; [done|]. split; [done|]. by apply (wf_open h c).
Qed.

Lemma getOrCreateRoom_spec (h : Hub) (k : string) :
  wf h ->
  exists h1 r,
    getOrCreateRoom h k = (h1, r) /\ Name r = k /\ Clients r = members h k /\
    history h1 = history h /\ heap h1 = heap h /\
    forall x, <[k := x]> (rooms h1) = <[k := x]> (rooms h).
Proof.
  intros Hwf. unfold getOrCreateRoom, members.
  destruct (rooms h !! k) as [r|] eqn:Hk.
  - exists h, r. destruct (wf_room h k r Hwf Hk) as [Hn _]. done.
  - eexists _, _. split; [done|]. simpl. repeat split; try done.
    intros x. by rewrite insert_insert_eq.
Qed.

Lemma ok_transfer (hp hp' : gmap ClientId Client) (c : ClientId) :
  same_ids hp hp' ->
  (exists cl, hp !! c = Some cl /\ closed (send cl) = false) ->
  exists cl', hp' !! c = Some cl' /\ closed (send cl') = false.
Proof.
  intros Hs (cl & Hcl & Ho).
  destruct (same_ids_lookup _ _ _ _ Hs Hcl) as (cl' & Hcl' & Hi).
  exists cl'. split; [done|]. unfold ident in Hi. congruence.
Qed.

Lemma length_offer (m : Message) (cl : Client) :
  length (buf (send (offer m cl)))
  = length (buf (send cl)) + (if has_room (send cl) then 1 else 0).
Proof.
  unfold offer. destruct (has_room (send cl)); simpl; [|lia].
  by rewrite length_app.
Qed.

Lemma register_members_ok (c : ClientId) (cl : Client) (h : Hub) :
  wf h -> heap h !! c = Some cl ->
  forall d, d ∈ {[c]} ∪ members h (room cl) ->
    exists dl, heap h !! d = Some dl /\ room dl = room cl /\
               closed (send dl) = false.
Proof.
  intros Hwf Hc d Hd. apply elem_of_union in Hd as [Hd|Hd].
  - apply elem_of_singleton in Hd as ->. exists cl.
    split; [done|]. split; [done|]. by apply (wf_open h c).
  - by apply members_in_heap.
Qed.

(** [addClientToRoom] up to the replay loop. *)
Lemma addClientToRoom_unfold (t_join t_list : Time) (c : ClientId) (cl : Client)
  (h : Hub) :
  wf h -> heap h !! c = Some cl ->
  let R := room cl in
  let mem := {[c]} ∪ members h R in
  let join := mkMessage "join" R (username cl) (username cl +:+ " joined")
                        (rfc3339 t_join) in
  addClientToRoom t_join t_list c h
  = (h4 ← forM_ (fun n h' =>
                   if replay_match cl n then client_send c (replay_msg cl n) h'
                   else Done h')
                (history h)
                (mkHub (<[R := mkRoom R mem]> (rooms h)) (history h)
                       (offer_all join mem (heap h)));
     sendUserListToRoom t_list R h4).
Proof.
  intros Hwf Hc R mem join. unfold addClientToRoom. rewrite Hc.
  destruct (getOrCreateRoom_spec h (room cl) Hwf)
    as (h1 & r & -> & Hn & Hm & Hh & Hp & Hins).
  rewrite Hins, Hn, Hm. unfold join_msg. rewrite Hn.
  fold R. fold mem. fold join.
  rewrite (broadcastToRoom_eq R join _ (mkRoom R mem)).
  - unfold set_heap, set_rooms. simpl. by rewrite Hh, Hp.
  - simpl. by rewrite lookup_insert_eq.
  - simpl. rewrite Hp. intros d Hd.
    destruct (register_members_ok c cl h Hwf Hc d Hd) as (dl & ? & ? & ?).
    by exists dl.
Qed.

Lemma addClientToRoom_eq (t_join t_list : Time) (c : ClientId) (cl : Client)
  (h : Hub) :
  wf h -> heap h !! c = Some cl -> replay_fits cl h = true ->
  addClientToRoom t_join t_list c h = Done (after_register t_join t_list c cl h).
Proof.
  intros Hwf Hc Hfit.
  rewrite (addClientToRoom_unfold t_join t_list c cl h Hwf Hc).
  set (R := room cl). set (mem := {[c]} ∪ members h R).
  set (join := mkMessage "join" R (username cl) _ _).
  pose proof (register_members_ok c cl h Hwf Hc) as Hok. fold R mem in Hok.
  rewrite (replay_loop c cl (history h) _ (offer join cl)); simpl.
  2:{ rewrite offer_all_lookup, Hc. simpl.
      by rewrite decide_True by (unfold mem; set_solver). }
  2:{ rewrite offer_closed. by apply (wf_open h c). }
  2:{ unfold replay_fits in Hfit. apply orb_true_iff in Hfit as [Hk|Hk].
      - left. apply Nat.eqb_eq in Hk. by apply nil_length_inv.
      - right. apply Nat.leb_le in Hk. rewrite length_offer, offer_cap.
        rewrite (proj2 (has_room_true (send cl))) by lia. lia. }
  set (hp2 := <[c := _]> (offer_all join mem (heap h))).
  assert (Hs : same_ids (heap h) hp2).
  { eapply same_ids_trans; [apply (same_ids_offer_all join mem)|].
    eapply same_ids_insert.
    - rewrite offer_all_lookup, Hc. simpl.
      by rewrite decide_True by (unfold mem; set_solver).
    - by rewrite ident_push_all. }
  rewrite (sendUserListToRoom_eq t_list R _ (mkRoom R mem));
    [|by simpl; rewrite lookup_insert_eq|].
  2:{ simpl. intros d Hd. apply (ok_transfer (heap h)); [done|].
      destruct (Hok d Hd) as (dl & ? & ? & ?). by exists dl. }
  unfold after_register, set_heap, set_rooms. simpl.
  fold R. fold mem. fold join. fold hp2.
  by rewrite (same_ids_names_of (heap h) hp2).
Qed.

Lemma addClientToRoom_blocked (t_join t_list : Time) (c : ClientId) (cl : Client)
  (h : Hub) :
  wf h -> heap h !! c = Some cl -> replay_fits cl h = false ->
  addClientToRoom t_join t_list c h = Blocked.
Proof.
  intros Hwf Hc Hfit.
  rewrite (addClientToRoom_unfold t_join t_list c cl h Hwf Hc).
  set (R := room cl). set (mem := {[c]} ∪ members h R).
  set (join := mkMessage "join" R (username cl) _ _).
  unfold replay_fits in Hfit. apply orb_false_iff in Hfit as [Hk Hl].
  apply Nat.eqb_neq in Hk. apply Nat.leb_gt in Hl.
  rewrite (replay_loop_blocked c cl (history h) _ (offer join cl)); simpl.
  - done.
  - rewrite offer_all_lookup, Hc. simpl.
    by rewrite decide_True by (unfold mem; set_solver).
  - rewrite offer_closed. by apply (wf_open h c).
  - intros Hnil. by rewrite Hnil in Hk.
  - rewrite length_offer, offer_cap.
    destruct (has_room (send cl)) eqn:Hr; [lia|].
    apply has_room_false in Hr. lia.
Qed.

Lemma removeClientFromRoom_absent (t_leave t_list : Time) (c : ClientId)
  (cl : Client) (h : Hub) :
  heap h !! c = Some cl -> rooms h !! room cl = None ->
  removeClientFromRoom t_leave t_list c h = Done h.
Proof. intros Hc Hr. unfold removeClientFromRoom. by rewrite Hc, Hr. Qed.

Lemma removeClientFromRoom_eq (t_leave t_list : Time) (c : ClientId)
  (cl : Client) (r : Room) (h : Hub) :
  wf h -> heap h !! c = Some cl -> rooms h !! room cl = Some r ->
  removeClientFromRoom t_leave t_list c h
  = Done (after_unregister t_leave t_list c cl r h).
Proof.
  intros Hwf Hc Hr. unfold removeClientFromRoom. rewrite Hc, Hr.
  destruct (wf_room h _ r Hwf Hr) as [Hn _].
  unfold leave_msg. rewrite Hn. simpl.
  set (R := room cl) in *. set (mem := Clients r ∖ {[c]}).
  set (leave := mkMessage "leave" R (username cl) _ _).
  assert (Hok : forall d, d ∈ mem ->
            exists dl, heap h !! d = Some dl /\ closed (send dl) = false).
  { intros d Hd. apply elem_of_difference in Hd as [Hd _].
    destruct (wf_member h R r d Hwf Hr Hd) as (dl & Hdl & _).
    exists dl. split; [done|]. by apply (wf_open h d). }
  rewrite (broadcastToRoom_eq R leave _ (mkRoom R mem));
    [|by simpl; rewrite lookup_insert_eq|done].
  simpl.
  rewrite (sendUserListToRoom_eq t_list R _ (mkRoom R mem));
    [|by simpl; rewrite lookup_insert_eq|].
  2:{ simpl. intros d Hd.
      apply (ok_transfer (heap h)); [apply same_ids_offer_all|by apply Hok]. }
  unfold after_unregister, set_heap, set_rooms. simpl.
  fold R. fold mem. fold leave.
  rewrite names_of_offer_all.
  destruct (Nat.eqb (size mem) 0); simpl; [|done].
  by rewrite delete_insert_eq.
Qed.

End RegisterFacts.

Section Invariant.
Context `{Platform}.

Lemma wf_NewHub (m : gmap ClientId Client) :
  heap_open m = true -> wf (NewHub m).
Proof.
  intros Ho. apply wf_spec. simpl. split.
  - intros k r Hk. by rewrite lookup_empty in Hk.
  - by apply heap_open_spec.
Qed.

Lemma wf_insert_room (h : Hub) (R : string) (mem : gset ClientId) :
  wf h -> mem ≠ ∅ ->
  (forall d, d ∈ mem -> exists dl, heap h !! d = Some dl /\ room dl = R) ->
  wf (mkHub (<[R := mkRoom R mem]> (rooms h)) (history h) (heap h)).
Proof.
  intros Hwf Hne Hmem. apply wf_spec in Hwf as [Hr Ho].
  apply wf_spec. simpl. split; [|done].
  intros k r Hk. destruct (decide (k = R)) as [->|Hk'].
  - rewrite lookup_insert_eq in Hk. by simplify_eq.
  - rewrite lookup_insert_ne in Hk by done. by apply Hr.
Qed.

Lemma wf_delete_room (h : Hub) (R : string) :
  wf h -> wf (mkHub (delete R (rooms h)) (history h) (heap h)).
Proof.
  intros Hwf. apply wf_spec in Hwf as [Hr Ho].
  apply wf_spec. simpl. split; [|done].
  intros k r Hk. apply lookup_delete_Some in Hk as [_ Hk]. by apply Hr.
Qed.

Lemma same_ids_after_register (t_join t_list : Time) (c : ClientId)
  (cl : Client) (h : Hub) :
  heap h !! c = Some cl ->
  same_ids (heap h) (heap (after_register t_join t_list c cl h)).
Proof.
  intros Hc. unfold after_register. simpl.
  assert (Hin : c ∈ {[c]} ∪ members h (room cl)) by set_solver.
  eapply same_ids_trans; [|apply same_ids_offer_all].
  eapply same_ids_trans; [apply same_ids_offer_all|].
  eapply same_ids_insert.
  - rewrite offer_all_lookup, Hc. simpl. by rewrite decide_True.
  - by rewrite ident_push_all.
Qed.

Lemma same_ids_after_unregister (t_leave t_list : Time) (c : ClientId)
  (cl : Client) (r : Room) (h : Hub) :
  same_ids (heap h) (heap (after_unregister t_leave t_list c cl r h)).
Proof.
  unfold after_unregister. simpl.
  eapply same_ids_trans; apply same_ids_offer_all.
Qed.

Lemma wf_after_register (t_join t_list : Time) (c : ClientId) (cl : Client)
  (h : Hub) :
  wf h -> heap h !! c = Some cl -> wf (after_register t_join t_list c cl h).
Proof.
  intros Hwf Hc.
  eapply (wf_same_ids _ (history h) _ (heap h)).
  - apply (wf_insert_room h (room cl) ({[c]} ∪ members h (room cl)) Hwf).
    + set_solver.
    + intros d Hd.
      destruct (register_members_ok c cl h Hwf Hc d Hd) as (dl & ? & ? & ?).
      by exists dl.
  - by apply same_ids_after_register.
Qed.

Lemma wf_after_unregister (t_leave t_list : Time) (c : ClientId) (cl : Client)
  (r : Room) (h : Hub) :
  wf h -> rooms h !! room cl = Some r ->
  wf (after_unregister t_leave t_list c cl r h).
Proof.
  intros Hwf Hr. unfold after_unregister.
  eapply (wf_same_ids _ (history h) _ (heap h));
    [|apply (same_ids_after_unregister t_leave t_list c cl r h)].
  destruct (Nat.eqb (size (Clients r ∖ {[c]})) 0) eqn:Hs.
  - by apply wf_delete_room.
  - apply wf_insert_room; [done| |].
    + apply Nat.eqb_neq in Hs. intros He. apply Hs. rewrite He.
      apply size_empty.
    + intros d Hd. apply elem_of_difference in Hd as [Hd _].
      by apply (wf_member h _ r).
Qed.

Lemma broadcastToRoom_done (name : string) (msg : Message) (h h' : Hub) :
  wf h -> broadcastToRoom name msg h = Done h' ->
  h' = set_heap h (offer_all msg (members h name) (heap h)).
Proof.
  intros Hwf Hb. destruct (rooms h !! name) as [r|] eqn:Hr.
  - rewrite (broadcastToRoom_eq name msg h r Hr) in Hb.
    + rewrite (members_lookup h name r Hr). congruence.
    + intros c Hc. destruct (wf_member h name r c Hwf Hr Hc) as (cl & Hcl & _).
      exists cl. split; [done|]. by apply (wf_open h c).
  - rewrite (broadcastToRoom_absent name msg h Hr) in Hb.
    rewrite (members_absent h name Hr), offer_all_empty, set_heap_id.
    congruence.
Qed.

Lemma broadcastToRoom_total (name : string) (msg : Message) (h : Hub) :
  wf h ->
  broadcastToRoom name msg h
  = Done (set_heap h (offer_all msg (members h name) (heap h))).
Proof.
  intros Hwf. destruct (rooms h !! name) as [r|] eqn:Hr.
  - rewrite (members_lookup h name r Hr).
    apply broadcastToRoom_eq; [done|].
    intros c Hc. destruct (wf_member h name r c Hwf Hr Hc) as (cl & Hcl & _).
    exists cl. split; [done|]. by apply (wf_open h c).
  - rewrite (broadcastToRoom_absent name msg h Hr).
    by rewrite (members_absent h name Hr), offer_all_empty, set_heap_id.
Qed.

Lemma wf_offer_all (msg : Message) (s : gset ClientId) (h : Hub) :
  wf h -> wf (set_heap h (offer_all msg s (heap h))).
Proof.
  intros Hwf. destruct h as [rs hs hp]. unfold set_heap. simpl.
  eapply wf_same_ids; [exact Hwf|apply same_ids_offer_all].
Qed.

(** What a step of the loop does to a well-formed hub. *)
Lemma run_step_cases (now : nat -> Time) (q : Request) (h h' : Hub) :
  wf h -> run_step now q h = Done h' ->
  match q with
  | Register c =>
      exists cl, heap h !! c = Some cl /\ replay_fits cl h = true /\
                 h' = after_register (now 0) (now 1) c cl h
  | Unregister c =>
      exists cl, heap h !! c = Some cl /\
        match rooms h !! room cl with
        | None => h' = h
        | Some r => h' = after_unregister (now 0) (now 1) c cl r h
        end
  | Broadcast msg =>
      h' = set_heap h (offer_all msg (members h (msgRoom msg)) (heap h))
  end.
Proof.
  intros Hwf Hstep. destruct q as [c|c|msg]; simpl in Hstep.
  - destruct (heap h !! c) as [cl|] eqn:Hc.
    + exists cl. split; [done|].
      destruct (replay_fits cl h) eqn:Hfit.
      * rewrite (addClientToRoom_eq _ _ c cl h Hwf Hc Hfit) in Hstep.
        split; [done|]. congruence.
      * by rewrite (addClientToRoom_blocked _ _ c cl h Hwf Hc Hfit) in Hstep.
    + unfold addClientToRoom in Hstep. by rewrite Hc in Hstep.
  - destruct (heap h !! c) as [cl|] eqn:Hc.
    + exists cl. split; [done|].
      destruct (rooms h !! room cl) as [r|] eqn:Hr.
      * rewrite (removeClientFromRoom_eq _ _ c cl r h Hwf Hc Hr) in Hstep.
        congruence.
      * rewrite (removeClientFromRoom_absent _ _ c cl h Hc Hr) in Hstep.
        congruence.
    + unfold removeClientFromRoom in Hstep. by rewrite Hc in Hstep.
  - by apply broadcastToRoom_done.
Qed.

Lemma run_step_wf (now : nat -> Time) (q : Request) (h h' : Hub) :
  wf h -> run_step now q h = Done h' -> wf h'.
Proof.
  intros Hwf Hstep. pose proof (run_step_cases now q h h' Hwf Hstep) as Hc.
  destruct q as [c|c|msg].
  - destruct Hc as (cl & Hcl & _ & ->). by apply wf_after_register.
  - destruct Hc as (cl & Hcl & Hc).
    destruct (rooms h !! room cl) as [r|] eqn:Hr; subst h'; [|done].
    by apply wf_after_unregister.
  - subst h'. by apply wf_offer_all.
Qed.

Lemma run_wf (clock : nat -> nat -> Time) (qs : list Request) (k : nat)
  (h h' : Hub) :
  wf h -> run clock k qs h = Done h' -> wf h'.
Proof.
  revert k h. induction qs as [|q qs IH]; intros k h Hwf Hrun; simpl in Hrun.
  - congruence.
  - destruct (run_step (clock k) q h) as [h1| |] eqn:Hstep; simpl in Hrun;
      [|done|done].
    apply (IH (S k) h1); [|done]. by apply (run_step_wf (clock k) q h).
Qed.

End Invariant.

Section Membership.
Context `{Platform}.

Lemma members_after_register (t_join t_list : Time) (c : ClientId)
  (cl : Client) (h : Hub) (k : string) :
  members (after_register t_join t_list c cl h) k
  = if decide (k = room cl) then {[c]} ∪ members h (room cl) else members h k.
Proof.
  unfold members at 1. unfold after_register. simpl.
  destruct (decide (k = room cl)) as [->|Hk].
  - by rewrite lookup_insert_eq.
  - by rewrite lookup_insert_ne.
Qed.

Lemma members_after_unregister (t_leave t_list : Time) (c : ClientId)
  (cl : Client) (r : Room) (h : Hub) (k : string) :
  rooms h !! room cl = Some r ->
  members (after_unregister t_leave t_list c cl r h) k
  = if decide (k = room cl) then Clients r ∖ {[c]} else members h k.
Proof.
  intros Hr. unfold members at 1. unfold after_unregister. simpl.
  destruct (Nat.eqb (size (Clients r ∖ {[c]})) 0) eqn:Hs.
  - apply Nat.eqb_eq in Hs. apply size_empty_inv in Hs. unfold_leibniz.
    destruct (decide (k = room cl)) as [->|Hk].
    + by rewrite lookup_delete_eq, Hs.
    + by rewrite lookup_delete_ne.
  - destruct (decide (k = room cl)) as [->|Hk].
    + by rewrite lookup_insert_eq.
    + by rewrite lookup_insert_ne.
Qed.

Lemma members_set_heap (h : Hub) (hp : gmap ClientId Client) (k : string) :
  members (set_heap h hp) k = members h k.
Proof. done. Qed.

Lemma tracks_same_room (s : gset ClientId) (h : Hub) (hp' : gmap ClientId Client)
  (rs' : gmap string Room) (hs' : list Notification) (s' : gset ClientId) :
  same_ids (heap h) hp' ->
  (forall d dl, heap h !! d = Some dl ->
     (d ∈ members (mkHub rs' hs' hp') (room dl) <-> d ∈ s')) ->
  tracks s' (mkHub rs' hs' hp').
Proof.
  intros Hs Ht d dl' Hd. simpl in Hd.
  destruct (same_ids_lookup _ _ _ _ (same_ids_sym _ _ Hs) Hd) as (dl & Hdl & Hi).
  assert (Hr : room dl' = room dl) by (unfold ident in Hi; congruence).
  rewrite Hr. by apply Ht.
Qed.

Lemma run_step_tracks (now : nat -> Time) (q : Request) (s : gset ClientId)
  (h h' : Hub) :
  wf h -> tracks s h -> run_step now q h = Done h' ->
  tracks (live_step s q) h' /\ same_ids (heap h) (heap h').
Proof.
  intros Hwf Ht Hstep.
  pose proof (run_step_cases now q h h' Hwf Hstep) as Hc.
  destruct q as [c|c|msg]; simpl.
  - destruct Hc as (cl & Hcl & _ & ->).
    split; [|by apply same_ids_after_register].
    apply (tracks_same_room s h); [by apply same_ids_after_register|].
    intros d dl Hdl.
    change (mkHub _ _ _) with (after_register (now 0) (now 1) c cl h).
    rewrite members_after_register.
    destruct (decide (room dl = room cl)) as [He|Hne].
    + rewrite <- He, elem_of_union, elem_of_union, (Ht d dl Hdl). done.
    + rewrite (Ht d dl Hdl), elem_of_union, elem_of_singleton.
      split; [by right|]. intros [->|Hd]; [|done]. congruence.
  - destruct Hc as (cl & Hcl & Hc).
    destruct (rooms h !! room cl) as [r|] eqn:Hr; subst h'.
    + split; [|by apply same_ids_after_unregister].
      apply (tracks_same_room s h); [by apply same_ids_after_unregister|].
      intros d dl Hdl.
      change (mkHub _ _ _) with (after_unregister (now 0) (now 1) c cl r h).
      rewrite (members_after_unregister _ _ c cl r h _ Hr).
      destruct (decide (room dl = room cl)) as [He|Hne].
      * rewrite !elem_of_difference.
        rewrite <- (members_lookup h (room cl) r Hr), <- He, (Ht d dl Hdl).
        done.
      * rewrite (Ht d dl Hdl), elem_of_difference, elem_of_singleton.
        split; [|by intros [? _]]. intros Hd. split; [done|].
        intros ->. congruence.
    + split; [|apply same_ids_refl].
      intros d dl Hdl. rewrite (Ht d dl Hdl), elem_of_difference, elem_of_singleton.
      split; [|by intros [? _]]. intros Hd. split; [done|].
      intros ->. apply (Ht c dl Hdl) in Hd.
      assert (dl = cl) as -> by congruence.
      rewrite (members_absent h (room cl) Hr) in Hd. set_solver.
  - subst h'. split; [|apply same_ids_offer_all].
    destruct h as [rs hs hp]. unfold set_heap. simpl.
    apply (tracks_same_room s (mkHub rs hs hp)); [apply same_ids_offer_all|].
    intros d dl Hdl. by apply (Ht d dl Hdl).
Qed.

Lemma run_tracks (clock : nat -> nat -> Time) (qs : list Request) (k : nat)
  (s : gset ClientId) (h h' : Hub) :
  wf h -> tracks s h -> run clock k qs h = Done h' ->
  tracks (foldl live_step s qs) h' /\ same_ids (heap h) (heap h').
Proof.
  revert k s h. induction qs as [|q qs IH]; intros k s h Hwf Ht Hrun;
    simpl in Hrun.
  - assert (h' = h) as -> by congruence. split; [done|apply same_ids_refl].
  - destruct (run_step (clock k) q h) as [h1| |] eqn:Hstep; simpl in Hrun;
      [|done|done].
    destruct (run_step_tracks _ q s h h1 Hwf Ht Hstep) as [Ht1 Hs1].
    destruct (IH (S k) (live_step s q) h1) as [Ht' Hs']; [|done|done|].
    + by apply (run_step_wf (clock k) q h).
    + split; [done|]. by eapply same_ids_trans.
Qed.

Lemma tracks_NewHub (m : gmap ClientId Client) : tracks ∅ (NewHub m).
Proof. intros c cl _. unfold members. simpl. by rewrite lookup_empty. Qed.

End Membership.

Section HistoryFacts.

Lemma history_addNotification (uuid : string) (n : Notification) (h : Hub) :
  history (addNotification uuid n h)
  = drop (length (history h ++ [stamped (uuid, n)]) - 50)
         (history h ++ [stamped (uuid, n)]).
Proof.
  unfold addNotification, stamped. simpl.
  set (hs := history h ++ _).
  destruct (Nat.ltb 50 (length hs)) eqn:Hl; [done|].
  apply Nat.ltb_ge in Hl. by replace (length hs - 50) with 0 by lia.
Qed.

(** Keeping the last 50 at every step keeps the last 50 of the whole. *)
Lemma drop_last_app {A : Type} (l k : list A) :
  drop (length (drop (length l - 50) l ++ k) - 50) (drop (length l - 50) l ++ k)
  = drop (length (l ++ k) - 50) (l ++ k).
Proof.
  destruct (decide (length l <= 50)) as [Hle|Hgt].
  - by replace (length l - 50) with 0 by lia.
  - rewrite !length_app, length_drop.
    replace (length l - (length l - 50) + length k - 50) with (length k) by lia.
    replace (length l + length k - 50) with ((length l - 50) + length k) by lia.
    rewrite <- drop_drop. f_equal. rewrite drop_app_le by lia. done.
Qed.

Lemma history_submit (ps : list (string * Notification)) (h : Hub) :
  length (history h) <= 50 ->
  history (submit ps h)
  = drop (length (history h ++ (stamped <$> ps)) - 50)
         (history h ++ (stamped <$> ps)).
Proof.
  revert h. induction ps as [|[u n] ps IH]; intros h Hh; simpl.
  - rewrite app_nil_r. by replace (length (history h) - 50) with 0 by lia.
  - unfold submit in *. simpl. rewrite IH.
    + rewrite history_addNotification, drop_last_app.
      by rewrite <- app_assoc.
    + rewrite history_addNotification, length_drop. lia.
Qed.

End HistoryFacts.

Section FrameFacts.
Context `{Platform}.

Lemma forM_preserves {A S B : Type} (proj : S -> B) (f : A -> S -> outcome S)
  (l : list A) (s s' : S) :
  (forall x a a', f x a = Done a' -> proj a' = proj a) ->
  forM_ f l s = Done s' -> proj s' = proj s.
Proof.
  intros Hf. revert s. induction l as [|x l IH]; intros s Hl; simpl in Hl.
  - congruence.
  - destruct (f x s) as [s1| |] eqn:Hx; simpl in Hl; [|done|done].
    rewrite (IH s1 Hl). by apply (Hf x).
Qed.

Lemma client_send_frame (c : ClientId) (m : Message) (h h' : Hub) :
  client_send c m h = Done h' -> frame h' = frame h.
Proof.
  unfold client_send. destruct (heap h !! c) as [cl|]; [|done].
  destruct (chan_send (send cl) m); simpl; [|done|done].
  intros Hd. by simplify_eq.
Qed.

Lemma client_try_send_frame (c : ClientId) (m : Message) (h h' : Hub) :
  client_try_send c m h = Done h' -> frame h' = frame h.
Proof.
  unfold client_try_send. destruct (heap h !! c) as [cl|]; [|done].
  destruct (chan_try_send (send cl) m) as [[ch|]| |]; simpl; [| |done|done];
    intros Hd; by simplify_eq.
Qed.

Lemma broadcastToRoom_frame (name : string) (msg : Message) (h h' : Hub) :
  broadcastToRoom name msg h = Done h' -> frame h' = frame h.
Proof.
  unfold broadcastToRoom. destruct (rooms h !! name) as [r|].
  - apply forM_preserves. intros c a a'. apply client_try_send_frame.
  - congruence.
Qed.

Lemma routeNotification_frame (uuid : string) (n : Notification) (h h' : Hub) :
  routeNotification uuid n h = Done h' ->
  frame h' = frame (addNotification uuid n h).
Proof.
  unfold routeNotification.
  destruct (String.eqb (nTarget n) "all").
  { apply forM_preserves. intros name a a'. apply broadcastToRoom_frame. }
  destruct (HasPrefix (nTarget n) "room:").
  { apply broadcastToRoom_frame. }
  destruct (HasPrefix (nTarget n) "user:"); [|congruence].
  apply forM_preserves. intros [k r] a a'.
  apply forM_preserves. intros c b b'.
  destruct (heap b !! c) as [cl|]; [|done].
  destruct (String.eqb (username cl) _); [apply client_send_frame|congruence].
Qed.

Lemma submit_frame_ext (ps : list (string * Notification)) (h1 h2 : Hub) :
  frame h1 = frame h2 -> frame (submit ps h1) = frame (submit ps h2).
Proof.
  unfold submit. revert h1 h2.
  induction ps as [|[u n] ps IH]; intros h1 h2 H12; simpl; [done|].
  apply IH. unfold frame in H12. injection H12 as Hr Hh.
  unfold frame, addNotification. simpl. by rewrite Hr, Hh.
Qed.

Lemma route_all_history (ps : list (string * Notification)) (h h' : Hub) :
  route_all ps h = Done h' -> frame h' = frame (submit ps h).
Proof.
  unfold route_all. revert h.
  induction ps as [|[u n] ps IH]; intros h Hr; simpl in Hr.
  - by simplify_eq.
  - destruct (routeNotification u n h) as [h1| |] eqn:H1; simpl in Hr;
      [|done|done].
    rewrite (IH h1 Hr).
    change (submit ((u, n) :: ps) h) with (submit ps (addNotification u n h)).
    apply submit_frame_ext. by apply routeNotification_frame.
Qed.

End FrameFacts.

Section PendingFacts.

Lemma pending_comm (j1 j2 : ClientId) (z1 z2 : Client) (y : nat) :
  length (buf (send z1)) + (length (buf (send z2)) + y)
  = length (buf (send z2)) + (length (buf (send z1)) + y).
Proof. lia. Qed.

Lemma pending_delete (hp : gmap ClientId Client) (c : ClientId) (cl : Client) :
  hp !! c = Some cl ->
  pending hp = length (buf (send cl)) + pending (delete c hp).
Proof.
  intros Hc. unfold pending.
  apply (map_fold_delete_L (fun _ cl n => length (buf (send cl)) + n));
    [|done].
  intros. apply pending_comm; done.
Qed.

Lemma pending_insert (hp : gmap ClientId Client) (c : ClientId)
  (cl cl' : Client) :
  hp !! c = Some cl ->
  pending (<[c := cl']> hp) + length (buf (send cl))
  = pending hp + length (buf (send cl')).
Proof.
  intros Hc. rewrite (pending_delete hp c cl Hc).
  rewrite <- (insert_delete_eq hp). unfold pending at 1.
  rewrite (map_fold_insert_L (fun _ cl n => length (buf (send cl)) + n)).
  - fold (pending (delete c hp)). lia.
  - intros. apply pending_comm; done.
  - apply lookup_delete_eq.
Qed.

Lemma ready_spec (hp : gmap ClientId Client) (c : ClientId) :
  ready hp c = true <->
  exists cl, hp !! c = Some cl /\ closed (send cl) = false /\
             has_room (send cl) = true.
Proof.
  unfold ready. destruct (hp !! c) as [cl|].
  - rewrite andb_true_iff, negb_true_iff. split.
    + intros [? ?]. by exists cl.
    + intros (cl' & ? & ? & ?). by simplify_eq.
  - split; [done|]. by intros (cl & ? & _).
Qed.

Lemma is_open_spec (hp : gmap ClientId Client) (c : ClientId) :
  is_open hp c = true <->
  exists cl, hp !! c = Some cl /\ closed (send cl) = false.
Proof.
  unfold is_open. destruct (hp !! c) as [cl|].
  - rewrite negb_true_iff. split.
    + intros ?. by exists cl.
    + intros (cl' & ? & ?). by simplify_eq.
  - split; [done|]. by intros (cl & ? & _).
Qed.

Lemma all_ready_spec (hp : gmap ClientId Client) (s : gset ClientId) :
  all_ready hp s = true <-> (forall c, c ∈ s -> ready hp c = true).
Proof.
  unfold all_ready. rewrite forallb_elem_of.
  split; intros Hf c Hc; apply Hf; by apply elem_of_elements.
Qed.

Lemma all_open_spec (hp : gmap ClientId Client) (s : gset ClientId) :
  all_open hp s = true <-> (forall c, c ∈ s -> is_open hp c = true).
Proof.
  unfold all_open. rewrite forallb_elem_of.
  split; intros Hf c Hc; apply Hf; by apply elem_of_elements.
Qed.

Lemma offer_all_union (m : Message) (s : gset ClientId)
  (hp : gmap ClientId Client) (c : ClientId) (cl : Client) :
  hp !! c = Some cl -> c ∉ s ->
  offer_all m ({[c]} ∪ s) hp = <[c := offer m cl]> (offer_all m s hp).
Proof.
  intros Hc Hs. apply map_eq. intros i.
  destruct (decide (i = c)) as [->|Hne].
  - rewrite lookup_insert_eq, offer_all_lookup, Hc. simpl.
    by rewrite decide_True by set_solver.
  - rewrite lookup_insert_ne, !offer_all_lookup by done.
    destruct (hp !! i); simpl; [|done]. f_equal.
    destruct (decide (i ∈ s)).
    + by rewrite decide_True by set_solver.
    + by rewrite decide_False by set_solver.
Qed.

Lemma pending_offer_all (m : Message) (s : gset ClientId)
  (hp : gmap ClientId Client) :
  (forall c, c ∈ s -> ready hp c = true) ->
  pending (offer_all m s hp) = pending hp + size s.
Proof.
  induction s as [|c s Hc IH] using set_ind_L; intros Hr.
  - rewrite offer_all_empty, size_empty. lia.
  - destruct (proj1 (ready_spec hp c)) as (cl & Hcl & Ho & Hroom);
      [apply Hr; set_solver|].
    rewrite (offer_all_union m s hp c cl Hcl Hc).
    assert (Hl : offer_all m s hp !! c = Some cl).
    { rewrite offer_all_lookup, Hcl. simpl. by rewrite decide_False. }
    pose proof (pending_insert _ c cl (offer m cl) Hl) as Hp.
    rewrite length_offer, Hroom in Hp.
    rewrite size_union, size_singleton by set_solver.
    rewrite IH in Hp by (intros d Hd; apply Hr; set_solver). lia.
Qed.

End PendingFacts.

Section BcastFacts.
Context `{Platform}.

Lemma bcast_open_spec (h : Bcast.Hub) :
  bcast_open h = true <->
  (forall c, c ∈ Bcast.clients h ->
     exists cl, Bcast.heap h !! c = Some cl /\ closed (Bcast.Send cl) = false).
Proof.
  unfold bcast_open. rewrite forallb_elem_of. split.
  - intros Hf c Hc. apply elem_of_elements in Hc. apply Hf in Hc.
    destruct (Bcast.heap h !! c) as [cl|]; [|done].
    exists cl. split; [done|]. by apply negb_true_iff.
  - intros Hf c Hc. apply elem_of_elements in Hc.
    destruct (Hf c Hc) as (cl & -> & Ho). by apply negb_true_iff.
Qed.

Lemma broadcast_one_eq (message : string) (c : ClientId) (h : Bcast.Hub)
  (cl : Bcast.Client) :
  Bcast.heap h !! c = Some cl -> closed (Bcast.Send cl) = false ->
  Bcast.broadcast_one message c h
  = Done (Bcast.mkHub
            (if has_room (Bcast.Send cl) then Bcast.clients h
             else Bcast.clients h ∖ {[c]})
            (<[c := bcast_client message cl]> (Bcast.heap h))).
Proof.
  intros Hc Ho.
  unfold Bcast.broadcast_one, chan_try_send, bcast_client.
  rewrite Hc, Ho. destruct (has_room (Bcast.Send cl)); simpl; [done|].
  unfold Bcast.close_send, chan_close. by rewrite Hc, Ho.
Qed.

(** The loop of the [broadcast] case over clients with an open mailbox:
    every client of the loop gets the message or is closed and deleted. *)
Lemma bcast_loop (message : string) (l : list ClientId) (h : Bcast.Hub) :
  NoDup l ->
  (forall c, c ∈ l ->
     exists cl, Bcast.heap h !! c = Some cl /\ closed (Bcast.Send cl) = false) ->
  exists h',
    forM_ (Bcast.broadcast_one message) l h = Done h'
    /\ (forall c, Bcast.heap h' !! c
                  = if decide (c ∈ l)
                    then bcast_client message <$> Bcast.heap h !! c
                    else Bcast.heap h !! c)
    /\ (forall c, c ∈ Bcast.clients h' <->
          c ∈ Bcast.clients h /\
          ~ (c ∈ l /\ exists cl, Bcast.heap h !! c = Some cl /\
                                 has_room (Bcast.Send cl) = false)).
Proof.
  revert h. induction l as [|c l IH]; intros h Hnd Hl.
  - exists h. split; [done|]. split.
    + intros c. by rewrite decide_False by apply not_elem_of_nil.
    + intros c. split; [|by intros [? _]]. intros Hc. split; [done|].
      intros [Hin _]. by apply not_elem_of_nil in Hin.
  - apply NoDup_cons in Hnd as [Hc Hnd].
    destruct (Hl c) as (cl & Hcl & Ho); [by left|].
    simpl. rewrite (broadcast_one_eq message c h cl Hcl Ho). simpl.
    set (h1 := Bcast.mkHub _ _).
    destruct (IH h1 Hnd) as (h' & Hrun & Hheap & Hcli).
    { intros d Hd. simpl. rewrite lookup_insert_ne by (intros ->; done).
      apply Hl. by right. }
    exists h'. split; [done|]. split.
    + intros d. rewrite Hheap. simpl.
      destruct (decide (d = c)) as [->|Hne].
      * rewrite decide_False by done. rewrite decide_True by left.
        by rewrite lookup_insert_eq, Hcl.
      * rewrite lookup_insert_ne by done.
        destruct (decide (d ∈ l)).
        -- by rewrite decide_True by (by right).
        -- rewrite decide_False; [done|]. intros Hd.
           apply elem_of_cons in Hd as [?|?]; done.
    + intros d. rewrite Hcli. simpl.
      destruct (decide (d = c)) as [->|Hne].
      * rewrite lookup_insert_eq.
        destruct (has_room (Bcast.Send cl)) eqn:Hroom.
        -- split.
           ++ intros [Hd _]. split; [done|].
              intros [_ (cl' & Hcl' & Hfull)]. congruence.
           ++ intros [Hd _]. split; [done|]. by intros [Hin _].
        -- split.
           ++ intros [Hd _]. apply elem_of_difference in Hd as [_ Hd].
              exfalso. by apply Hd, elem_of_singleton.
           ++ intros [_ Hd]. exfalso. apply Hd. split; [by left|].
              by exists cl.
      * rewrite lookup_insert_ne by done.
        assert (Hcl' : d ∈ (if has_room (Bcast.Send cl) then Bcast.clients h
                            else Bcast.clients h ∖ {[c]})
                       <-> d ∈ Bcast.clients h).
        { destruct (has_room (Bcast.Send cl)); [done|]. set_solver. }
        rewrite Hcl', elem_of_cons. clear Hcl'. split.
        -- intros [Hd Hnot]. split; [done|].
           intros [[?|Hin] Hfull]; [done|]. apply Hnot. by split.
        -- intros [Hd Hnot]. split; [done|].
           intros [Hin Hfull]. apply Hnot. split; [by right|done].
Qed.

End BcastFacts.

Section ReplayFacts.

Lemma replay_match_spec (cl : Client) (n : Notification) :
  replay_match cl n = true <->
  nTarget n = "all" \/ nTarget n = ("room:" +:+ room cl)
  \/ nTarget n = ("user:" +:+ username cl).
Proof.
  unfold replay_match. split.
  - destruct (String.eqb (nTarget n) "all") eqn:Hall.
    { intros _. left. by apply String.eqb_eq. }
    destruct (HasPrefix (nTarget n) "room:") eqn:Hroom.
    { intros He. apply String.eqb_eq in He. right. left.
      rewrite <- He. by apply HasPrefix_split. }
    destruct (HasPrefix (nTarget n) "user:") eqn:Huser; [|done].
    intros He. apply String.eqb_eq in He. right. right.
    rewrite <- He. by apply HasPrefix_split.
  - intros [->|[->| ->]].
    + done.
    + change (String.eqb ("room:" +:+ room cl) "all") with false.
      rewrite HasPrefix_app, TrimPrefix_app. apply String.eqb_refl.
    + change (String.eqb ("user:" +:+ username cl) "all") with false.
      change (HasPrefix ("user:" +:+ username cl) "room:") with false.
      rewrite HasPrefix_app, TrimPrefix_app. apply String.eqb_refl.
Qed.

Lemma fresh_client_fits (cl : Client) (h : Hub) :
  send cl = make_chan 256 -> length (history h) <= 50 ->
  replay_fits cl h = true.
Proof.
  intros Hs Hh. unfold replay_fits. rewrite Hs. simpl.
  apply orb_true_iff. right. apply Nat.leb_le.
  pose proof (length_filter (fun n => replay_match cl n = true) (history h)).
  lia.
Qed.

End ReplayFacts.

Section StatsFacts.
Context `{Platform}.

Lemma foldl_insert_lookup {V W : Type} (f : V -> W) (l : list (string * V))
  (d0 : gmap string W) (k : string) :
  NoDup l.*1 ->
  (forall v, (k, v) ∈ l ->
     foldl (fun d '(k', v') => <[k' := f v']> d) d0 l !! k = Some (f v))
  /\ (k ∉ l.*1 ->
     foldl (fun d '(k', v') => <[k' := f v']> d) d0 l !! k = d0 !! k).
Proof.
  revert d0. induction l as [|[k' v'] l IH]; intros d0 Hnd.
  - split; [intros v Hv; by apply not_elem_of_nil in Hv|done].
  - rewrite fmap_cons in Hnd. apply NoDup_cons in Hnd as [Hk' Hnd]. simpl in *.
    destruct (IH (<[k' := f v']> d0) Hnd) as [IH1 IH2]. split.
    + intros v Hv. apply elem_of_cons in Hv as [Hv|Hv].
      * simplify_eq. rewrite IH2 by done. by rewrite lookup_insert_eq.
      * by apply IH1.
    + intros Hk. apply not_elem_of_cons in Hk as [Hne Hk].
      rewrite IH2 by done. by rewrite lookup_insert_ne.
Qed.

Lemma roomDetails_sizes (h : Hub) : roomDetails h = room_sizes h.
Proof.
  apply map_eq. intros k. unfold roomDetails, room_sizes.
  rewrite lookup_fmap.
  destruct (foldl_insert_lookup (fun r => size (Clients r))
              (range_map (rooms h)) ∅ k (NoDup_fst_range_map _)) as [H1 H2].
  destruct (rooms h !! k) as [r|] eqn:Hk; simpl.
  - apply H1. by apply elem_of_range_map.
  - rewrite H2; [done|]. rewrite elem_of_fst_range_map, Hk.
    by intros [? ?].
Qed.

Lemma foldl_add_sum {K : Type} (l : list (K * nat)) (a : nat) :
  foldl (fun t '(_, v) => t + v) a l = a + sum_list l.*2.
Proof.
  revert a. induction l as [|[k v] l IH]; intros a; simpl; [lia|].
  rewrite IH. symmetry. apply Nat.add_assoc.
Qed.

Lemma sum_list_fmap_snd {K V : Type} (f : V -> nat) (l : list (K * V)) :
  sum_list (prod_map id f <$> l).*2 = sum_list ((fun kv => f kv.2) <$> l).
Proof.
  induction l as [|[k v] l IH]; [done|].
  rewrite !fmap_cons. simpl. f_equal. exact IH.
Qed.

Lemma hub_stats_eq (h : Hub) :
  hub_stats h = mkStats (session_total h) (size (rooms h)) (room_sizes h).
Proof.
  unfold hub_stats. rewrite roomDetails_sizes. f_equal.
  - rewrite foldl_add_sum. simpl. unfold range_map.
    rewrite range_order_perm. unfold room_sizes, session_total.
    rewrite map_to_list_fmap.
    apply (sum_list_fmap_snd (fun r => size (Clients r))).
  - unfold room_sizes. apply map_size_fmap.
Qed.

End StatsFacts.

Section CommandFacts.
Context `{Platform}.

Lemma sendUserListToRoom_total (now : Time) (name : string) (h : Hub) :
  wf h ->
  sendUserListToRoom now name h
  = Done (set_heap h
            (offer_all
               (user_list_msg now name
                  (names_of (heap h) (range_set (members h name))))
               (members h name) (heap h))).
Proof.
  intros Hwf. destruct (rooms h !! name) as [r|] eqn:Hr.
  - rewrite (members_lookup h name r Hr).
    apply sendUserListToRoom_eq; [done|].
    intros c Hc. destruct (wf_member h name r c Hwf Hr Hc) as (cl & Hcl & _).
    exists cl. split; [done|]. by apply (wf_open h c).
  - rewrite (sendUserListToRoom_absent now name h Hr).
    by rewrite (members_absent h name Hr), offer_all_empty, set_heap_id.
Qed.

Lemma handleCommand_reply (now : Time) (c : ClientId) (cl : Client)
  (cmd : string) (h : Hub) :
  heap h !! c = Some cl -> cmd <> "/users" ->
  handleCommand now c cmd h = client_send c (command_reply now cl cmd h) h.
Proof.
  intros Hc Hcmd. unfold handleCommand, command_reply. rewrite Hc.
  destruct (String.eqb cmd "/users") eqn:Hu.
  { by apply String.eqb_eq in Hu. }
  destruct (String.eqb cmd "/stats") eqn:Hs.
  { apply String.eqb_eq in Hs. rewrite decide_True by done.
    by rewrite hub_stats_eq. }
  apply String.eqb_neq in Hs. rewrite decide_False by done.
  destruct (String.eqb cmd "/rooms") eqn:Hr.
  { apply String.eqb_eq in Hr. by rewrite decide_True. }
  apply String.eqb_neq in Hr. by rewrite decide_False.
Qed.

Lemma names_of_range_set (hp : gmap ClientId Client) (s : gset ClientId) :
  names_of hp (range_set s) ≡ₚ names_of hp (elements s).
Proof. unfold names_of, range_set. by rewrite range_order_perm. Qed.

End CommandFacts.

Section RouteFacts.
Context `{Platform}.

Lemma apply_room_lookup (T : Client -> Client) (s : gset ClientId)
  (hp : gmap ClientId Client) (c : ClientId) :
  apply_room T s hp !! c
  = (fun cl => if decide (c ∈ s) then T cl else cl) <$> hp !! c.
Proof.
  unfold apply_room. rewrite map_lookup_imap. by destruct (hp !! c).
Qed.

Lemma apply_room_empty (T : Client -> Client) (hp : gmap ClientId Client) :
  apply_room T ∅ hp = hp.
Proof.
  apply map_eq. intros c. rewrite apply_room_lookup.
  destruct (hp !! c); simpl; [|done]. by rewrite decide_False by set_solver.
Qed.

Lemma apply_room_insert (T : Client -> Client) (s : gset ClientId)
  (hp : gmap ClientId Client) (c : ClientId) (cl : Client) :
  hp !! c = Some cl -> c ∉ s ->
  apply_room T s (<[c := T cl]> hp) = apply_room T ({[c]} ∪ s) hp.
Proof.
  intros Hc Hs. apply map_eq. intros i. rewrite !apply_room_lookup.
  destruct (decide (i = c)) as [->|Hne].
  - rewrite lookup_insert_eq, Hc. simpl.
    rewrite decide_False by done. by rewrite decide_True by set_solver.
  - rewrite lookup_insert_ne by done.
    destruct (hp !! i); simpl; [|done].
    f_equal. destruct (decide (i ∈ s)).
    + by rewrite decide_True by set_solver.
    + by rewrite decide_False by set_solver.
Qed.

Lemma same_ids_apply_room (T : Client -> Client) (s : gset ClientId)
  (hp : gmap ClientId Client) :
  (forall cl, ident (T cl) = ident cl) -> same_ids hp (apply_room T s hp).
Proof.
  intros HT c. rewrite apply_room_lookup. destruct (hp !! c); simpl; [|done].
  destruct (decide (c ∈ s)); [|done]. by rewrite HT.
Qed.

Lemma ident_to_user (u : string) (m : Message) (cl : Client) :
  ident (to_user u m cl) = ident cl.
Proof. unfold to_user. by destruct (decide (username cl = u)). Qed.

Lemma apply_rooms_lookup (T : string -> Client -> Client) (l : list string)
  (h : Hub) (c : ClientId) :
  apply_rooms T l h !! c
  = (fun cl => if decide (room cl ∈ l /\ c ∈ members h (room cl))
               then T (room cl) cl else cl) <$> heap h !! c.
Proof.
  unfold apply_rooms. rewrite map_lookup_imap. by destruct (heap h !! c).
Qed.

(** The inner loop of the [user:] case over the members of one room. *)
Lemma user_loop (u : string) (m : Message) (l : list ClientId) (h : Hub) :
  NoDup l ->
  (forall c, c ∈ l ->
     exists cl, heap h !! c = Some cl /\ closed (send cl) = false /\
                (username cl = u -> has_room (send cl) = true)) ->
  forM_ (fun c h' =>
           match heap h' !! c with
           | None => Panic
           | Some cl =>
               if String.eqb (username cl) u then client_send c m h'
               else Done h'
           end) l h
  = Done (set_heap h (apply_room (to_user u m) (list_to_set l) (heap h))).
Proof.
  revert h. induction l as [|c l IH]; intros h Hnd Hl; simpl.
  - by rewrite apply_room_empty, set_heap_id.
  - apply NoDup_cons in Hnd as [Hc Hnd].
    destruct (Hl c) as (cl & Hcl & Ho & Hroom); [by left|].
    rewrite Hcl.
    assert (Hstep : (if String.eqb (username cl) u then client_send c m h
                     else Done h)
                    = Done (set_heap h (<[c := to_user u m cl]> (heap h)))).
    { unfold to_user. destruct (String.eqb (username cl) u) eqn:Hu.
      - apply String.eqb_eq in Hu. rewrite decide_True by done.
        apply client_send_push; auto.
      - apply String.eqb_neq in Hu. rewrite decide_False by done.
        by rewrite insert_id, set_heap_id. }
    rewrite Hstep. simpl. rewrite IH; [|done|].
    + simpl. rewrite apply_room_insert; [done..|]. set_solver.
    + intros d Hd. simpl. rewrite lookup_insert_ne by (intros ->; done).
      apply Hl. by right.
Qed.

(** A loop over rooms whose body applies [T k] to the members of the room
    of key [k]. *)
Lemma rooms_loop {A : Type} (key : A -> string) (T : string -> Client -> Client)
  (body : A -> Hub -> outcome Hub) (l : list A) (h : Hub) :
  wf h -> NoDup (key <$> l) ->
  (forall k cl, ident (T k cl) = ident cl) ->
  (forall a h', a ∈ l -> wf h' -> frame h' = frame h ->
     (forall c, c ∈ members h (key a) -> heap h' !! c = heap h !! c) ->
     body a h'
     = Done (set_heap h' (apply_room (T (key a)) (members h (key a)) (heap h')))) ->
  forM_ body l h = Done (set_heap h (apply_rooms T (key <$> l) h)).
Proof.
  intros Hwf Hnd HT. revert h Hwf.
  induction l as [|a l IH]; intros h Hwf Hbody.
  - simpl. f_equal. rewrite <- (set_heap_id h) at 1. f_equal.
    apply map_eq. intros c. rewrite apply_rooms_lookup.
    destruct (heap h !! c) as [cl|]; simpl; done.
  - rewrite fmap_cons in Hnd. apply NoDup_cons in Hnd as [Ha Hnd].
    simpl. rewrite (Hbody a h); [|by left|done|done|done]. simpl.
    set (h1 := set_heap h _).
    assert (Hs1 : same_ids (heap h) (heap h1))
      by (apply same_ids_apply_room, HT).
    assert (Hwf1 : wf h1).
    { destruct h as [rs hs hp]. apply (wf_same_ids rs hs hs hp); done. }
    rewrite (IH Hnd h1 Hwf1).
    + f_equal. unfold h1, set_heap. simpl. f_equal.
      apply map_eq. intros c. rewrite !apply_rooms_lookup. simpl.
      rewrite apply_room_lookup.
      destruct (heap h !! c) as [cl|] eqn:Hc; simpl; [|done]. f_equal.
      change (members (mkHub (rooms h) (history h) _)) with (members h).
      destruct (decide (c ∈ members h (key a))) as [Hin|Hnin].
      * destruct (members_in_heap h (key a) c Hwf Hin) as (cl' & Hcl' & Hr & _).
        assert (cl' = cl) as -> by congruence.
        assert (Hid : room (T (key a) cl) = room cl).
        { pose proof (HT (key a) cl) as Hi. unfold ident in Hi. congruence. }
        rewrite Hid, Hr.
        rewrite decide_False by (by intros [? _]).
        rewrite decide_True; [done|]. split; [by left|done].
      * destruct (decide (room cl = key a)) as [He|Hne].
        -- rewrite He. rewrite decide_False by (by intros [? _]).
           rewrite decide_False; [done|]. by intros [_ ?].
        -- destruct (decide (room cl ∈ key <$> l ∧ c ∈ members h (room cl)))
             as [[H1 H2]|Hn].
           ++ rewrite decide_True; [done|]. split; [by right|done].
           ++ rewrite decide_False; [done|]. intros [H1 H2]. apply Hn.
              split; [|done]. apply elem_of_cons in H1 as [?|?]; done.
    + intros b h' Hb Hwf' Hfr Hag.
      change (members h1) with (members h) in *.
      apply Hbody; [by right|done|done|].
      intros c Hc. rewrite (Hag c Hc). unfold h1. simpl.
      rewrite apply_room_lookup.
      destruct (heap h !! c) as [cl|] eqn:Hcl; simpl; [|done].
      rewrite decide_False; [done|]. intros Hin.
      destruct (members_in_heap h (key a) c Hwf Hin) as (c1 & Hc1 & Hr1 & _).
      destruct (members_in_heap h (key b) c Hwf Hc) as (c2 & Hc2 & Hr2 & _).
      apply Ha. apply list_elem_of_fmap. exists b. split; [|done]. congruence.
Qed.

End RouteFacts.

Section RouteTargets.
Context `{Platform}.

Lemma heap_of_addNotification (uuid : string) (n : Notification) (h : Hub) :
  heap (addNotification uuid n h) = heap h.
Proof. done. Qed.

Lemma wf_addNotification (uuid : string) (n : Notification) (h : Hub) :
  wf h -> wf (addNotification uuid n h).
Proof.
  intros Hwf. destruct h as [rs hs hp]. unfold addNotification, set_history.
  simpl. apply (wf_same_ids rs hs _ hp hp Hwf). apply same_ids_refl.
Qed.

Lemma user_ready_spec (h : Hub) (u : string) :
  user_ready h u = true <->
  (forall c cl, heap h !! c = Some cl -> c ∈ members h (room cl) ->
     username cl = u -> has_room (send cl) = true).
Proof.
  unfold user_ready. rewrite forallb_elem_of. split.
  - intros Hf c cl Hc Hm Hu. apply elem_of_map_to_list in Hc.
    apply (Hf (c, cl)) in Hc. simpl in Hc.
    rewrite bool_decide_eq_true_2 in Hc by done.
    rewrite (proj2 (String.eqb_eq (username cl) u) Hu) in Hc. done.
  - intros Hf [c cl] Hc. apply elem_of_map_to_list in Hc. simpl.
    destruct (bool_decide (c ∈ members h (room cl))) eqn:Hm; [|done].
    destruct (String.eqb (username cl) u) eqn:Hu; [|done]. simpl.
    apply bool_decide_eq_true in Hm. apply String.eqb_eq in Hu.
    by apply (Hf c cl).
Qed.

Lemma room_listed_of_member (h : Hub) (c : ClientId) (k : string) :
  c ∈ members h k -> k ∈ (range_map (rooms h)).*1.
Proof.
  intros Hc. apply elem_of_fst_range_map. unfold members in Hc.
  destruct (rooms h !! k) as [r|]; [by exists r|set_solver].
Qed.

Lemma apply_rooms_all_lookup (T : string -> Client -> Client) (h : Hub)
  (c : ClientId) :
  apply_rooms T (range_map (rooms h)).*1 h !! c
  = (fun cl => if decide (c ∈ members h (room cl)) then T (room cl) cl else cl)
      <$> heap h !! c.
Proof.
  rewrite apply_rooms_lookup. destruct (heap h !! c) as [cl|]; simpl; [|done].
  f_equal. destruct (decide (c ∈ members h (room cl))) as [Hin|Hnin].
  - rewrite decide_True; [done|]. split; [|done].
    by apply (room_listed_of_member h c).
  - rewrite decide_False; [done|]. by intros [_ ?].
Qed.

Lemma route_to_all (uuid : string) (n : Notification) (h : Hub) :
  wf h -> nTarget n = "all" ->
  routeNotification uuid n h
  = Done (set_heap (addNotification uuid n h)
            (apply_rooms (fun k => offer (admin_msg k n))
                         (range_map (rooms h)).*1 h)).
Proof.
  intros Hwf Ht. unfold routeNotification. rewrite Ht. simpl.
  set (h1 := addNotification uuid n h).
  pose proof (wf_addNotification uuid n h Hwf) as Hwf1. fold h1 in Hwf1.
  rewrite (rooms_loop id (fun k => offer (admin_msg k n)) _ _ h1 Hwf1).
  - by rewrite list_fmap_id.
  - rewrite list_fmap_id. apply NoDup_fst_range_map.
  - intros k cl. apply ident_offer.
  - intros k h' Hk Hwf' Hfr Hag. simpl.
    rewrite (broadcastToRoom_total k _ h' Hwf').
    unfold frame in Hfr. injection Hfr as Hr _.
    unfold members. by rewrite Hr.
Qed.

Lemma route_to_room (uuid : string) (n : Notification) (h : Hub) (X : string) :
  wf h -> nTarget n = "room:" +:+ X ->
  routeNotification uuid n h
  = Done (set_heap (addNotification uuid n h)
            (offer_all (admin_msg X n) (members h X) (heap h))).
Proof.
  intros Hwf Ht. unfold routeNotification. rewrite Ht.
  change (String.eqb ("room:" +:+ X) "all") with false.
  rewrite HasPrefix_app, TrimPrefix_app.
  by rewrite (broadcastToRoom_total X _ _ (wf_addNotification uuid n h Hwf)).
Qed.

Lemma route_to_user (uuid : string) (n : Notification) (h : Hub) (U : string) :
  wf h -> nTarget n = "user:" +:+ U -> user_ready h U = true ->
  routeNotification uuid n h
  = Done (set_heap (addNotification uuid n h)
            (apply_rooms (fun k => to_user U (admin_msg k n))
                         (range_map (rooms h)).*1 h)).
Proof.
  intros Hwf Ht Hready. unfold routeNotification. rewrite Ht.
  change (String.eqb ("user:" +:+ U) "all") with false.
  change (HasPrefix ("user:" +:+ U) "room:") with false.
  rewrite HasPrefix_app, TrimPrefix_app.
  set (h1 := addNotification uuid n h).
  pose proof (wf_addNotification uuid n h Hwf) as Hwf1. fold h1 in Hwf1.
  pose proof (proj1 (user_ready_spec h U) Hready) as Hroom.
  rewrite (rooms_loop fst (fun k => to_user U (admin_msg k n)) _ _ h1 Hwf1).
  - done.
  - apply NoDup_fst_range_map.
  - intros k cl. apply ident_to_user.
  - intros [k r] h' Hk Hwf' Hfr Hag. simpl in *.
    apply elem_of_range_map in Hk.
    destruct (wf_room h1 k r Hwf1 Hk) as [Hname _].
    change (members h1) with (members h) in *.
    assert (Hmem : members h k = Clients r)
      by (by apply (members_lookup h k r)).
    rewrite Hname, Hmem in *.
    rewrite (user_loop U (admin_msg k n) (range_set (Clients r)) h').
    + by rewrite list_to_set_range_set.
    + apply NoDup_range_set.
    + intros c Hc. apply elem_of_range_set in Hc.
      rewrite (Hag c Hc). change (heap h1) with (heap h).
      destruct (wf_member h k r c Hwf Hk Hc) as (cl & Hcl & Hr).
      exists cl. split; [done|]. split; [by apply (wf_open h c)|].
      intros Hu. apply (Hroom c cl Hcl); [|done]. by rewrite Hr, Hmem.
Qed.

Lemma route_to_nobody (uuid : string) (n : Notification) (h : Hub) :
  nTarget n <> "all" -> HasPrefix (nTarget n) "room:" = false ->
  HasPrefix (nTarget n) "user:" = false ->
  routeNotification uuid n h = Done (addNotification uuid n h).
Proof.
  intros Hall Hroom Huser. unfold routeNotification.
  apply String.eqb_neq in Hall. by rewrite Hall, Hroom, Huser.
Qed.

End RouteTargets.

Section RouteBlocked.
Context `{Platform}.

Lemma forallb_false_ex {A : Type} (f : A -> bool) (l : list A) :
  forallb f l = false -> exists x, x ∈ l /\ f x = false.
Proof.
  induction l as [|x l IH]; simpl; [done|].
  destruct (f x) eqn:Hx; simpl.
  - intros Hl. destruct (IH Hl) as (y & Hy & Hfy).
    exists y. split; [by right|done].
  - intros _. exists x. split; [by left|done].
Qed.

Lemma forM_ext {A S : Type} (f g : A -> S -> outcome S) (l : list A) (s : S) :
  (forall x a, f x a = g x a) -> forM_ f l s = forM_ g l s.
Proof.
  intros Hfg. revert s. induction l as [|x l IH]; intros s; simpl; [done|].
  rewrite Hfg. destruct (g x s); simpl; auto.
Qed.

Lemma forM_fmap {A B S : Type} (k : A -> B) (g : B -> S -> outcome S)
  (l : list A) (s : S) :
  forM_ g (k <$> l) s = forM_ (fun a => g (k a)) l s.
Proof.
  revert s. induction l as [|x l IH]; intros s; simpl; [done|].
  destruct (g (k x) s); simpl; auto.
Qed.

Lemma forM_nested {A B S : Type} (f : A -> list B)
  (g : A -> B -> S -> outcome S) (l : list A) (s : S) :
  forM_ (fun a => forM_ (g a) (f a)) l s
  = forM_ (fun ab => g ab.1 ab.2)
          (mjoin ((fun a => (fun b => (a, b)) <$> f a) <$> l)) s.
Proof.
  revert s. induction l as [|a l IH]; intros s; simpl; [done|].
  rewrite forM_app, forM_fmap. simpl.
  destruct (forM_ (g a) (f a) s); simpl; auto.
Qed.

(** A loop of waiting sends over visits of clients of the store: it waits
    if one of the visited clients has the username and a full mailbox. *)
Lemma visits_blocked {R : Type} (u : string) (msg : R -> Message)
  (l : list (R * ClientId)) (h : Hub) :
  (forall rc, rc ∈ l ->
     exists cl, heap h !! rc.2 = Some cl /\ closed (send cl) = false) ->
  (exists rc cl, rc ∈ l /\ heap h !! rc.2 = Some cl /\ username cl = u /\
                 has_room (send cl) = false) ->
  forM_ (fun rc h' =>
           match heap h' !! rc.2 with
           | None => Panic
           | Some cl =>
               if String.eqb (username cl) u then client_send rc.2 (msg rc.1) h'
               else Done h'
           end) l h
  = Blocked.
Proof.
  revert h. induction l as [|[r c] l IH]; intros h Hall Hex.
  - destruct Hex as (rc & cl & Hin & _). by apply not_elem_of_nil in Hin.
  - simpl. destruct (Hall (r, c)) as (cl & Hcl & Ho); [by left|].
    simpl in Hcl. rewrite Hcl.
    destruct (String.eqb (username cl) u) eqn:Hu.
    + destruct (has_room (send cl)) eqn:Hroom.
      * rewrite (client_send_push c _ h cl Hcl Ho Hroom). simpl.
        apply IH.
        -- intros [r' d] Hrc. simpl.
           destruct (decide (d = c)) as [->|Hne].
           ++ rewrite lookup_insert_eq. by eexists.
           ++ rewrite lookup_insert_ne by done. apply (Hall (r', d)). by right.
        -- destruct Hex as (rc & cl0 & Hin & Hcl0 & Hu0 & Hfull).
           apply elem_of_cons in Hin as [->|Hin].
           { simpl in Hcl0. congruence. }
           exists rc, cl0. split; [done|]. simpl.
           rewrite lookup_insert_ne; [done|].
           intros Heq. rewrite <- Heq in Hcl0. congruence.
      * by rewrite (client_send_blocked c _ h cl Hcl Ho Hroom).
    + simpl. apply IH.
      * intros rc Hrc. apply Hall. by right.
      * destruct Hex as (rc & cl0 & Hin & Hcl0 & Hu0 & Hfull).
        apply elem_of_cons in Hin as [->|Hin].
        { simpl in Hcl0. apply String.eqb_neq in Hu. congruence. }
        by exists rc, cl0.
Qed.

Lemma route_to_user_blocked (uuid : string) (n : Notification) (h : Hub)
  (U : string) :
  wf h -> nTarget n = "user:" +:+ U -> user_ready h U = false ->
  routeNotification uuid n h = Blocked.
Proof.
  intros Hwf Ht Hready. unfold routeNotification. rewrite Ht.
  change (String.eqb ("user:" +:+ U) "all") with false.
  change (HasPrefix ("user:" +:+ U) "room:") with false.
  rewrite HasPrefix_app, TrimPrefix_app.
  set (h1 := addNotification uuid n h).
  assert (Hfull : exists c cl, heap h !! c = Some cl /\ c ∈ members h (room cl)
                    /\ username cl = U /\ has_room (send cl) = false).
  { unfold user_ready in Hready.
    apply forallb_false_ex in Hready as ([c cl] & Hin & Hf).
    apply elem_of_map_to_list in Hin. simpl in Hf.
    apply orb_false_iff in Hf as [Hf Hr].
    apply negb_false_iff, andb_true_iff in Hf as [Hm Hu].
    apply bool_decide_eq_true in Hm. apply String.eqb_eq in Hu.
    by exists c, cl. }
  destruct Hfull as (c & cl & Hc & Hm & Hu & Hr).
  rewrite (forM_ext _ (fun kr : string * Room =>
             forM_ (fun c0 h' =>
                      match heap h' !! c0 with
                      | None => Panic
                      | Some cl0 =>
                          if String.eqb (username cl0) U
                          then client_send c0 (admin_msg (Name kr.2) n) h'
                          else Done h'
                      end) (range_set (Clients kr.2))))
    by (by intros [k r] a).
  rewrite (forM_nested (fun kr : string * Room => range_set (Clients kr.2))
             (fun kr c0 h' =>
                match heap h' !! c0 with
                | None => Panic
                | Some cl0 =>
                    if String.eqb (username cl0) U
                    then client_send c0 (admin_msg (Name kr.2) n) h'
                    else Done h'
                end)).
  apply (visits_blocked U (fun kr : string * Room => admin_msg (Name kr.2) n)).
  - intros [[k r] d] Hin. simpl.
    apply list_elem_of_join in Hin as (lv & Hd & Hlv).
    apply list_elem_of_fmap in Hlv as ([k' r'] & -> & Hkr).
    apply list_elem_of_fmap in Hd as (d' & Heq & Hd'). simplify_eq.
    apply elem_of_range_map in Hkr. apply elem_of_range_set in Hd'. simpl in *.
    destruct (wf_member h k' r' d' Hwf Hkr Hd') as (dl & Hdl & _).
    exists dl. split; [done|]. by apply (wf_open h d').
  - unfold members in Hm.
    destruct (rooms h !! room cl) as [r|] eqn:Hroom; [|set_solver].
    exists ((room cl, r), c), cl. split; [|done].
    apply list_elem_of_join.
    exists ((fun b => ((room cl, r), b)) <$> range_set (Clients r)). split.
    + apply list_elem_of_fmap. exists c. split; [done|].
      by apply elem_of_range_set.
    + apply list_elem_of_fmap. exists (room cl, r). split; [done|].
      by apply elem_of_range_map.
Qed.

End RouteBlocked.

Section RouteUser.
Context `{Platform}.

Lemma route_to_user_lookup (uuid : string) (n : Notification) (h : Hub)
  (U : string) :
  wf h -> nTarget n = "user:" +:+ U -> user_ready h U = true ->
  exists h',
    routeNotification uuid n h = Done h'
    /\ frame h' = frame (addNotification uuid n h)
    /\ (forall c cl, heap h !! c = Some cl ->
          heap h' !! c
          = Some (if decide (c ∈ members h (room cl) /\ username cl = U)
                  then push (admin_msg (room cl) n) cl else cl)).
Proof.
  intros Hwf Ht Hready. rewrite (route_to_user uuid n h U Hwf Ht Hready).
  eexists. split; [done|]. split; [done|].
  intros c cl Hc. simpl. rewrite apply_rooms_all_lookup, Hc. simpl.
  f_equal. unfold to_user.
  destruct (decide (c ∈ members h (room cl))) as [Hm|Hm];
    destruct (decide (username cl = U)) as [Hu|Hu].
  - by rewrite decide_True.
  - by rewrite decide_False by (by intros [_ ?]).
  - by rewrite decide_False by (by intros [? _]).
  - by rewrite decide_False by (by intros [? _]).
Qed.

End RouteUser.

Section Reachable.
Context `{Platform}.

Lemma same_ids_apply_rooms (T : string -> Client -> Client) (l : list string)
  (h : Hub) :
  (forall k cl, ident (T k cl) = ident cl) ->
  same_ids (heap h) (apply_rooms T l h).
Proof.
  intros HT c. rewrite apply_rooms_lookup.
  destruct (heap h !! c) as [cl|]; simpl; [|done].
  destruct (decide _); [|done]. by rewrite HT.
Qed.

Lemma target_cases (t : string) :
  t = "all" \/ (exists X, t = "room:" +:+ X) \/ (exists U, t = "user:" +:+ U)
  \/ (t <> "all" /\ HasPrefix t "room:" = false /\ HasPrefix t "user:" = false).
Proof.
  destruct (decide (t = "all")) as [?|Hall]; [by left|]. right.
  destruct (HasPrefix t "room:") eqn:Hroom.
  { left. exists (TrimPrefix t "room:"). by apply HasPrefix_split. }
  right. destruct (HasPrefix t "user:") eqn:Huser.
  { left. exists (TrimPrefix t "user:"). by apply HasPrefix_split. }
  by right.
Qed.

(** The invariant is kept by the two operations that run outside the
    control loop. *)
Lemma routeNotification_wf (uuid : string) (n : Notification) (h h' : Hub) :
  wf h -> routeNotification uuid n h = Done h' -> wf h'.
Proof.
  intros Hwf Hrun.
  pose proof (wf_addNotification uuid n h Hwf) as Hwf1.
  destruct (addNotification uuid n h) as [rs hs hp] eqn:Hh1.
  assert (Hhp : hp = heap h) by (by rewrite <- (heap_of_addNotification uuid n h), Hh1).
  destruct (target_cases (nTarget n)) as [Ht|[[X Ht]|[[U Ht]|(Ha & Hr & Hu)]]].
  - rewrite (route_to_all uuid n h Hwf Ht), Hh1 in Hrun. simplify_eq.
    apply (wf_same_ids rs hs hs (heap h)); [done|].
    apply same_ids_apply_rooms. intros k cl. apply ident_offer.
  - rewrite (route_to_room uuid n h X Hwf Ht), Hh1 in Hrun. simplify_eq.
    apply (wf_same_ids rs hs hs (heap h)); [done|].
    apply same_ids_offer_all.
  - destruct (user_ready h U) eqn:Hready.
    + rewrite (route_to_user uuid n h U Hwf Ht Hready), Hh1 in Hrun.
      simplify_eq.
      apply (wf_same_ids rs hs hs (heap h)); [done|].
      apply same_ids_apply_rooms. intros k cl. apply ident_to_user.
    + by rewrite (route_to_user_blocked uuid n h U Hwf Ht Hready) in Hrun.
  - rewrite (route_to_nobody uuid n h Ha Hr Hu), Hh1 in Hrun. by simplify_eq.
Qed.

Lemma handleCommand_wf (now : Time) (c : ClientId) (cmd : string) (h h' : Hub) :
  wf h -> handleCommand now c cmd h = Done h' -> wf h'.
Proof.
  intros Hwf Hrun. destruct (heap h !! c) as [cl|] eqn:Hc.
  - destruct (decide (cmd = "/users")) as [->|Hcmd].
    + unfold handleCommand in Hrun. rewrite Hc in Hrun. simpl in Hrun.
      rewrite (sendUserListToRoom_total now (room cl) h Hwf) in Hrun.
      simplify_eq. by apply wf_offer_all.
    + rewrite (handleCommand_reply now c cl cmd h Hc Hcmd) in Hrun.
      destruct (has_room (send cl)) eqn:Hroom.
      * rewrite (client_send_push c _ h cl Hc (wf_open h c cl Hwf Hc) Hroom)
          in Hrun.
        simplify_eq. destruct h as [rs hs hp]. unfold set_heap. simpl in *.
        apply (wf_same_ids rs hs hs hp); [done|].
        by apply (same_ids_insert hp c cl).
      * by rewrite (client_send_blocked c _ h cl Hc (wf_open h c cl Hwf Hc) Hroom)
          in Hrun.
  - unfold handleCommand in Hrun. by rewrite Hc in Hrun.
Qed.


End Reachable.

Section Scenarios.

(** The sessions A and B join the room ["lobby"] and A says ["hi"]: both
    receive the chat event.  B leaves: A receives the leave event and a
    user list with A alone, and the room is still there.  A leaves: the
    room is deleted.  The result lists the last message of A and of B after
    the chat, what A receives when B leaves, the members of the room then,
    and the directory at the end. *)
Example lobby_scenario :
  (h1 ← @run sample_platform ex_clock 0
          [Register 1%positive; Register 2%positive; Broadcast ex_chat]
          (NewHub ex_heap);
   h2 ← @run_step sample_platform (ex_clock 3) (Unregister 2%positive) h1;
   h3 ← @run_step sample_platform (ex_clock 4) (Unregister 1%positive) h2;
   Done (last (mailbox h1 1%positive), last (mailbox h1 2%positive),
         drop (length (mailbox h1 1%positive)) (mailbox h2 1%positive),
         elements (members h2 "lobby"), map_to_list (rooms h3)))
  = Done (Some ex_chat, Some ex_chat,
          [mkMessage "leave" "lobby" "B" "B left" "0";
           mkMessage MsgUserList "lobby" "SYSTEM"
                     (user_list_text "lobby" ["A"]) "0"],
          [1%positive], []).
Proof. vm_compute. reflexivity. Qed.

(** The room-less hub: a client whose mailbox has capacity 1 receives two
    broadcasts without being drained and is disconnected. *)
Example bcast_capacity_one_disconnected :
  exists b' cl',
    @Bcast.run sample_platform
      [Bcast.Register 1%positive; Bcast.Broadcast "User-2: one";
       Bcast.Broadcast "User-2: two"]
      (Bcast.newHub (Bcast.heap ex_bhub)) = Done b'
    /\ Bcast.clients b' = ∅
    /\ Bcast.heap b' !! 1%positive = Some cl'
    /\ buf (Bcast.Send cl') = ["User-2: one"]
    /\ closed (Bcast.Send cl') = true.
Proof.
  eexists. eexists. split; [vm_compute; reflexivity|].
  repeat split; vm_compute; reflexivity.
Qed.

End Scenarios.

Section TextFacts.

Lemma string_app_assoc (a b c : string) : (a +:+ b) +:+ c = a +:+ (b +:+ c).
Proof.
  induction a as [|x a IH]; [done|]. by rewrite !append_cons, IH.
Qed.

Lemma string_app_nil_r (a : string) : a +:+ "" = a.
Proof. induction a as [|x a IH]; [done|]. by rewrite append_cons, IH. Qed.

Lemma bullets_foldl (l : list string) (init : string) :
  foldl (fun text u => text +:+ "- " +:+ u +:+ nl) init l = init +:+ bullets l.
Proof.
  revert init. induction l as [|u l IH]; intros init.
  - simpl. by rewrite string_app_nil_r.
  - simpl. rewrite IH. by rewrite !string_app_assoc.
Qed.

Lemma user_list_text_eq (roomName : string) (users : list string) :
  user_list_text roomName users
  = "Users in '" +:+ roomName +:+ "' (" +:+ pretty (length users) +:+ "):"
    +:+ nl +:+ bullets users.
Proof.
  unfold user_list_text. rewrite bullets_foldl. by rewrite !string_app_assoc.
Qed.

Lemma rooms_text_eq (names : list string) :
  rooms_text names = "Rooms:" +:+ nl +:+ bullets names.
Proof. unfold rooms_text. by rewrite bullets_foldl, !string_app_assoc. Qed.

Lemma length_names_of (hp : gmap ClientId Client) (l : list ClientId) :
  (forall c, c ∈ l -> is_Some (hp !! c)) -> length (names_of hp l) = length l.
Proof.
  induction l as [|c l IH]; intros Hl; [done|].
  rewrite names_of_cons. destruct (Hl c ltac:(left)) as [cl Hc]. rewrite Hc.
  simpl. f_equal. apply IH. intros d Hd. apply Hl. by right.
Qed.

Lemma elem_of_names_of (hp : gmap ClientId Client) (l : list ClientId)
  (c : ClientId) (cl : Client) :
  c ∈ l -> hp !! c = Some cl -> username cl ∈ names_of hp l.
Proof.
  intros Hin Hc. unfold names_of. apply list_elem_of_omap.
  exists c. split; [done|]. by rewrite Hc.
Qed.

End TextFacts.

Section ListedFacts.
Context `{Platform}.

Lemma length_range_set (s : gset ClientId) : length (range_set s) = size s.
Proof. unfold range_set. by rewrite range_order_perm. Qed.

Lemma user_list_msg_eq (now : Time) (roomName : string) (users : list string) :
  user_list_msg now roomName users
  = mkMessage "user_list" roomName "SYSTEM"
      ("Users in '" +:+ roomName +:+ "' (" +:+ pretty (length users) +:+ "):"
       +:+ nl +:+ bullets users)
      (rfc3339 now).
Proof. unfold user_list_msg. by rewrite user_list_text_eq. Qed.

Lemma length_member_names (h : Hub) (s : gset ClientId) :
  (forall c, c ∈ s -> is_Some (heap h !! c)) ->
  length (names_of (heap h) (range_set s)) = size s.
Proof.
  intros Hs. rewrite length_names_of, length_range_set; [done|].
  intros c Hc. apply Hs. by apply elem_of_range_set.
Qed.

End ListedFacts.

Section LeaveFacts.
Context `{Platform}.



End LeaveFacts.

Section ProtocolFacts.
Context `{Platform}.



End ProtocolFacts.

(** * The claims *)

(** C1, as the code has it.  In the room-based hub a broadcast never waits:
    [broadcastToRoom] does not end in [Blocked] on any hub.  A member whose
    mailbox is full is skipped: the broadcast completes, the directory is
    unchanged, so the session is still a member of its room, and its
    mailbox is as it was, still open.  It is the room-less hub that
    disconnects on overflow: there a broadcast completes, deletes a client
    whose mailbox is full from the client set and closes its mailbox. *)
Theorem full_mailbox_skipped_in_rooms_closed_without `{Platform}
  (name : string) (msg : Message) (h : Hub) (r : Room)
  (c : ClientId) (cl : Client)
  (message : string) (b : Bcast.Hub) (d : ClientId) (dl : Bcast.Client) :
  rooms h !! name = Some r ->
  all_open (heap h) (Clients r) = true ->
  c ∈ Clients r ->
  heap h !! c = Some cl ->
  has_room (send cl) = false ->
  bcast_open b = true ->
  d ∈ Bcast.clients b ->
  Bcast.heap b !! d = Some dl ->
  has_room (Bcast.Send dl) = false ->
  (forall name0 msg0 h0, broadcastToRoom name0 msg0 h0 <> Blocked)
  /\ (exists h',
        broadcastToRoom name msg h = Done h'
        /\ frame h' = frame h
        /\ c ∈ members h' name
        /\ heap h' !! c = Some cl
        /\ closed (send cl) = false)
  /\ (exists b',
        Bcast.run_step (Bcast.Broadcast message) b = Done b'
        /\ (d ∉ Bcast.clients b')
        /\ Bcast.heap b' !! d
           = Some (Bcast.mkClient (Bcast.ID dl)
                     (mkChan (cap (Bcast.Send dl)) (buf (Bcast.Send dl)) true))).
Proof.
  intros Hr Hopen Hc Hcl Hfull Hbopen Hd Hdl Hdfull.
  split; [intros; apply broadcastToRoom_not_blocked|]. split.
  - pose proof (proj1 (all_open_spec _ _) Hopen) as Hall.
    eexists. split.
    { apply (broadcastToRoom_eq name msg h r Hr).
      intros e He. by apply is_open_spec, Hall. }
    split; [done|]. split.
    { rewrite members_set_heap, (members_lookup h name r Hr). done. }
    simpl. rewrite offer_all_lookup, Hcl. simpl.
    rewrite decide_True by done. rewrite offer_full by done.
    split; [done|].
    destruct (proj1 (is_open_spec _ _) (Hall c Hc)) as (cl' & Hcl' & Ho).
    congruence.
  - pose proof (proj1 (bcast_open_spec b) Hbopen) as Hall.
    destruct (bcast_loop message (range_set (Bcast.clients b)) b)
      as (b' & Hrun & Hheap & Hcli).
    { apply NoDup_range_set. }
    { intros e He. apply Hall. by apply elem_of_range_set. }
    exists b'. split; [done|]. split.
    + rewrite Hcli. intros [_ Hnot]. apply Hnot.
      split; [by apply elem_of_range_set|]. by exists dl.
    + rewrite Hheap, decide_True by (by apply elem_of_range_set).
      rewrite Hdl. simpl. unfold bcast_client. by rewrite Hdfull.
Qed.

Lemma full_mailbox_skipped_in_rooms_closed_without_witness :
  rooms ex_full_hub !! "lobby" = Some (mkRoom "lobby" {[1%positive]})
  /\ all_open (heap ex_full_hub) {[1%positive]} = true
  /\ has_room (mkChan 1 [ex_m1] false) = false
  /\ bcast_open ex_full_bhub = true
  /\ (forall name0 msg0 h0,
        @broadcastToRoom sample_platform name0 msg0 h0 <> Blocked)
  /\ (exists h',
        @broadcastToRoom sample_platform "lobby" ex_m2 ex_full_hub = Done h'
        /\ frame h' = frame ex_full_hub
        /\ 1%positive ∈ members h' "lobby"
        /\ heap h' !! 1%positive
           = Some (mkClient "A" "lobby" (mkChan 1 [ex_m1] false))
        /\ closed (mkChan 1 [ex_m1] false) = false)
  /\ (exists b',
        @Bcast.run_step sample_platform (Bcast.Broadcast "User-2: two")
          ex_full_bhub = Done b'
        /\ (1%positive ∉ Bcast.clients b')
        /\ Bcast.heap b' !! 1%positive
           = Some (Bcast.mkClient "User-1" (mkChan 1 ["User-2: one"] true))).
Proof.
  assert (Hr : rooms ex_full_hub !! "lobby"
               = Some (mkRoom "lobby" {[1%positive]}))
    by (vm_compute; reflexivity).
  assert (Ho : all_open (heap ex_full_hub) {[1%positive]} = true)
    by (vm_compute; reflexivity).
  assert (Hf : has_room (mkChan 1 [ex_m1] false) = false) by reflexivity.
  assert (Hb : bcast_open ex_full_bhub = true) by (vm_compute; reflexivity).
  split; [exact Hr|]. split; [exact Ho|]. split; [exact Hf|].
  split; [exact Hb|].
  refine (@full_mailbox_skipped_in_rooms_closed_without sample_platform
            "lobby" ex_m2 ex_full_hub _ 1%positive
            (mkClient "A" "lobby" (mkChan 1 [ex_m1] false))
            "User-2: two" ex_full_bhub 1%positive
            (Bcast.mkClient "User-1" (mkChan 1 ["User-2: one"] false))
            Hr Ho _ _ Hf Hb _ _ _).
  - vm_compute; reflexivity.
  - vm_compute; reflexivity.
  - vm_compute; reflexivity.
  - vm_compute; reflexivity.
  - reflexivity.
Defined.

(** C1 fails as stated: the session of the room ["lobby"] has a mailbox of
    capacity 1 and receives two broadcasts without being drained.  The
    second event is dropped, and the session is not unregistered: it is
    still a member of its room and its mailbox is open. *)
Lemma full_mailbox_keeps_session :
  exists h' cl',
    @run sample_platform ex_clock 0 [Broadcast ex_m1; Broadcast ex_m2]
      ex_slow_hub = Done h'
    /\ rooms h' !! "lobby" = Some (mkRoom "lobby" {[1%positive]})
    /\ heap h' !! 1%positive = Some cl'
    /\ buf (send cl') = [ex_m1]
    /\ closed (send cl') = false.
Proof.
  eexists. eexists. split; [vm_compute; reflexivity|].
  split; [vm_compute; reflexivity|].
  split; [vm_compute; reflexivity|].
  split; reflexivity.
Qed.

(** C2, as the code has it.  In a well-formed hub, for a command of a
    session [c] of the store:
    - [/stats], [/rooms] and every command that is none of the three
      produce one reply, put in the mailbox of [c] when it has room; no
      other mailbox changes and nothing is broadcast.  [/stats] carries the
      sum of the member counts, the number of rooms and the member count of
      every room; [/rooms] the name of every room of the directory, each
      once; any other command the text ["Unknown command"].  With a full
      mailbox the command waits.
    - [/users] is broadcast: the user list of the room of [c] is offered to
      every member of that room, and to nobody if the room does not exist.
      The list holds the usernames of the members.
    - The texts: the reply of [/rooms] is the line [Rooms:] and one line
      [- name] for every room; the user list is the line
      [Users in 'room' (count):], where the count is the number of
      members, and one line [- username] for every member. *)
Theorem command_replies `{Platform}
  (now : Time) (c : ClientId) (cl : Client) (cmd : string) (h : Hub) :
  wf h ->
  heap h !! c = Some cl ->
  (cmd <> "/users" -> has_room (send cl) = true ->
     exists h',
       handleCommand now c cmd h = Done h'
       /\ frame h' = frame h
       /\ heap h' !! c = Some (push (command_reply now cl cmd h) cl)
       /\ (forall d, d <> c -> heap h' !! d = heap h !! d))
  /\ (cmd <> "/users" -> has_room (send cl) = false ->
        handleCommand now c cmd h = Blocked)
  /\ (NoDup (range_map (rooms h)).*1
      /\ forall k, k ∈ (range_map (rooms h)).*1 <-> is_Some (rooms h !! k))
  /\ (cmd = "/users" ->
      let users := names_of (heap h) (range_set (members h (room cl))) in
      users ≡ₚ names_of (heap h) (elements (members h (room cl)))
      /\ exists h',
           handleCommand now c cmd h = Done h'
           /\ frame h' = frame h
           /\ (forall d dl, heap h !! d = Some dl ->
                 heap h' !! d
                 = Some (if decide (d ∈ members h (room cl))
                         then offer (user_list_msg now (room cl) users) dl
                         else dl)))
  /\ (command_reply now cl "/rooms" h
      = mkMessage "system" (room cl) "SYSTEM"
          ("Rooms:" +:+ nl +:+ bullets (range_map (rooms h)).*1) (rfc3339 now)
      /\ command_reply now cl "/stats" h
         = mkMessage "stats" (room cl) "SYSTEM"
             (marshalIndent (mkStats (session_total h) (size (rooms h))
                                     (room_sizes h)))
             (rfc3339 now)
      /\ (cmd <> "/users" -> cmd <> "/stats" -> cmd <> "/rooms" ->
          command_reply now cl cmd h
          = mkMessage "system" (room cl) "SYSTEM" "Unknown command"
                      (rfc3339 now))
      /\ let users := names_of (heap h) (range_set (members h (room cl))) in
         length users = member_count h (room cl)
         /\ (forall d dl, d ∈ members h (room cl) -> heap h !! d = Some dl ->
               username dl ∈ users)
         /\ user_list_msg now (room cl) users
            = mkMessage "user_list" (room cl) "SYSTEM"
                ("Users in '" +:+ room cl +:+ "' ("
                 +:+ pretty (member_count h (room cl)) +:+ "):" +:+ nl
                 +:+ bullets users)
                (rfc3339 now)).
Proof.
  intros Hwf Hc. split; [|split; [|split; [|split]]].
  - intros Hcmd Hroom. rewrite (handleCommand_reply now c cl cmd h Hc Hcmd).
    rewrite (client_send_push c _ h cl Hc (wf_open h c cl Hwf Hc) Hroom).
    eexists. split; [done|]. split; [done|]. simpl.
    split; [by rewrite lookup_insert_eq|].
    intros d Hd. by rewrite lookup_insert_ne.
  - intros Hcmd Hroom. rewrite (handleCommand_reply now c cl cmd h Hc Hcmd).
    by apply (client_send_blocked c _ h cl Hc (wf_open h c cl Hwf Hc)).
  - split; [apply NoDup_fst_range_map|]. intros k. apply elem_of_fst_range_map.
  - intros -> users. split; [apply names_of_range_set|].
    eexists. split.
    { unfold handleCommand. rewrite Hc. simpl.
      by apply sendUserListToRoom_total. }
    split; [done|]. simpl. intros d dl Hd.
    by rewrite offer_all_lookup, Hd.
  - assert (Hin : forall d, d ∈ members h (room cl) -> is_Some (heap h !! d)).
    { intros d Hd. destruct (members_in_heap h (room cl) d Hwf Hd)
        as (dl & Hdl & _). eauto. }
    split; [|split; [|split]].
    + unfold command_reply. rewrite decide_False by done.
      rewrite decide_True by done. by rewrite rooms_text_eq.
    + unfold command_reply. by rewrite decide_True by done.
    + intros _ Hs Hr. unfold command_reply. by rewrite !decide_False by done.
    + intros users. unfold member_count.
      assert (Hlen : length users = size (members h (room cl)))
        by (by apply length_member_names).
      split; [done|]. split.
      * intros d dl Hd Hdl. apply (elem_of_names_of _ _ d); [|done].
        by apply elem_of_range_set.
      * by rewrite user_list_msg_eq, Hlen.
Qed.

Lemma command_replies_witness :
  wf ex_hub
  /\ heap ex_hub !! 1%positive = Some (newClient "A" "lobby")
  /\ has_room (send (newClient "A" "lobby")) = true
  /\ (exists h',
        @handleCommand sample_platform 0%Z 1%positive "/stats" ex_hub = Done h'
        /\ frame h' = frame ex_hub
        /\ heap h' !! 1%positive
           = Some (push (@command_reply sample_platform 0%Z
                           (newClient "A" "lobby") "/stats" ex_hub)
                        (newClient "A" "lobby"))
        /\ (forall d, d <> 1%positive -> heap h' !! d = heap ex_hub !! d))
  /\ msgText (@command_reply sample_platform 0%Z (newClient "A" "lobby")
                "/stats" ex_hub)
     = "{total_users: 3, total_rooms: 2, room_details: {lobby: 2; dev: 1; }}"
  /\ (exists h',
        @handleCommand sample_platform 0%Z 1%positive "/rooms" ex_hub = Done h'
        /\ mailbox h' 1%positive
           = [mkMessage "system" "lobby" "SYSTEM"
                ("Rooms:" +:+ nl +:+ "- lobby" +:+ nl +:+ "- dev" +:+ nl) "0"]
        /\ mailbox h' 2%positive = [] /\ mailbox h' 3%positive = [])
  /\ (exists h',
        @handleCommand sample_platform 0%Z 1%positive "/help" ex_hub = Done h'
        /\ mailbox h' 1%positive
           = [mkMessage "system" "lobby" "SYSTEM" "Unknown command" "0"]
        /\ mailbox h' 2%positive = [] /\ mailbox h' 3%positive = [])
  /\ (exists h',
        @handleCommand sample_platform 0%Z 1%positive "/users" ex_hub = Done h'
        /\ mailbox h' 1%positive
           = [mkMessage "user_list" "lobby" "SYSTEM"
                ("Users in 'lobby' (2):" +:+ nl +:+ "- B" +:+ nl +:+ "- A" +:+ nl)
                "0"]
        /\ mailbox h' 2%positive = mailbox h' 1%positive
        /\ mailbox h' 3%positive = []).
Proof.
  assert (Hwf : wf ex_hub) by (vm_compute; reflexivity).
  assert (Hc : heap ex_hub !! 1%positive = Some (newClient "A" "lobby"))
    by (vm_compute; reflexivity).
  assert (Hr : has_room (send (newClient "A" "lobby")) = true) by reflexivity.
  split; [exact Hwf|]. split; [exact Hc|]. split; [exact Hr|].
  split; [|split; [vm_compute; reflexivity|]].
  { destruct (@command_replies sample_platform 0%Z 1%positive _ "/stats"
                ex_hub Hwf Hc) as (Hreply & _).
    apply Hreply; [done|exact Hr]. }
  split; [|split]; (eexists; split; [vm_compute; reflexivity|]);
    (split; [vm_compute; reflexivity|]); split; vm_compute; reflexivity.
Defined.

(** C2 fails as stated: the session 1 of the room ["lobby"] issues
    [/users]; the reply is broadcast, and the session 2 of the room finds
    the user list in its mailbox. *)
Lemma users_reply_reaches_other_session :
  exists h' cl2,
    @handleCommand sample_platform 0%Z 1%positive "/users" ex_hub = Done h'
    /\ heap ex_hub !! 2%positive = Some (newClient "B" "lobby")
    /\ heap h' !! 2%positive = Some cl2
    /\ buf (send cl2)
       = [mkMessage "user_list" "lobby" "SYSTEM"
            ("Users in 'lobby' (2):" +:+ nl +:+ "- B" +:+ nl +:+ "- A" +:+ nl)
            "0"].
Proof.
  eexists. eexists. split; [vm_compute; reflexivity|].
  split; [vm_compute; reflexivity|].
  split; [vm_compute; reflexivity|].
  vm_compute; reflexivity.
Qed.




(** C4, as the code has it.  In a well-formed hub the target of a
    notification is classified in this order.  The literal [all]: the
    system event is offered to the members of every room of the directory.
    A target that starts with [room:]: it is broadcast to the single room
    named by the rest.  A target that starts with [user:]: it is put in the
    mailbox of every member of any room whose username is exactly the rest.
    Every other target: the notification is recorded and delivered to
    nobody, and it is not replayed to a session that joins. *)
Theorem target_classification `{Platform}
  (uuid : string) (n : Notification) (h : Hub) :
  wf h ->
  (nTarget n = "all" ->
     exists h',
       routeNotification uuid n h = Done h'
       /\ frame h' = frame (addNotification uuid n h)
       /\ (forall c cl, heap h !! c = Some cl ->
             heap h' !! c
             = Some (if decide (c ∈ members h (room cl))
                     then offer (admin_msg (room cl) n) cl else cl)))
  /\ (forall X, nTarget n = ("room:" +:+ X) ->
        routeNotification uuid n h
        = broadcastToRoom X (admin_msg X n) (addNotification uuid n h))
  /\ (forall U, nTarget n = ("user:" +:+ U) -> user_ready h U = true ->
        exists h',
          routeNotification uuid n h = Done h'
          /\ frame h' = frame (addNotification uuid n h)
          /\ (forall c cl, heap h !! c = Some cl ->
                heap h' !! c
                = Some (if decide (c ∈ members h (room cl) /\ username cl = U)
                        then push (admin_msg (room cl) n) cl else cl)))
  /\ (nTarget n <> "all" -> HasPrefix (nTarget n) "room:" = false ->
      HasPrefix (nTarget n) "user:" = false ->
        routeNotification uuid n h = Done (addNotification uuid n h)
        /\ heap (addNotification uuid n h) = heap h
        /\ rooms (addNotification uuid n h) = rooms h
        /\ (forall cl, replay_match cl n = false)).
Proof.
  intros Hwf. split; [|split; [|split]].
  - intros Ht. rewrite (route_to_all uuid n h Hwf Ht).
    eexists. split; [done|]. split; [done|].
    intros c cl Hc. simpl. by rewrite apply_rooms_all_lookup, Hc.
  - intros X Ht. rewrite (route_to_room uuid n h X Hwf Ht).
    by rewrite (broadcastToRoom_total X _ _ (wf_addNotification uuid n h Hwf)).
  - intros U Ht Hready.
    by apply route_to_user_lookup.
  - intros Hall Hroom Huser. split; [by apply route_to_nobody|].
    split; [done|]. split; [done|].
    intros cl. unfold replay_match. apply String.eqb_neq in Hall.
    by rewrite Hall, Hroom, Huser.
Qed.

Lemma target_classification_witness :
  wf ex_hub
  /\ (exists h',
        @routeNotification sample_platform "" (ex_notice "all") ex_hub = Done h'
        /\ mailbox h' 1%positive
           = [@admin_msg sample_platform "lobby" (ex_notice "all")]
        /\ mailbox h' 2%positive
           = [@admin_msg sample_platform "lobby" (ex_notice "all")]
        /\ mailbox h' 3%positive
           = [@admin_msg sample_platform "dev" (ex_notice "all")])
  /\ @routeNotification sample_platform "" (ex_notice "everyone") ex_hub
     = Done (addNotification "" (ex_notice "everyone") ex_hub)
  /\ (forall cl, replay_match cl (ex_notice "everyone") = false).
Proof.
  assert (Hwf : wf ex_hub) by (vm_compute; reflexivity).
  split; [exact Hwf|].
  destruct (@target_classification sample_platform "" (ex_notice "all")
              ex_hub Hwf) as (Hall & _).
  destruct (@target_classification sample_platform "" (ex_notice "everyone")
              ex_hub Hwf) as (_ & _ & _ & Hother).
  split.
  - destruct (Hall eq_refl) as (h' & Hrun & _ & _).
    exists h'. split; [exact Hrun|].
    vm_compute in Hrun. injection Hrun as <-.
    repeat split; vm_compute; reflexivity.
  - destruct Hother as (Hrun & _ & _ & Hreplay);
      [discriminate|reflexivity|reflexivity|].
    split; [exact Hrun|exact Hreplay].
Defined.

(** C4 fails as stated: the target [everyone] is not the literal [all] and
    has neither prefix.  The notification is recorded, but no session of
    any room receives its system event, although every mailbox has room;
    it is not replayed to a session that joins either. *)
Lemma other_target_reaches_no_room :
  exists h',
    @routeNotification sample_platform "" (ex_notice "everyone") ex_hub
      = Done h'
    /\ history h' = [ex_notice "everyone"]
    /\ members h' "lobby" = {[1%positive; 2%positive]}
    /\ members h' "dev" = {[3%positive]}
    /\ all_ready (heap ex_hub) {[1%positive; 2%positive; 3%positive]} = true
    /\ mailbox h' 1%positive = []
    /\ mailbox h' 2%positive = []
    /\ mailbox h' 3%positive = []
    /\ replay_match (newClient "A" "lobby") (ex_notice "everyone") = false.
Proof.
  eexists. split; [vm_compute; reflexivity|].
  repeat split; vm_compute; reflexivity.
Qed.

(** C5.  Served from a new hub, after every finite sequence of requests of
    the control loop (register, unregister, and broadcast as well) that the
    loop completes, a room name is in the directory if and only if the room
    has at least one member.  The members are exactly the sessions
    registered and not unregistered since: a session is a member of the room
    named by its [room] field iff it is live, and every member of a room has
    that room as its [room] field.  Every prefix of a sequence is a
    sequence, so this holds at every point between two requests. *)
Theorem room_listed_iff_has_members `{Platform}
  (clock : nat -> nat -> Time) (m : gmap ClientId Client)
  (qs : list Request) (h : Hub) (name : string) :
  heap_open m = true ->
  run clock 0 qs (NewHub m) = Done h ->
  (is_Some (rooms h !! name) <-> 0 < member_count h name)
  /\ (forall c cl, m !! c = Some cl ->
        (c ∈ members h (room cl) <-> c ∈ live qs))
  /\ (forall c, c ∈ members h name ->
        exists cl, m !! c = Some cl /\ room cl = name).
Proof.
  intros Ho Hrun.
  pose proof (wf_NewHub m Ho) as Hwf0.
  pose proof (run_wf clock qs 0 _ h Hwf0 Hrun) as Hwf.
  destruct (run_tracks clock qs 0 ∅ _ h Hwf0 (tracks_NewHub m) Hrun)
    as [Ht Hs].
  simpl in Hs. split; [|split].
  - unfold member_count, members. split.
    + intros [r Hr]. rewrite Hr.
      destruct (wf_room h name r Hwf Hr) as [_ Hne].
      assert (size (Clients r) <> 0); [|lia].
      intros Hz. apply size_empty_inv in Hz. unfold_leibniz. done.
    + intros Hpos. destruct (rooms h !! name) as [r|]; [by exists r|].
      rewrite size_empty in Hpos. lia.
  - intros c cl Hc.
    destruct (same_ids_lookup _ _ _ _ Hs Hc) as (cl' & Hcl' & Hi).
    assert (Hr : room cl = room cl') by (unfold ident in Hi; congruence).
    rewrite Hr. by apply Ht.
  - intros c Hc.
    destruct (members_in_heap h name c Hwf Hc) as (cl' & Hcl' & Hr & _).
    destruct (same_ids_lookup _ _ _ _ (same_ids_sym _ _ Hs) Hcl')
      as (cl & Hcl & Hi).
    exists cl. split; [done|]. unfold ident in Hi. congruence.
Qed.

Lemma room_listed_iff_has_members_witness :
  heap_open ex_heap = true /\
  exists h,
    @run sample_platform ex_clock 0 ex_requests (NewHub ex_heap) = Done h /\
    (is_Some (rooms h !! "lobby") <-> 0 < member_count h "lobby")
    /\ (forall c cl, ex_heap !! c = Some cl ->
          (c ∈ members h (room cl) <-> c ∈ live ex_requests))
    /\ (forall c, c ∈ members h "lobby" ->
          exists cl, ex_heap !! c = Some cl /\ room cl = "lobby").
Proof.
  split; [vm_compute; reflexivity|].
  eexists. split; [vm_compute; reflexivity|].
  apply (@room_listed_iff_has_members sample_platform ex_clock ex_heap
           ex_requests _ "lobby"); vm_compute; reflexivity.
Defined.

(** C6.  The history never holds more than 50 notifications: not after a
    submission to any hub, and not after any sequence of submissions to a
    new hub, where it is the last 50 submissions in submission order.
    Routing the submissions records the same history.  After 51
    submissions the history is the 50 newest, in order: the submissions
    without the first; if the stored notifications are pairwise distinct,
    the oldest is not in the history. *)
Theorem history_keeps_newest_50 `{Platform}
  (m : gmap ClientId Client) (ps : list (string * Notification)) :
  (forall uuid n h, length (history (addNotification uuid n h)) <= 50)
  /\ length (history (submit ps (NewHub m))) <= 50
  /\ history (submit ps (NewHub m)) = drop (length ps - 50) (stamped <$> ps)
  /\ (forall h', route_all ps (NewHub m) = Done h' ->
        history h' = history (submit ps (NewHub m)))
  /\ (length ps = 51 ->
        history (submit ps (NewHub m)) = tail (stamped <$> ps)
        /\ length (history (submit ps (NewHub m))) = 50
        /\ (NoDup (stamped <$> ps) ->
            forall p, head ps = Some p ->
              stamped p ∉ history (submit ps (NewHub m)))).
Proof.
  assert (Hsub : history (submit ps (NewHub m))
                 = drop (length ps - 50) (stamped <$> ps)).
  { rewrite history_submit by (simpl; lia). simpl. by rewrite length_fmap. }
  split; [|split; [|split; [|split]]].
  - intros uuid n h. rewrite history_addNotification, length_drop. lia.
  - rewrite Hsub, length_drop, length_fmap. lia.
  - exact Hsub.
  - intros h' Hr. apply route_all_history in Hr. unfold frame in Hr.
    congruence.
  - intros H51. rewrite Hsub, H51. clear Hsub.
    destruct ps as [|p ps]; [done|].
    rewrite fmap_cons.
    change (drop (51 - 50) (stamped p :: (stamped <$> ps)))
      with (stamped <$> ps).
    split; [done|]. split; [rewrite length_fmap; simpl in H51; lia|].
    intros Hnd q Hq. simpl in Hq. simplify_eq.
    by apply NoDup_cons in Hnd as [Hq _].
Qed.

Lemma history_keeps_newest_50_witness :
  length ex_submissions = 51
  /\ NoDup (stamped <$> ex_submissions)
  /\ history (submit ex_submissions (NewHub ex_heap))
     = tail (stamped <$> ex_submissions)
  /\ length (history (submit ex_submissions (NewHub ex_heap))) = 50
  /\ (forall p, head ex_submissions = Some p ->
        stamped p ∉ history (submit ex_submissions (NewHub ex_heap))).
Proof.
  assert (H51 : length ex_submissions = 51) by reflexivity.
  assert (Hnd : NoDup (stamped <$> ex_submissions)).
  { apply (bool_decide_unpack _). vm_compute. exact I. }
  split; [exact H51|]. split; [exact Hnd|].
  destruct (@history_keeps_newest_50 sample_platform ex_heap ex_submissions)
    as (_ & _ & _ & _ & Hlast).
  destruct (Hlast H51) as (Ht & Hl & Hold).
  split; [exact Ht|]. split; [exact Hl|]. exact (Hold Hnd).
Defined.

(** C7.  [register] of a session stored in a well-formed hub never fails:
    it does not panic, and it waits only if the mailbox of the session
    cannot take the join event and the notifications replayed to it, which
    does not happen for a session as [serveWs] builds it while the history
    is within its bound.  When it completes, in order: the room named by
    the [room] field holds the session, the room being created if it was
    absent, and the other rooms are as before; the join event was offered
    to every member, the new one included; the notifications of the
    history whose target is [all], [room:] with the room of the session or
    [user:] with its username, and only those, were put in the mailbox of
    the new session and of no other; at last the user list of the room was
    offered to every member.  The user list is the event of type
    [user_list] whose text is the line [Users in 'room' (count):], where
    the count is the number of members, the new one included, and one line
    [- username] for every member. *)
Theorem register_joins_replays_and_lists `{Platform}
  (t_join t_list : Time) (c : ClientId) (cl : Client) (h : Hub) :
  wf h ->
  heap h !! c = Some cl ->
  let R := room cl in
  let mem := {[c]} ∪ members h R in
  let join := mkMessage "join" R (username cl) (username cl +:+ " joined")
                        (rfc3339 t_join) in
  let replay :=
    replay_msg cl <$> filter (fun n => replay_match cl n = true) (history h) in
  let ul := user_list_msg t_list R (names_of (heap h) (range_set mem)) in
  addClientToRoom t_join t_list c h <> Panic
  /\ (addClientToRoom t_join t_list c h = Blocked <-> replay_fits cl h = false)
  /\ (send cl = make_chan 256 -> length (history h) <= 50 ->
        replay_fits cl h = true)
  /\ (forall n, replay_match cl n = true <->
        nTarget n = "all" \/ nTarget n = ("room:" +:+ room cl)
        \/ nTarget n = ("user:" +:+ username cl))
  /\ (replay_fits cl h = true ->
      exists h',
        addClientToRoom t_join t_list c h = Done h'
        /\ rooms h' = <[R := mkRoom R mem]> (rooms h)
        /\ history h' = history h
        /\ heap h' !! c = Some (offer ul (push_all replay (offer join cl)))
        /\ (forall d dl, d <> c -> heap h !! d = Some dl ->
              heap h' !! d
              = Some (if decide (d ∈ members h R)
                      then offer ul (offer join dl) else dl)))
  /\ (length (names_of (heap h) (range_set mem)) = size mem
      /\ (forall d dl, d ∈ mem -> heap h !! d = Some dl ->
            username dl ∈ names_of (heap h) (range_set mem))
      /\ ul = mkMessage "user_list" R "SYSTEM"
                ("Users in '" +:+ R +:+ "' (" +:+ pretty (size mem) +:+ "):"
                 +:+ nl +:+ bullets (names_of (heap h) (range_set mem)))
                (rfc3339 t_list)).
Proof.
  intros Hwf Hc R mem join replay ul.
  assert (Hout : if replay_fits cl h
                 then addClientToRoom t_join t_list c h
                      = Done (after_register t_join t_list c cl h)
                 else addClientToRoom t_join t_list c h = Blocked).
  { destruct (replay_fits cl h) eqn:Hfit.
    - by apply addClientToRoom_eq.
    - by apply (addClientToRoom_blocked _ _ c cl). }
  split; [|split; [|split; [|split; [|split]]]].
  - destruct (replay_fits cl h); by rewrite Hout.
  - destruct (replay_fits cl h); rewrite Hout; split; done.
  - apply fresh_client_fits.
  - apply replay_match_spec.
  - intros Hfit. rewrite Hfit in Hout.
    exists (after_register t_join t_list c cl h).
    split; [done|]. split; [done|]. split; [done|].
    unfold after_register. simpl. fold R mem join replay ul.
    assert (Hin : c ∈ mem) by (unfold mem; set_solver).
    split.
    + rewrite offer_all_lookup, lookup_insert_eq. simpl.
      by rewrite decide_True.
    + intros d dl Hne Hd.
      rewrite offer_all_lookup, lookup_insert_ne by done.
      rewrite offer_all_lookup, Hd. simpl. f_equal.
      destruct (decide (d ∈ members h R)).
      * by rewrite !decide_True by (unfold mem; set_solver).
      * by rewrite !decide_False by (unfold mem; set_solver).
  - assert (Hlen : length (names_of (heap h) (range_set mem)) = size mem).
    { apply length_member_names. intros d Hd.
      destruct (register_members_ok c cl h Hwf Hc d Hd) as (dl & Hdl & _).
      eauto. }
    split; [done|]. split.
    + intros d dl Hd Hdl. apply (elem_of_names_of _ _ d); [|done].
      by apply elem_of_range_set.
    + unfold ul. by rewrite user_list_msg_eq, Hlen.
Qed.

Lemma register_joins_replays_and_lists_witness :
  wf ex_before_join
  /\ heap ex_before_join !! 1%positive = Some (newClient "A" "lobby")
  /\ replay_fits (newClient "A" "lobby") ex_before_join = true
  /\ exists h',
       @addClientToRoom sample_platform 0%Z 0%Z 1%positive ex_before_join
         = Done h'
       /\ members h' "lobby" = {[1%positive; 2%positive]}
       /\ members h' "dev" = {[3%positive]}
       /\ (msgText <$> buf (send (default (newClient "" "") (heap h' !! 1%positive))))
          = ["A joined"; "[NOTIF] Maintenance: 5 min"; "[NOTIF] Lobby: hello";
             "[NOTIF] ForA: ping";
             "Users in 'lobby' (2):" +:+ nl +:+ "- B" +:+ nl +:+ "- A" +:+ nl]
       /\ (msgText <$> buf (send (default (newClient "" "") (heap h' !! 2%positive))))
          = ["A joined";
             "Users in 'lobby' (2):" +:+ nl +:+ "- B" +:+ nl +:+ "- A" +:+ nl]
       /\ buf (send (default (newClient "" "") (heap h' !! 3%positive))) = [].
Proof.
  assert (Hwf : wf ex_before_join) by (vm_compute; reflexivity).
  assert (Hc : heap ex_before_join !! 1%positive = Some (newClient "A" "lobby"))
    by (vm_compute; reflexivity).
  assert (Hfit : replay_fits (newClient "A" "lobby") ex_before_join = true)
    by (vm_compute; reflexivity).
  split; [exact Hwf|]. split; [exact Hc|]. split; [exact Hfit|].
  destruct (@register_joins_replays_and_lists sample_platform 0%Z 0%Z
              1%positive _ ex_before_join Hwf Hc)
    as (_ & _ & _ & _ & Hdone & _).
  destruct (Hdone Hfit) as (h' & Hrun & Hrooms & _ & Hself & Hothers).
  exists h'. split; [exact Hrun|].
  unfold members, ClientId in *. rewrite Hrooms, Hself.
  rewrite (Hothers 2%positive (newClient "B" "lobby")) by (vm_compute; done).
  rewrite (Hothers 3%positive (newClient "C" "dev")) by (vm_compute; done).
  repeat split; vm_compute; reflexivity.
Defined.

(** C8, as the code has it.  In a well-formed hub a notification for
    [room:X] is recorded and its system event is offered to the members of
    the room [X] and to nobody else: it is put in the mailbox of every
    member that has room and dropped for a member whose mailbox is full.  A
    notification for [user:U] is recorded and its system event is put in
    the mailbox of every session that is a member of a room and whose
    username is exactly [U], in whatever room, and of no other session;
    when one of these mailboxes is full the dispatch waits. *)
Theorem notification_reaches_room_or_user `{Platform}
  (uuid : string) (n : Notification) (h : Hub) :
  wf h ->
  (forall X, nTarget n = ("room:" +:+ X) ->
     exists h',
       routeNotification uuid n h = Done h'
       /\ frame h' = frame (addNotification uuid n h)
       /\ (forall c cl, heap h !! c = Some cl ->
             heap h' !! c
             = Some (if decide (c ∈ members h X)
                     then offer (admin_msg X n) cl else cl)))
  /\ (forall U, nTarget n = ("user:" +:+ U) ->
        (user_ready h U = false -> routeNotification uuid n h = Blocked)
        /\ (user_ready h U = true ->
            exists h',
              routeNotification uuid n h = Done h'
              /\ frame h' = frame (addNotification uuid n h)
              /\ (forall c cl, heap h !! c = Some cl ->
                    heap h' !! c
                    = Some (if decide (c ∈ members h (room cl)
                                       /\ username cl = U)
                            then push (admin_msg (room cl) n) cl else cl)))).
Proof.
  intros Hwf. split.
  - intros X Ht. rewrite (route_to_room uuid n h X Hwf Ht).
    eexists. split; [done|]. split; [done|].
    intros c cl Hc. simpl. by rewrite offer_all_lookup, Hc.
  - intros U Ht. split; [by apply route_to_user_blocked|].
    intros Hready. by apply route_to_user_lookup.
Qed.

Lemma notification_reaches_room_or_user_witness :
  wf ex_hub
  /\ user_ready ex_hub "C" = true
  /\ (exists h',
        @routeNotification sample_platform "" (ex_notice "room:lobby") ex_hub
          = Done h'
        /\ mailbox h' 1%positive
           = [@admin_msg sample_platform "lobby" (ex_notice "room:lobby")]
        /\ mailbox h' 2%positive
           = [@admin_msg sample_platform "lobby" (ex_notice "room:lobby")]
        /\ mailbox h' 3%positive = [])
  /\ (exists h',
        @routeNotification sample_platform "" (ex_notice "user:C") ex_hub
          = Done h'
        /\ mailbox h' 1%positive = []
        /\ mailbox h' 2%positive = []
        /\ mailbox h' 3%positive
           = [@admin_msg sample_platform "dev" (ex_notice "user:C")]).
Proof.
  assert (Hwf : wf ex_hub) by (vm_compute; reflexivity).
  assert (Hready : user_ready ex_hub "C" = true) by (vm_compute; reflexivity).
  split; [exact Hwf|]. split; [exact Hready|].
  destruct (@notification_reaches_room_or_user sample_platform ""
              (ex_notice "room:lobby") ex_hub Hwf) as [Hroom _].
  destruct (@notification_reaches_room_or_user sample_platform ""
              (ex_notice "user:C") ex_hub Hwf) as [_ Huser].
  split.
  - destruct (Hroom "lobby" eq_refl) as (h' & Hrun & _ & _).
    exists h'. split; [exact Hrun|].
    vm_compute in Hrun. injection Hrun as <-.
    repeat split; vm_compute; reflexivity.
  - destruct (Huser "C" eq_refl) as [_ Hdone].
    destruct (Hdone Hready) as (h' & Hrun & _ & _).
    exists h'. split; [exact Hrun|].
    vm_compute in Hrun. injection Hrun as <-.
    repeat split; vm_compute; reflexivity.
Defined.

(** C8 fails as stated: the session 1 is in the room ["lobby"] and its
    mailbox is full; the system event of a notification for [room:lobby]
    is not put in it, while the session 2 of the room receives it. *)
Lemma room_notification_skips_full_mailbox :
  exists h' cl1 cl2,
    @routeNotification sample_platform "" (ex_notice "room:lobby")
      ex_stalled_hub = Done h'
    /\ members ex_stalled_hub "lobby" = {[1%positive; 2%positive]}
    /\ heap h' !! 1%positive = Some cl1
    /\ heap h' !! 1%positive = heap ex_stalled_hub !! 1%positive
    /\ (@admin_msg sample_platform "lobby" (ex_notice "room:lobby")
          ∉ buf (send cl1))
    /\ heap h' !! 2%positive = Some cl2
    /\ buf (send cl2)
       = [@admin_msg sample_platform "lobby" (ex_notice "room:lobby")].
Proof.
  eexists. eexists. eexists.
  split; [vm_compute; reflexivity|].
  split; [vm_compute; reflexivity|].
  split; [vm_compute; reflexivity|].
  split; [vm_compute; reflexivity|].
  split.
  { apply (bool_decide_unpack _). vm_compute. exact I. }
  split; vm_compute; reflexivity.
Qed.

(** C9.  A broadcast of an event to a room whose [N] members all have an
    open mailbox with room completes, puts the event itself, unchanged, at
    the end of the mailbox of each member and touches no other mailbox: the
    number of waiting messages grows by exactly [N].  The directory and the
    history are unchanged. *)
Theorem chat_broadcast_reaches_each_member `{Platform}
  (now : nat -> Time) (msg : Message) (h : Hub) (r : Room) :
  rooms h !! msgRoom msg = Some r ->
  all_ready (heap h) (Clients r) = true ->
  exists h',
    run_step now (Broadcast msg) h = Done h'
    /\ frame h' = frame h
    /\ (forall c, c ∈ Clients r ->
          exists cl cl', heap h !! c = Some cl /\ heap h' !! c = Some cl' /\
            cl' = push msg cl /\ buf (send cl') = buf (send cl) ++ [msg])
    /\ (forall c, c ∉ Clients r -> heap h' !! c = heap h !! c)
    /\ pending (heap h') = pending (heap h) + size (Clients r).
Proof.
  intros Hr Hready. pose proof (proj1 (all_ready_spec _ _) Hready) as Hall.
  eexists. split.
  { simpl. apply (broadcastToRoom_eq _ msg h r Hr).
    intros c Hc. destruct (proj1 (ready_spec _ _) (Hall c Hc)) as (cl & ? & ? & _).
    by exists cl. }
  split; [done|]. simpl. split; [|split].
  - intros c Hc.
    destruct (proj1 (ready_spec _ _) (Hall c Hc)) as (cl & Hcl & _ & Hroom).
    exists cl, (push msg cl). split; [done|].
    rewrite offer_all_lookup, Hcl. simpl.
    by rewrite decide_True, offer_room_left.
  - intros c Hc. rewrite offer_all_lookup.
    destruct (heap h !! c); simpl; [|done]. by rewrite decide_False.
  - by apply pending_offer_all.
Qed.

Lemma chat_broadcast_reaches_each_member_witness :
  rooms ex_hub !! msgRoom ex_chat = Some (mkRoom "lobby" {[1%positive; 2%positive]})
  /\ all_ready (heap ex_hub) {[1%positive; 2%positive]} = true
  /\ exists h',
       @run_step sample_platform (ex_clock 0) (Broadcast ex_chat) ex_hub = Done h'
       /\ frame h' = frame ex_hub
       /\ (forall c, c ∈ ({[1%positive; 2%positive]} : gset ClientId) ->
             exists cl cl', heap ex_hub !! c = Some cl /\ heap h' !! c = Some cl' /\
               cl' = push ex_chat cl /\ buf (send cl') = buf (send cl) ++ [ex_chat])
       /\ (forall c, c ∉ ({[1%positive; 2%positive]} : gset ClientId) ->
             heap h' !! c = heap ex_hub !! c)
       /\ pending (heap h') = pending (heap ex_hub) + 2.
Proof.
  assert (Hr : rooms ex_hub !! msgRoom ex_chat
               = Some (mkRoom "lobby" {[1%positive; 2%positive]}))
    by (vm_compute; reflexivity).
  assert (Ha : all_ready (heap ex_hub) {[1%positive; 2%positive]} = true)
    by (vm_compute; reflexivity).
  split; [exact Hr|]. split; [exact Ha|].
  exact (@chat_broadcast_reaches_each_member sample_platform (ex_clock 0)
           ex_chat ex_hub _ Hr Ha).
Defined.

(** C10.  A broadcast to a room name that is not in the directory completes
    and leaves the hub as it is: no room is created and no mailbox changes.
    A notification for the room of that name is recorded, as the newest
    entry of the history, and changes nothing else. *)
Theorem broadcast_to_absent_room_is_noop `{Platform}
  (name : string) (msg : Message) (h : Hub) :
  rooms h !! name = None ->
  broadcastToRoom name msg h = Done h
  /\ (forall now msg', msgRoom msg' = name ->
        run_step now (Broadcast msg') h = Done h)
  /\ (forall uuid n, nTarget n = ("room:" +:+ name) ->
        routeNotification uuid n h = Done (addNotification uuid n h)
        /\ rooms (addNotification uuid n h) = rooms h
        /\ heap (addNotification uuid n h) = heap h
        /\ last (history (addNotification uuid n h)) = Some (stamped (uuid, n))).
Proof.
  intros Hn. split; [by apply broadcastToRoom_absent|]. split.
  - intros now msg' <-. simpl. by apply broadcastToRoom_absent.
  - intros uuid n Ht. split; [|split; [done|split; [done|]]].
    + unfold routeNotification. rewrite Ht.
      change (String.eqb ("room:" +:+ name) "all") with false.
      rewrite HasPrefix_app, TrimPrefix_app.
      by apply broadcastToRoom_absent.
    + rewrite history_addNotification.
      rewrite drop_app_le by (rewrite length_app; simpl; lia).
      apply last_snoc.
Qed.

Lemma broadcast_to_absent_room_is_noop_witness :
  rooms ex_hub !! "attic" = None
  /\ @broadcastToRoom sample_platform "attic" ex_chat ex_hub = Done ex_hub
  /\ (forall now msg', msgRoom msg' = "attic" ->
        @run_step sample_platform now (Broadcast msg') ex_hub = Done ex_hub)
  /\ (forall uuid n, nTarget n = ("room:" +:+ "attic") ->
        @routeNotification sample_platform uuid n ex_hub
          = Done (addNotification uuid n ex_hub)
        /\ rooms (addNotification uuid n ex_hub) = rooms ex_hub
        /\ heap (addNotification uuid n ex_hub) = heap ex_hub
        /\ last (history (addNotification uuid n ex_hub))
           = Some (stamped (uuid, n))).
Proof.
  assert (Hn : rooms ex_hub !! "attic" = None) by (vm_compute; reflexivity).
  split; [exact Hn|].
  exact (@broadcast_to_absent_room_is_noop sample_platform "attic" ex_chat
           ex_hub Hn).
Defined.

(** * Further properties of the two servers *)

Section GrowFacts.
Context `{Platform}.

Lemma grows_refl (cl : Client) : grows cl cl.
Proof. unfold grows. by repeat split. Qed.

Lemma grows_trans (a b c : Client) : grows a b -> grows b c -> grows a c.
Proof.
  intros (?&?&Hc1&?&?&Hl1) (?&?&Hc2&?&?&Hl2). unfold grows.
  repeat split; try congruence.
  - by etrans.
  - intros Hle. apply Hl2. rewrite Hc1 in *. by apply Hl1.
Qed.

Lemma extends_refl (hp : gmap ClientId Client) : extends hp hp.
Proof.
  intros c. destruct (hp !! c); constructor. apply grows_refl.
Qed.

Lemma extends_trans (a b c : gmap ClientId Client) :
  extends a b -> extends b c -> extends a c.
Proof.
  intros Hab Hbc d. specialize (Hab d). specialize (Hbc d).
  destruct Hab as [x y Hxy|]; inversion Hbc; subst; constructor.
  by eapply grows_trans.
Qed.

Lemma grows_push (m : Message) (cl : Client) :
  has_room (send cl) = true -> grows cl (push m cl).
Proof.
  intros Hr. apply has_room_true in Hr. unfold grows, push, set_send, enqueue.
  simpl. repeat split.
  - by apply prefix_app_r.
  - intros _. rewrite length_app. simpl. lia.
Qed.

Lemma grows_offer (m : Message) (cl : Client) : grows cl (offer m cl).
Proof.
  unfold offer. destruct (has_room (send cl)) eqn:Hr.
  - by apply grows_push.
  - apply grows_refl.
Qed.

Lemma extends_insert (hp : gmap ClientId Client) (c : ClientId)
  (cl cl' : Client) :
  hp !! c = Some cl -> grows cl cl' -> extends hp (<[c := cl']> hp).
Proof.
  intros Hc Hg d. destruct (decide (d = c)) as [->|Hne].
  - rewrite lookup_insert_eq, Hc. by constructor.
  - rewrite lookup_insert_ne by done. apply extends_refl.
Qed.

Lemma client_send_extends (c : ClientId) (m : Message) (h h' : Hub) :
  client_send c m h = Done h' -> extends (heap h) (heap h').
Proof.
  unfold client_send, chan_send. intros Hs.
  destruct (heap h !! c) as [cl|] eqn:Hc; [|done].
  destruct (closed (send cl)); [done|].
  destruct (has_room (send cl)) eqn:Hr; [|done].
  simpl in Hs. injection Hs as <-. simpl.
  eapply extends_insert; [done|]. by apply (grows_push m).
Qed.

Lemma client_try_send_extends (c : ClientId) (m : Message) (h h' : Hub) :
  client_try_send c m h = Done h' -> extends (heap h) (heap h').
Proof.
  unfold client_try_send, chan_try_send. intros Hs.
  destruct (heap h !! c) as [cl|] eqn:Hc; [|done].
  destruct (closed (send cl)); [done|].
  destruct (has_room (send cl)) eqn:Hr; simpl in Hs; injection Hs as <-.
  - simpl. eapply extends_insert; [done|]. by apply (grows_push m).
  - apply extends_refl.
Qed.

(** A loop keeps what each of its iterations keeps. *)
Lemma forM_rel {A S : Type} (R : S -> S -> Prop) (f : A -> S -> outcome S)
  (l : list A) (s s' : S) :
  (forall a, R a a) -> (forall a b c, R a b -> R b c -> R a c) ->
  (forall x a a', f x a = Done a' -> R a a') ->
  forM_ f l s = Done s' -> R s s'.
Proof.
  intros Hrefl Htrans Hf. revert s. induction l as [|x l IH]; intros s Hl.
  - simpl in Hl. injection Hl as <-. apply Hrefl.
  - simpl in Hl. destruct (f x s) as [s1| |] eqn:Hx; try done.
    simpl in Hl. eapply Htrans; [by eapply Hf|by apply IH].
Qed.

Lemma hub_extends_refl (h : Hub) : hub_extends h h.
Proof. split; [apply extends_refl|done]. Qed.

Lemma hub_extends_trans (a b c : Hub) :
  hub_extends a b -> hub_extends b c -> hub_extends a c.
Proof.
  intros [? ?] [? ?]. split; [by eapply extends_trans|congruence].
Qed.

Lemma client_send_hub_extends (c : ClientId) (m : Message) (h h' : Hub) :
  client_send c m h = Done h' -> hub_extends h h'.
Proof.
  intros Hs. split; [by eapply client_send_extends|].
  apply client_send_frame in Hs. unfold frame in Hs. congruence.
Qed.

Lemma broadcastToRoom_extends (name : string) (msg : Message) (h h' : Hub) :
  broadcastToRoom name msg h = Done h' -> hub_extends h h'.
Proof.
  unfold broadcastToRoom. destruct (rooms h !! name) as [r|].
  - apply forM_rel.
    + apply hub_extends_refl.
    + apply hub_extends_trans.
    + intros c a a' Hs. split; [by eapply client_try_send_extends|].
      apply client_try_send_frame in Hs. unfold frame in Hs. congruence.
  - intros [= <-]. apply hub_extends_refl.
Qed.

Lemma sendUserListToRoom_extends (now : Time) (name : string) (h h' : Hub) :
  sendUserListToRoom now name h = Done h' -> hub_extends h h'.
Proof.
  unfold sendUserListToRoom. destruct (rooms h !! name) as [r|].
  - destruct (usernames (heap h) (range_set (Clients r))); try done.
    simpl. apply broadcastToRoom_extends.
  - intros [= <-]. apply hub_extends_refl.
Qed.

Lemma addClientToRoom_extends (t_join t_list : Time) (c : ClientId)
  (h h' : Hub) :
  addClientToRoom t_join t_list c h = Done h' -> hub_extends h h'.
Proof.
  unfold addClientToRoom. destruct (heap h !! c) as [cl|]; [|done].
  destruct (getOrCreateRoom h (room cl)) as [h1 r] eqn:Hg.
  assert (Hh1 : heap h1 = heap h /\ history h1 = history h).
  { unfold getOrCreateRoom in Hg.
    destruct (rooms h !! room cl); injection Hg as <- <-; done. }
  destruct Hh1 as [Hhp Hhs].
  set (h2 := set_rooms h1 _).
  destruct (broadcastToRoom (Name r) (join_msg t_join r cl) h2) as [h3| |] eqn:H3;
    try done.
  simpl.
  match goal with |- context [forM_ ?f ?l ?s] =>
    destruct (forM_ f l s) as [h4| |] eqn:H4 end; try done.
  simpl. intros H5.
  apply broadcastToRoom_extends in H3. apply sendUserListToRoom_extends in H5.
  apply (forM_rel hub_extends) in H4;
    [|apply hub_extends_refl|apply hub_extends_trans|].
  - assert (H2 : hub_extends h h2).
    { split; simpl; [rewrite Hhp; apply extends_refl|done]. }
    eapply hub_extends_trans; [exact H2|].
    eapply hub_extends_trans; [exact H3|].
    eapply hub_extends_trans; [exact H4|exact H5].
  - intros n a a' Hn. destruct (replay_match cl n).
    + by eapply client_send_hub_extends.
    + injection Hn as <-. apply hub_extends_refl.
Qed.

Lemma removeClientFromRoom_extends (t_leave t_list : Time) (c : ClientId)
  (h h' : Hub) :
  removeClientFromRoom t_leave t_list c h = Done h' -> hub_extends h h'.
Proof.
  unfold removeClientFromRoom. destruct (heap h !! c) as [cl|]; [|done].
  destruct (rooms h !! room cl) as [r|].
  - set (h1 := set_rooms h _).
    destruct (broadcastToRoom (Name r) (leave_msg t_leave r cl) h1)
      as [h2| |] eqn:H2; try done.
    simpl. destruct (sendUserListToRoom t_list (Name r) h2) as [h3| |] eqn:H3;
      try done.
    simpl. intros [= <-].
    apply broadcastToRoom_extends in H2. apply sendUserListToRoom_extends in H3.
    assert (H13 : hub_extends h h3).
    { eapply hub_extends_trans; [|exact H3].
      eapply hub_extends_trans; [|exact H2].
      split; [apply extends_refl|done]. }
    by destruct (Nat.eqb _ 0).
  - intros [= <-]. apply hub_extends_refl.
Qed.

Lemma handleCommand_extends (now : Time) (c : ClientId) (cmd : string)
  (h h' : Hub) :
  handleCommand now c cmd h = Done h' -> hub_extends h h'.
Proof.
  unfold handleCommand. destruct (heap h !! c) as [cl|]; [|done].
  repeat case_match; eauto using sendUserListToRoom_extends,
    client_send_hub_extends.
Qed.

Lemma run_step_extends (now : nat -> Time) (q : Request) (h h' : Hub) :
  run_step now q h = Done h' -> hub_extends h h'.
Proof.
  destruct q; simpl; eauto using addClientToRoom_extends,
    removeClientFromRoom_extends, broadcastToRoom_extends.
Qed.

Lemma run_extends (clock : nat -> nat -> Time) (qs : list Request) (k : nat)
  (h h' : Hub) :
  run clock k qs h = Done h' -> hub_extends h h'.
Proof.
  revert k h. induction qs as [|q qs IH]; intros k h Hr.
  - injection Hr as <-. apply hub_extends_refl.
  - simpl in Hr. destruct (run_step (clock k) q h) as [h1| |] eqn:H1; try done.
    eapply hub_extends_trans; [by eapply run_step_extends|by eapply IH].
Qed.

Lemma routeNotification_extends (uuid : string) (n : Notification)
  (h h' : Hub) :
  routeNotification uuid n h = Done h' -> extends (heap h) (heap h').
Proof.
  unfold routeNotification.
  change (heap h) with (heap (addNotification uuid n h)).
  generalize (addNotification uuid n h). intros h1 Hr.
  cut (hub_extends h1 h'); [by intros []|].
  revert Hr. repeat case_match.
  - apply forM_rel; [apply hub_extends_refl|apply hub_extends_trans|].
    intros; by eapply broadcastToRoom_extends.
  - apply broadcastToRoom_extends.
  - apply forM_rel; [apply hub_extends_refl|apply hub_extends_trans|].
    intros [k r] a a'.
    apply forM_rel; [apply hub_extends_refl|apply hub_extends_trans|].
    intros c b b' Hb. destruct (heap b !! c) as [cl|]; [|done].
    destruct (String.eqb (username cl) _).
    + by eapply client_send_hub_extends.
    + injection Hb as <-. apply hub_extends_refl.
  - intros [= <-]. apply hub_extends_refl.
Qed.

End GrowFacts.

(** X1.  No operation of the room-based hub removes, rewrites or reorders a
    message that waits in a mailbox, closes a mailbox or changes its
    capacity, renames a client or moves it to another room, or adds or
    removes a client object: after the control loop has served any requests,
    after a command and after a notification, every client has its username,
    its room, its capacity and its open flag, and its mailbox starts with
    what was waiting.  A mailbox that was within its capacity still is. *)
Theorem hub_operations_only_append `{Platform}
  (clock : nat -> nat -> Time) (k : nat) (qs : list Request)
  (now : Time) (c : ClientId) (cmd : string)
  (uuid : string) (n : Notification) (h h' : Hub) :
  run clock k qs h = Done h' \/ handleCommand now c cmd h = Done h'
  \/ routeNotification uuid n h = Done h' ->
  (forall d, heap h !! d = None -> heap h' !! d = None)
  /\ (forall d dl, heap h !! d = Some dl ->
        exists dl', heap h' !! d = Some dl' /\ grows dl dl').
Proof.
  intros Hop.
  assert (He : extends (heap h) (heap h')).
  { destruct Hop as [Hr|[Hc|Hn]].
    - by apply run_extends in Hr as [? _].
    - by apply handleCommand_extends in Hc as [? _].
    - by apply routeNotification_extends in Hn. }
  split.
  - intros d Hd. specialize (He d). rewrite Hd in He. by inversion He.
  - intros d dl Hd. specialize (He d). rewrite Hd in He.
    inversion He; subst. eauto.
Qed.

Lemma hub_operations_only_append_witness :
  exists h',
    @run sample_platform ex_clock 0 ex_requests (NewHub ex_heap) = Done h'
    /\ (forall d, heap (NewHub ex_heap) !! d = None -> heap h' !! d = None)
    /\ (forall d dl, heap (NewHub ex_heap) !! d = Some dl ->
          exists dl', heap h' !! d = Some dl' /\ grows dl dl').
Proof.
  eexists. split; [vm_compute; reflexivity|].
  apply (@hub_operations_only_append sample_platform ex_clock 0 ex_requests
           0%Z 1%positive "" "" (ex_notice "all") (NewHub ex_heap) _).
  left. vm_compute. reflexivity.
Defined.

Section WriterFacts.

Lemma chat_write_loop_split (fails : nat -> bool) (q : list Message) (i : nat) :
  exists w lost rest e,
    ChatServer.write_loop fails i q = (w, rest, e)
    /\ q = w ++ lost ++ rest
    /\ (forall j, j < length w -> fails (i + j) = false)
    /\ (e = false /\ lost = [] /\ rest = []
        \/ e = true /\ fails (i + length w) = true /\ exists m, lost = [m]).
Proof.
  revert i. induction q as [|m q IH]; intros i.
  - exists [], [], [], false. simpl. repeat split; [intros; lia|by left].
  - simpl. destruct (fails i) eqn:Hi.
    + exists [], [m], q, true. simpl. repeat split; [intros; lia|].
      right. rewrite Nat.add_0_r. eauto.
    + destruct (IH (S i)) as (w & lost & rest & e & -> & Hq & Hw & He).
      exists (m :: w), lost, rest, e. repeat split.
      * simpl. by rewrite Hq.
      * intros [|j] Hj; [by rewrite Nat.add_0_r|].
        simpl in Hj. replace (i + S j) with (S i + j) by lia. apply Hw. lia.
      * simpl. replace (i + S (length w)) with (S i + length w) by lia. done.
Qed.

End WriterFacts.

(** X2.  The writer of a session ([writePump] of the room-based server)
    writes the messages of the mailbox to the connection in the order they
    were queued and takes them out of the mailbox.  It stops at the first
    write that fails: that message is taken and not written, the later ones
    stay in the mailbox.  If no write fails the mailbox is emptied, and the
    writer goes on waiting unless the mailbox is closed. *)
Theorem chat_writer_keeps_order (fails : nat -> bool) (c : ClientId)
  (cl : Client) (h : Hub) :
  heap h !! c = Some cl ->
  exists w lost rest e,
    ChatServer.writePump fails c h
    = Done (w,
            set_heap h
              (<[c := set_send cl (mkChan (cap (send cl)) rest
                                          (closed (send cl)))]> (heap h)),
            e)
    /\ buf (send cl) = w ++ lost ++ rest
    /\ (forall j, j < length w -> fails j = false)
    /\ (lost = [] /\ rest = []
        /\ e = (if closed (send cl) then Returned else Waiting)
        \/ (exists m, lost = [m]) /\ fails (length w) = true /\ e = Returned).
Proof.
  intros Hc. unfold ChatServer.writePump. rewrite Hc.
  destruct (chat_write_loop_split fails (buf (send cl)) 0)
    as (w & lost & rest & e & -> & Hq & Hw & He).
  exists w, lost, rest, (if e then Returned
                         else if closed (send cl) then Returned else Waiting).
  repeat split; [done|exact Hw|].
  destruct He as [(-> & -> & ->)|(-> & Hf & Hm)].
  - left. by destruct (closed (send cl)).
  - right. done.
Qed.

Lemma chat_writer_keeps_order_witness :
  heap ex_full_hub !! 1%positive
    = Some (mkClient "A" "lobby" (mkChan 1 [ex_m1] false))
  /\ exists w lost rest e,
       ChatServer.writePump (fun _ => false) 1%positive ex_full_hub
       = Done (w,
               set_heap ex_full_hub
                 (<[1%positive := set_send (mkClient "A" "lobby" (mkChan 1 [ex_m1] false))
                                    (mkChan 1 rest false)]> (heap ex_full_hub)),
               e)
       /\ [ex_m1] = w ++ lost ++ rest
       /\ (forall j, j < length w -> (fun _ : nat => false) j = false)
       /\ (lost = [] /\ rest = [] /\ e = Waiting
           \/ (exists m, lost = [m]) /\ false = true /\ e = Returned).
Proof.
  assert (Hc : heap ex_full_hub !! 1%positive
               = Some (mkClient "A" "lobby" (mkChan 1 [ex_m1] false)))
    by (vm_compute; reflexivity).
  split; [exact Hc|].
  exact (chat_writer_keeps_order (fun _ => false) 1%positive _ ex_full_hub Hc).
Defined.

Section AdmissionFacts.
Context `{Platform}.


Lemma members_fresh (h : Hub) (c : ClientId) (k : string) :
  wf h -> heap h !! c = None -> c ∉ members h k.
Proof.
  intros Hwf Hc Hin. destruct (members_in_heap h k c Hwf Hin) as (cl & Hcl & _).
  unfold ClientId in *. congruence.
Qed.

End AdmissionFacts.



(** X4.  [serveWs] refuses a request without a username or without a room
    with the same answer, whether or not the connection could be upgraded,
    and a request whose upgrade fails; in each case the hub is left as it
    is and no session is registered. *)
Theorem serveWs_refuses `{Platform}
  (now : nat -> Time) (upgrade : bool) (c : ClientId)
  (username0 room0 : string) (h : Hub) :
  username0 = "" \/ room0 = "" \/ upgrade = false ->
  exists r,
    ChatServer.serveWs now upgrade c username0 room0 h = Done (h, r)
    /\ (forall c', r <> ChatServer.Serving c')
    /\ (username0 = "" \/ room0 = "" ->
        r = ChatServer.BadRequest "username and room query params required").
Proof.
  intros Hcase. unfold ChatServer.serveWs.
  destruct (String.eqb username0 "") eqn:Hu; simpl.
  { eexists. split; [done|]. split; [done|]. done. }
  destruct (String.eqb room0 "") eqn:Hr; simpl.
  { eexists. split; [done|]. split; [done|]. done. }
  apply String.eqb_neq in Hu. apply String.eqb_neq in Hr.
  destruct Hcase as [?|[?| ->]]; try done. simpl.
  eexists. split; [done|]. split; [done|]. intros [?|?]; done.
Qed.

Lemma serveWs_refuses_witness :
  exists r,
    @ChatServer.serveWs sample_platform (ex_clock 0) false 4%positive
      "" "lobby" ex_hub = Done (ex_hub, r)
    /\ (forall c', r <> ChatServer.Serving c')
    /\ (("" : string) = "" \/ ("lobby" : string) = "" ->
        r = ChatServer.BadRequest "username and room query params required").
Proof.
  apply (@serveWs_refuses sample_platform (ex_clock 0) false 4%positive
           "" "lobby" ex_hub).
  left. reflexivity.
Defined.

Section ReaderFacts.
Context `{Platform}.





Lemma deliver_all_snoc (q : list Message) (m : Message) (h : Hub) :
  deliver_all (q ++ [m]) h = deliver (deliver_all q h) m.
Proof. unfold deliver_all. by rewrite foldl_app. Qed.

Lemma wf_deliver (h : Hub) (m : Message) : wf h -> wf (deliver h m).
Proof. apply wf_offer_all. Qed.

Lemma drain_loop (l : list nat) (s : ChatServer.Server) :
  wf (ChatServer.hub s) -> length l = length (buf (ChatServer.broadcast s)) ->
  forM_ (fun _ : nat => ChatServer.run_broadcast) l s
  = Done (ChatServer.mkServer
            (deliver_all (buf (ChatServer.broadcast s)) (ChatServer.hub s))
            (mkChan (cap (ChatServer.broadcast s)) []
                    (closed (ChatServer.broadcast s)))).
Proof.
  revert s. induction l as [|x l IH]; intros [h [cp q cls]] Hwf Hlen;
    simpl in *.
  - destruct q; [done|simpl in Hlen; lia].
  - destruct q as [|m q]; [simpl in Hlen; lia|].
    unfold ChatServer.run_broadcast, chan_recv. simpl.
    rewrite (broadcastToRoom_total _ _ _ Hwf). simpl.
    rewrite IH; simpl.
    + done.
    + by apply wf_offer_all.
    + simpl in Hlen. lia.
Qed.

End ReaderFacts.





(** X7.  A frame that is not a command, read from a session while the
    queue of the hub is open, waits if the queue is full.  If the queue
    has room the frame is queued, and when the hub has served its queue
    the events queued before it were offered to the members of their
    rooms, and then the event of the frame, with the username and the room
    of the session, to every member of the room of the session; the queue
    is empty. *)
Theorem posted_frame_reaches_room `{Platform}
  (now : Time) (c : ClientId) (cl : Client) (msg : Message)
  (s : ChatServer.Server) :
  wf (ChatServer.hub s) -> heap (ChatServer.hub s) !! c = Some cl ->
  msgType msg <> MsgCommand ->
  closed (ChatServer.broadcast s) = false ->
  (has_room (ChatServer.broadcast s) = false ->
     ChatServer.readFrame now c msg s = Blocked)
  /\ (has_room (ChatServer.broadcast s) = true ->
      (s1 ← ChatServer.readFrame now c msg s;
       drain (length (buf (ChatServer.broadcast s1))) s1)
      = Done (ChatServer.mkServer
                (deliver (deliver_all (buf (ChatServer.broadcast s))
                                      (ChatServer.hub s))
                         (stamp cl (now, msg)))
                (mkChan (cap (ChatServer.broadcast s)) [] false))
      /\ msgRoom (stamp cl (now, msg)) = room cl
      /\ members (deliver_all (buf (ChatServer.broadcast s)) (ChatServer.hub s))
                 (room cl)
         = members (ChatServer.hub s) (room cl)).
Proof.
  intros Hwf Hc Hty Hcl.
  apply String.eqb_neq in Hty.
  unfold ChatServer.readFrame, chan_send. rewrite Hc, Hty, Hcl.
  split; [by intros ->|]. intros ->. simpl.
  split; [|split; [done|]].
  - unfold drain. rewrite drain_loop; simpl.
    + by rewrite deliver_all_snoc, Hcl.
    + done.
    + by rewrite length_seq.
  - generalize (buf (ChatServer.broadcast s)). intros q.
    induction q as [|m q IH] using rev_ind; [done|].
    by rewrite deliver_all_snoc.
Qed.

Lemma posted_frame_reaches_room_witness :
  wf ex_hub /\ heap ex_hub !! 1%positive = Some (newClient "A" "lobby")
  /\ exists s2,
       (s1 ← @ChatServer.readFrame sample_platform 7%Z 1%positive
               (mkMessage MsgChat "dev" "C" "hi" "")
               (ChatServer.mkServer ex_hub (make_chan 256));
        @drain sample_platform (length (buf (ChatServer.broadcast s1))) s1)
       = Done s2
       /\ mailbox (ChatServer.hub s2) 1%positive
          = [mkMessage MsgChat "lobby" "A" "hi" "7"]
       /\ mailbox (ChatServer.hub s2) 2%positive
          = [mkMessage MsgChat "lobby" "A" "hi" "7"]
       /\ mailbox (ChatServer.hub s2) 3%positive = [].
Proof.
  assert (Hwf : wf ex_hub) by (vm_compute; reflexivity).
  assert (Hc : heap ex_hub !! 1%positive = Some (newClient "A" "lobby"))
    by (vm_compute; reflexivity).
  split; [exact Hwf|]. split; [exact Hc|].
  destruct (@posted_frame_reaches_room sample_platform 7%Z 1%positive
              (newClient "A" "lobby") (mkMessage MsgChat "dev" "C" "hi" "")
              (ChatServer.mkServer ex_hub (make_chan 256)) Hwf Hc
              ltac:(done) ltac:(reflexivity)) as [_ Hroom].
  destruct (Hroom ltac:(reflexivity)) as (Hrun & _ & _).
  eexists. split; [exact Hrun|].
  split; [vm_compute; reflexivity|]. split; vm_compute; reflexivity.
Defined.

Section NotifyFacts.
Context `{Platform}.



End NotifyFacts.



Section CountFacts.
Context `{Platform}.

Lemma size_disjoint_rooms (hp : gmap ClientId Client) (l : list (string * Room)) :
  NoDup l.*1 ->
  (forall k r c, (k, r) ∈ l -> c ∈ Clients r ->
     exists cl, hp !! c = Some cl /\ room cl = k) ->
  sum_list ((fun kr : string * Room => size (Clients kr.2)) <$> l)
  = size (⋃ ((fun kr : string * Room => Clients kr.2) <$> l)).
Proof.
  induction l as [|[k r] l IH]; intros Hnd Hm.
  - rewrite !fmap_nil. change (0 = size (∅ : gset ClientId)).
    by rewrite size_empty.
  - rewrite !fmap_cons. cbn [fst snd].
    change (size (Clients r)
            + sum_list ((fun kr : string * Room => size (Clients kr.2)) <$> l)
            = size (Clients r
                    ∪ ⋃ ((fun kr : string * Room => Clients kr.2) <$> l))).
    rewrite fmap_cons in Hnd. cbn [fst] in Hnd. apply NoDup_cons in Hnd as [Hk Hnd].
    rewrite size_union.
    + f_equal. apply IH; [done|]. intros k' r' c Hin. apply Hm. by right.
    + intros c Hc Hu. apply elem_of_union_list in Hu as (X & HX & HcX).
      apply list_elem_of_fmap in HX as ([k' r'] & -> & Hin). simpl in HcX.
      destruct (Hm k r c ltac:(left) Hc) as (cl & Hcl & Hrk).
      destruct (Hm k' r' c ltac:(by right) HcX) as (cl' & Hcl' & Hrk').
      apply Hk. apply list_elem_of_fmap. exists (k', r'). split; [|done].
      simpl. congruence.
Qed.

Lemma elem_of_all_members (h : Hub) (c : ClientId) :
  c ∈ all_members h <-> exists k, c ∈ members h k.
Proof.
  unfold all_members. rewrite elem_of_union_list. split.
  - intros (X & HX & Hc). apply list_elem_of_fmap in HX as ([k r] & -> & Hin).
    apply elem_of_map_to_list in Hin. exists k. unfold members. by rewrite Hin.
  - intros (k & Hk). unfold members in Hk.
    destruct (rooms h !! k) as [r|] eqn:Hr; [|set_solver].
    exists (Clients r). split; [|done].
    apply list_elem_of_fmap. exists (k, r). split; [done|].
    by apply elem_of_map_to_list.
Qed.

Lemma session_total_members (h : Hub) :
  wf h -> session_total h = size (all_members h).
Proof.
  intros Hwf. unfold session_total, all_members.
  apply (size_disjoint_rooms (heap h)).
  - apply NoDup_fst_map_to_list.
  - intros k r c Hin Hc. apply elem_of_map_to_list in Hin.
    by eapply wf_member.
Qed.

Lemma sum_list_ge_length {A : Type} (f : A -> nat) (l : list A) :
  (forall x, x ∈ l -> 1 <= f x) -> length l <= sum_list (f <$> l).
Proof.
  induction l as [|x l IH]; intros Hf; [simpl; lia|].
  assert (1 <= f x) by (apply Hf; left).
  assert (length l <= sum_list (f <$> l)) by (apply IH; intros; apply Hf; by right).
  rewrite fmap_cons.
  change (S (length l) <= f x + sum_list (f <$> l)). lia.
Qed.

Lemma run_live_in_heap (clock : nat -> nat -> Time) (qs : list Request)
  (k : nat) (s : gset ClientId) (h h' : Hub) :
  run clock k qs h = Done h' ->
  (forall c, c ∈ s -> is_Some (heap h !! c)) ->
  forall c, c ∈ foldl live_step s qs -> is_Some (heap h' !! c).
Proof.
  revert k s h. induction qs as [|q qs IH]; intros k s h Hr Hs.
  - injection Hr as <-. done.
  - simpl in Hr. destruct (run_step (clock k) q h) as [h1| |] eqn:H1; try done.
    simpl in Hr. simpl. apply (IH _ _ _ Hr).
    pose proof (run_step_extends _ _ _ _ H1) as [He _].
    assert (Hkeep : forall d, is_Some (heap h !! d) -> is_Some (heap h1 !! d)).
    { intros d [dl Hd]. specialize (He d). rewrite Hd in He.
      inversion He; subst. eauto. }
    intros c Hc. destruct q as [d|d|m]; simpl in Hc.
    + apply elem_of_union in Hc as [Hc|Hc]; [|by apply Hkeep, Hs].
      apply elem_of_singleton in Hc as ->. apply Hkeep.
      simpl in H1. unfold addClientToRoom in H1.
      destruct (heap h !! d); [eauto|done].
    + apply Hkeep, Hs. set_solver.
    + by apply Hkeep, Hs.
Qed.

Lemma getStats_counts_members_aux (h : Hub) :
  wf h -> total_users (ChatServer.getStats h) = size (all_members h).
Proof.
  intros Hwf. change (ChatServer.getStats h) with (hub_stats h).
  rewrite hub_stats_eq. simpl. by apply session_total_members.
Qed.

End CountFacts.

(** X9.  [getStats] answers with the data of the [/stats] command.  In a
    well-formed hub [total_users] is the number of sessions that are
    members of a room, [total_rooms] the number of rooms of the directory,
    and [room_details] gives for every room of the directory, and for no
    other name, its number of members, which is at least 1; so there are
    at most as many rooms as users. *)
Theorem getStats_counts_members `{Platform} (h : Hub) :
  wf h ->
  ChatServer.getStats h = hub_stats h
  /\ total_users (ChatServer.getStats h) = size (all_members h)
  /\ total_rooms (ChatServer.getStats h) = size (rooms h)
  /\ (forall k, room_details (ChatServer.getStats h) !! k
                = (fun r => size (Clients r)) <$> rooms h !! k)
  /\ (forall k v, room_details (ChatServer.getStats h) !! k = Some v ->
        v = member_count h k /\ 1 <= v)
  /\ total_rooms (ChatServer.getStats h) <= total_users (ChatServer.getStats h).
Proof.
  intros Hwf.
  assert (Hg : ChatServer.getStats h
               = mkStats (session_total h) (size (rooms h)) (room_sizes h)).
  { change (ChatServer.getStats h) with (hub_stats h). apply hub_stats_eq. }
  split; [done|]. rewrite Hg. simpl.
  split; [by apply session_total_members|]. split; [done|].
  assert (Hdet : forall k, room_sizes h !! k
                           = (fun r => size (Clients r)) <$> rooms h !! k).
  { intros k. unfold room_sizes. by rewrite lookup_fmap. }
  split; [done|]. split.
  - intros k v. rewrite Hdet. destruct (rooms h !! k) as [r|] eqn:Hr; [|done].
    simpl. intros [= <-]. unfold member_count. rewrite (members_lookup h k r Hr).
    split; [done|]. destruct (wf_room h k r Hwf Hr) as [_ Hne].
    destruct (size (Clients r)) eqn:Hz; [|lia].
    apply size_empty_inv in Hz. unfold_leibniz. done.
  - unfold session_total. rewrite <- (length_map_to_list (rooms h)).
    apply sum_list_ge_length. intros [k r] Hin. simpl.
    apply elem_of_map_to_list in Hin.
    destruct (wf_room h k r Hwf Hin) as [_ Hne].
    destruct (size (Clients r)) eqn:Hz; [|lia].
    apply size_empty_inv in Hz. unfold_leibniz. done.
Qed.

Lemma getStats_counts_members_witness :
  wf ex_hub
  /\ total_users (@ChatServer.getStats sample_platform ex_hub) = 3
  /\ size (all_members ex_hub) = 3
  /\ total_rooms (@ChatServer.getStats sample_platform ex_hub) = 2
  /\ room_details (@ChatServer.getStats sample_platform ex_hub) !! "lobby" = Some 2.
Proof.
  assert (Hwf : wf ex_hub) by (vm_compute; reflexivity).
  destruct (@getStats_counts_members sample_platform ex_hub Hwf)
    as (_ & Hu & Hr & Hd & _).
  split; [exact Hwf|]. split; [|split; [|split]].
  - rewrite Hu. vm_compute. reflexivity.
  - vm_compute. reflexivity.
  - rewrite Hr. vm_compute. reflexivity.
  - rewrite Hd. vm_compute. reflexivity.
Defined.

(** X10.  Served from a new hub, after every sequence of requests that the
    control loop completes, [getStats] reports as [total_users] the number
    of sessions registered and not unregistered since, and the sessions
    that are members of a room are exactly those. *)
Theorem getStats_counts_live_sessions `{Platform}
  (clock : nat -> nat -> Time) (m : gmap ClientId Client)
  (qs : list Request) (h : Hub) :
  heap_open m = true ->
  run clock 0 qs (NewHub m) = Done h ->
  all_members h = live qs
  /\ total_users (ChatServer.getStats h) = size (live qs).
Proof.
  intros Ho Hr.
  assert (Hwf0 : wf (NewHub m)) by (by apply wf_NewHub).
  assert (Hwf : wf h) by (by eapply run_wf).
  destruct (run_tracks clock qs 0 ∅ (NewHub m) h Hwf0 (tracks_NewHub m) Hr)
    as [Htr _].
  fold (live qs) in Htr.
  assert (Hall : all_members h = live qs).
  { apply set_eq. intros c. rewrite elem_of_all_members. split.
    - intros [k Hk].
      destruct (members_in_heap h k c Hwf Hk) as (cl & Hcl & Hrk & _).
      apply (Htr c cl Hcl). by rewrite Hrk.
    - intros Hl.
      destruct (run_live_in_heap clock qs 0 ∅ (NewHub m) h Hr
                  ltac:(set_solver) c Hl) as [cl Hcl].
      exists (room cl). by apply (Htr c cl Hcl). }
  split; [done|].
  by rewrite (getStats_counts_members_aux h Hwf), Hall.
Qed.

Lemma getStats_counts_live_sessions_witness :
  heap_open ex_heap = true
  /\ exists h,
       @run sample_platform ex_clock 0 ex_requests (NewHub ex_heap) = Done h
       /\ all_members h = live ex_requests
       /\ total_users (@ChatServer.getStats sample_platform h)
          = size (live ex_requests)
       /\ elements (live ex_requests) = [1%positive].
Proof.
  split; [vm_compute; reflexivity|].
  eexists. split; [vm_compute; reflexivity|].
  split; [|split; [|vm_compute; reflexivity]];
    apply (@getStats_counts_live_sessions sample_platform ex_clock ex_heap
             ex_requests _); vm_compute; reflexivity.
Defined.

Section BcastRunFacts.
Context `{Platform}.

Lemma bcast_heap_open_spec (hp : gmap ClientId Bcast.Client) :
  bcast_heap_open hp = true <->
  (forall c cl, hp !! c = Some cl -> closed (Bcast.Send cl) = false).
Proof.
  unfold bcast_heap_open. rewrite forallb_elem_of. split.
  - intros Hall c cl Hc. apply elem_of_map_to_list in Hc.
    specialize (Hall (c, cl) Hc). simpl in Hall. by apply negb_true_iff in Hall.
  - intros Hall [c cl] Hin. apply elem_of_map_to_list in Hin. simpl.
    apply negb_true_iff. by eapply Hall.
Qed.

Lemma bcast_unregister_cases (c : ClientId) (h : Bcast.Hub) :
  (c ∉ Bcast.clients h -> Bcast.run_step (Bcast.Unregister c) h = Done h)
  /\ (forall cl, c ∈ Bcast.clients h -> Bcast.heap h !! c = Some cl ->
        closed (Bcast.Send cl) = false ->
        Bcast.run_step (Bcast.Unregister c) h
        = Done (Bcast.mkHub (Bcast.clients h ∖ {[c]})
                  (<[c := Bcast.mkClient (Bcast.ID cl)
                            (mkChan (cap (Bcast.Send cl)) (buf (Bcast.Send cl))
                                    true)]> (Bcast.heap h)))).
Proof.
  split.
  - intros Hn. simpl. by rewrite decide_False.
  - intros cl Hin Hc Ho. simpl. rewrite decide_True by done.
    unfold Bcast.close_send, Bcast.delete_client, chan_close. simpl.
    by rewrite Hc, Ho.
Qed.

(** The invariant of the loop: the clients of the hub have an open
    mailbox, and so have the clients that are still to be registered,
    which are not clients of the hub yet. *)
Lemma bcast_step_safe (q : Bcast.Request) (qs : list Bcast.Request)
  (h : Bcast.Hub) :
  NoDup (regs (q :: qs)) ->
  (forall c, c ∈ Bcast.clients h ->
     exists cl, Bcast.heap h !! c = Some cl /\ closed (Bcast.Send cl) = false) ->
  (forall c, c ∈ regs (q :: qs) ->
     (c ∉ Bcast.clients h) /\
     exists cl, Bcast.heap h !! c = Some cl /\ closed (Bcast.Send cl) = false) ->
  exists h1,
    Bcast.run_step q h = Done h1
    /\ NoDup (regs qs)
    /\ (forall c, c ∈ Bcast.clients h1 ->
          exists cl, Bcast.heap h1 !! c = Some cl /\ closed (Bcast.Send cl) = false)
    /\ (forall c, c ∈ regs qs ->
          (c ∉ Bcast.clients h1) /\
          exists cl, Bcast.heap h1 !! c = Some cl /\ closed (Bcast.Send cl) = false).
Proof.
  intros Hnd Hcl Hrg. destruct q as [c|c|m].
  - change (regs (Bcast.Register c :: qs)) with (c :: regs qs) in *.
    apply NoDup_cons in Hnd as [Hc Hnd].
    eexists. split; [reflexivity|]. split; [done|]. simpl. split.
    + intros d Hd. apply elem_of_union in Hd as [Hd|Hd]; [|by apply Hcl].
      apply elem_of_singleton in Hd as ->. apply Hrg. left.
    + intros d Hd. destruct (Hrg d ltac:(by right)) as [Hn Ho].
      split; [|done]. intros Hin. apply elem_of_union in Hin as [Hin|Hin]; [|done].
      apply elem_of_singleton in Hin as ->. done.
  - change (regs (Bcast.Unregister c :: qs)) with (regs qs) in *.
    destruct (decide (c ∈ Bcast.clients h)) as [Hin|Hn].
    + destruct (Hcl c Hin) as (cl & Hc & Ho).
      destruct (bcast_unregister_cases c h) as [_ Hun].
      eexists. split; [by apply (Hun cl)|]. split; [done|]. simpl. split.
      * intros d Hd. apply elem_of_difference in Hd as [Hd Hne].
        rewrite lookup_insert_ne by set_solver. by apply Hcl.
      * intros d Hd. destruct (Hrg d Hd) as [Hnd' Ho'].
        split; [set_solver|]. rewrite lookup_insert_ne; [done|].
        intros ->. done.
    + destruct (bcast_unregister_cases c h) as [Hun _].
      exists h. split; [by apply Hun|]. done.
  - change (regs (Bcast.Broadcast m :: qs)) with (regs qs) in *.
    destruct (bcast_loop m (range_set (Bcast.clients h)) h (NoDup_range_set _))
      as (h1 & Hrun & Hheap & Hclients).
    { intros c Hc. apply Hcl. by apply elem_of_range_set. }
    exists h1. split; [exact Hrun|]. split; [done|]. split.
    + intros d Hd. apply Hclients in Hd as [Hd Hnf].
      destruct (Hcl d Hd) as (dl & Hdl & Ho).
      rewrite Hheap, decide_True by (by apply elem_of_range_set).
      rewrite Hdl. simpl. eexists. split; [done|].
      unfold bcast_client. destruct (has_room (Bcast.Send dl)) eqn:Hr; [done|].
      exfalso. apply Hnf. split; [by apply elem_of_range_set|]. eauto.
    + intros d Hd. destruct (Hrg d Hd) as [Hn Ho].
      split; [rewrite Hclients; tauto|].
      rewrite Hheap, decide_False; [done|]. by rewrite elem_of_range_set.
Qed.

Lemma bcast_run_safe (qs : list Bcast.Request) (h : Bcast.Hub) :
  NoDup (regs qs) ->
  (forall c, c ∈ Bcast.clients h ->
     exists cl, Bcast.heap h !! c = Some cl /\ closed (Bcast.Send cl) = false) ->
  (forall c, c ∈ regs qs ->
     (c ∉ Bcast.clients h) /\
     exists cl, Bcast.heap h !! c = Some cl /\ closed (Bcast.Send cl) = false) ->
  exists h',
    Bcast.run qs h = Done h'
    /\ (forall c, c ∈ Bcast.clients h' ->
          exists cl, Bcast.heap h' !! c = Some cl /\ closed (Bcast.Send cl) = false).
Proof.
  revert h. induction qs as [|q qs IH]; intros h Hnd Hcl Hrg.
  - exists h. done.
  - destruct (bcast_step_safe q qs h Hnd Hcl Hrg) as (h1 & H1 & Hnd1 & Hcl1 & Hrg1).
    destruct (IH h1 Hnd1 Hcl1 Hrg1) as (h' & Hrun & Hcl').
    exists h'. split; [|done]. simpl. by rewrite H1.
Qed.

End BcastRunFacts.

(** X11.  The control loop of the room-less hub serves every sequence of
    requests to the end, without waiting and without a panic (no send on a
    closed mailbox, no mailbox closed twice), when every client is
    registered at most once and the clients that are registered are client
    objects with an open mailbox: whatever is unregistered, however often
    and in whatever order, and whatever is broadcast.  Afterwards every
    client of the hub has an open mailbox. *)
Theorem bcast_run_completes `{Platform}
  (m : gmap ClientId Bcast.Client) (qs : list Bcast.Request) :
  bcast_heap_open m = true ->
  NoDup (regs qs) ->
  (forall c, c ∈ regs qs -> is_Some (m !! c)) ->
  exists h',
    Bcast.run qs (Bcast.newHub m) = Done h'
    /\ bcast_open h' = true.
Proof.
  intros Ho Hnd Hin.
  destruct (bcast_run_safe qs (Bcast.newHub m) Hnd) as (h' & Hrun & Hcl).
  - intros c Hc. simpl in Hc. set_solver.
  - intros c Hc. split; [simpl; set_solver|].
    destruct (Hin c Hc) as [cl Hcl]. exists cl. split; [done|].
    by apply (proj1 (bcast_heap_open_spec m) Ho c).
  - exists h'. split; [done|]. by apply bcast_open_spec.
Qed.

Lemma bcast_run_completes_witness :
  exists h',
    @Bcast.run sample_platform
      [Bcast.Unregister 1%positive; Bcast.Register 1%positive;
       Bcast.Broadcast "User-2: one"; Bcast.Broadcast "User-2: two";
       Bcast.Unregister 1%positive; Bcast.Unregister 1%positive;
       Bcast.Broadcast "User-2: three"]
      (Bcast.newHub (Bcast.heap ex_bhub)) = Done h'
    /\ bcast_open h' = true.
Proof.
  apply (@bcast_run_completes sample_platform (Bcast.heap ex_bhub)).
  - vm_compute. reflexivity.
  - vm_compute. apply NoDup_cons. split; [apply not_elem_of_nil|apply NoDup_nil_2].
  - intros c Hc. vm_compute in Hc. apply list_elem_of_singleton in Hc as ->.
    vm_compute. eauto.
Defined.

(** X12.  In the room-less hub [unregister] is idempotent: when an
    [unregister] of a client has completed the client is no client of the
    hub, and one more [unregister] of it changes nothing: the mailbox is
    not closed a second time.  An [unregister] of a client of the hub with
    an open mailbox closes the mailbox and keeps the messages that wait
    in it. *)
Theorem bcast_unregister_idempotent `{Platform}
  (c : ClientId) (h h1 : Bcast.Hub) :
  Bcast.run_step (Bcast.Unregister c) h = Done h1 ->
  (c ∉ Bcast.clients h1)
  /\ Bcast.run_step (Bcast.Unregister c) h1 = Done h1
  /\ Bcast.clients h1 = Bcast.clients h ∖ {[c]}
  /\ (forall d, d <> c -> Bcast.heap h1 !! d = Bcast.heap h !! d)
  /\ (c ∈ Bcast.clients h ->
      exists cl, Bcast.heap h !! c = Some cl
        /\ Bcast.heap h1 !! c
           = Some (Bcast.mkClient (Bcast.ID cl)
                     (mkChan (cap (Bcast.Send cl)) (buf (Bcast.Send cl)) true))).
Proof.
  intros Hrun. simpl in Hrun.
  destruct (decide (c ∈ Bcast.clients h)) as [Hin|Hn].
  - unfold Bcast.close_send, Bcast.delete_client, chan_close in Hrun.
    simpl in Hrun. destruct (Bcast.heap h !! c) as [cl|] eqn:Hc; [|done].
    destruct (closed (Bcast.Send cl)) eqn:Ho; [done|]. simpl in Hrun.
    injection Hrun as <-. simpl.
    split; [set_solver|]. split; [by rewrite decide_False by set_solver|].
    split; [done|]. split.
    + intros d Hd. by rewrite lookup_insert_ne.
    + intros _. exists cl. split; [done|]. by rewrite lookup_insert_eq.
  - injection Hrun as <-. split; [done|].
    split; [simpl; by rewrite decide_False|].
    split; [set_solver|]. split; [done|]. done.
Qed.

Lemma bcast_unregister_idempotent_witness :
  exists h1,
    @Bcast.run_step sample_platform (Bcast.Unregister 1%positive) ex_full_bhub
      = Done h1
    /\ (1%positive ∉ Bcast.clients h1)
    /\ @Bcast.run_step sample_platform (Bcast.Unregister 1%positive) h1 = Done h1
    /\ Bcast.heap h1 !! 1%positive
       = Some (Bcast.mkClient "User-1" (mkChan 1 ["User-2: one"] true)).
Proof.
  eexists. split; [vm_compute; reflexivity|].
  match goal with |- (_ ∉ Bcast.clients ?h1) /\ _ =>
    destruct (@bcast_unregister_idempotent sample_platform 1%positive
                ex_full_bhub h1 ltac:(vm_compute; reflexivity))
      as (Hn & Hagain & _)
  end.
  split; [exact Hn|]. split; [exact Hagain|]. vm_compute. reflexivity.
Defined.

Section BcastRelayFacts.
Context `{Platform}.

Lemma bcast_room_for_spec (n : nat) (h : Bcast.Hub) :
  bcast_room_for n h = true <->
  (forall c, c ∈ Bcast.clients h ->
     exists cl, Bcast.heap h !! c = Some cl /\ closed (Bcast.Send cl) = false
                /\ length (buf (Bcast.Send cl)) + n <= cap (Bcast.Send cl)).
Proof.
  unfold bcast_room_for. rewrite forallb_elem_of. split.
  - intros Hall c Hc. specialize (Hall c). rewrite elem_of_elements in Hall.
    specialize (Hall Hc). destruct (Bcast.heap h !! c) as [cl|]; [|done].
    apply andb_true_iff in Hall as [Ho Hl]. apply negb_true_iff in Ho.
    apply Nat.leb_le in Hl. eauto.
  - intros Hall c Hc. apply elem_of_elements in Hc.
    destruct (Hall c Hc) as (cl & -> & Ho & Hl).
    apply andb_true_iff. split; [by apply negb_true_iff|by apply Nat.leb_le].
Qed.

Lemma bcast_push_all_cons (m : string) (ms : list string) (cl : Bcast.Client) :
  bcast_push_all ms (bcast_push_all [m] cl) = bcast_push_all (m :: ms) cl.
Proof. unfold bcast_push_all. simpl. by rewrite <- app_assoc. Qed.

Lemma bcast_push_all_nil (cl : Bcast.Client) : bcast_push_all [] cl = cl.
Proof. destruct cl as [i [cp b cls]]. unfold bcast_push_all. simpl. by rewrite app_nil_r. Qed.

(** A broadcast to clients that all have room puts the message in the
    mailbox of each and keeps the clients. *)
Lemma bcast_broadcast_ready (m : string) (h : Bcast.Hub) :
  (forall c, c ∈ Bcast.clients h ->
     exists cl, Bcast.heap h !! c = Some cl /\ closed (Bcast.Send cl) = false
                /\ has_room (Bcast.Send cl) = true) ->
  exists h1,
    Bcast.run_step (Bcast.Broadcast m) h = Done h1
    /\ Bcast.clients h1 = Bcast.clients h
    /\ (forall c, Bcast.heap h1 !! c
                  = if decide (c ∈ Bcast.clients h)
                    then bcast_push_all [m] <$> Bcast.heap h !! c
                    else Bcast.heap h !! c).
Proof.
  intros Hall.
  destruct (bcast_loop m (range_set (Bcast.clients h)) h (NoDup_range_set _))
    as (h1 & Hrun & Hheap & Hclients).
  { intros c Hc. apply elem_of_range_set in Hc.
    destruct (Hall c Hc) as (cl & Hcl & Ho & _). eauto. }
  exists h1. split; [exact Hrun|]. split.
  - apply set_eq. intros c. rewrite Hclients. split; [tauto|].
    intros Hc. split; [done|]. intros [_ (cl & Hcl & Hfull)].
    destruct (Hall c Hc) as (cl' & Hcl' & _ & Hr). congruence.
  - intros c. rewrite Hheap. destruct (decide (c ∈ Bcast.clients h)) as [Hc|Hc].
    + rewrite decide_True by (by apply elem_of_range_set).
      destruct (Hall c Hc) as (cl & Hcl & _ & Hr). rewrite Hcl. simpl.
      unfold bcast_client, bcast_push_all, enqueue. by rewrite Hr.
    + rewrite decide_False; [done|]. by rewrite elem_of_range_set.
Qed.

Lemma bcast_relay_loop (f : string -> string) (frames : list string)
  (h : Bcast.Hub) :
  (forall c, c ∈ Bcast.clients h ->
     exists cl, Bcast.heap h !! c = Some cl /\ closed (Bcast.Send cl) = false
                /\ length (buf (Bcast.Send cl)) + length frames
                   <= cap (Bcast.Send cl)) ->
  exists h',
    forM_ (fun msg => Bcast.run_step (Bcast.Broadcast (f msg))) frames h = Done h'
    /\ Bcast.clients h' = Bcast.clients h
    /\ (forall c, Bcast.heap h' !! c
                  = if decide (c ∈ Bcast.clients h)
                    then bcast_push_all (f <$> frames) <$> Bcast.heap h !! c
                    else Bcast.heap h !! c).
Proof.
  revert h. induction frames as [|m frames IH]; intros h Hall.
  - exists h. split; [done|]. split; [done|]. intros c.
    destruct (decide (c ∈ Bcast.clients h)); [|done].
    destruct (Bcast.heap h !! c) as [cl|]; [|done]. simpl.
    by rewrite bcast_push_all_nil.
  - destruct (bcast_broadcast_ready (f m) h) as (h1 & H1 & Hc1 & Hh1).
    { intros c Hc. destruct (Hall c Hc) as (cl & Hcl & Ho & Hl).
      exists cl. split; [done|]. split; [done|].
      apply has_room_true. simpl in Hl. lia. }
    destruct (IH h1) as (h' & Hrun & Hc' & Hh').
    { intros c Hc. rewrite Hc1 in Hc.
      destruct (Hall c Hc) as (cl & Hcl & Ho & Hl).
      rewrite Hh1, decide_True, Hcl by done. simpl.
      eexists. split; [done|]. simpl. split; [done|].
      rewrite length_app. simpl in *. lia. }
    exists h'. split; [|split].
    + cbn [forM_]. rewrite H1. exact Hrun.
    + by rewrite Hc', Hc1.
    + intros c. rewrite Hh', Hc1, Hh1.
      destruct (decide (c ∈ Bcast.clients h)); [|done].
      destruct (Bcast.heap h !! c) as [cl|]; [|done]. simpl.
      by rewrite bcast_push_all_cons.
Qed.

End BcastRelayFacts.

(** X13.  The reader of a client of the room-less hub ([readPump]) relays
    every message it reads to every client of the hub, the sender
    included, prefixed with the identifier of the sender and a colon, in
    the order read; when it ends it unregisters the sender, whose mailbox
    is closed with the messages still in it.  This is what happens when
    the mailbox of every client has room for the messages; the mailboxes
    of the client objects that are no clients of the hub are not
    touched. *)
Theorem bcast_readPump_relays `{Platform}
  (frames : list string) (c : ClientId) (cl : Bcast.Client) (h : Bcast.Hub) :
  bcast_room_for (length frames) h = true ->
  c ∈ Bcast.clients h ->
  Bcast.heap h !! c = Some cl ->
  exists h',
    BcastServer.readPump frames c h = Done h'
    /\ Bcast.clients h' = Bcast.clients h ∖ {[c]}
    /\ (forall d dl, d ∈ Bcast.clients h -> d <> c ->
          Bcast.heap h !! d = Some dl ->
          Bcast.heap h' !! d
          = Some (bcast_push_all ((fun msg => Bcast.ID cl +:+ ": " +:+ msg)
                                    <$> frames) dl))
    /\ Bcast.heap h' !! c
       = Some (Bcast.mkClient (Bcast.ID cl)
                 (mkChan (cap (Bcast.Send cl))
                    (buf (Bcast.Send cl)
                     ++ ((fun msg => Bcast.ID cl +:+ ": " +:+ msg) <$> frames))
                    true))
    /\ (forall d, d ∉ Bcast.clients h -> Bcast.heap h' !! d = Bcast.heap h !! d).
Proof.
  intros Hroom Hin Hc.
  pose proof (proj1 (bcast_room_for_spec _ _) Hroom) as Hroom'. clear Hroom.
  rename Hroom' into Hroom.
  destruct (bcast_relay_loop (fun msg => Bcast.ID cl +:+ ": " +:+ msg) frames h
              Hroom) as (h1 & Hloop & Hc1 & Hh1).
  destruct (Hroom c Hin) as (cl' & Hcl' & Ho & _).
  assert (cl' = cl) as -> by congruence.
  destruct (bcast_unregister_cases c h1) as [_ Hun].
  assert (Hc1' : Bcast.heap h1 !! c
                 = Some (bcast_push_all
                           ((fun msg => Bcast.ID cl +:+ ": " +:+ msg) <$> frames)
                           cl)).
  { by rewrite Hh1, decide_True, Hc by done. }
  specialize (Hun _ ltac:(by rewrite Hc1) Hc1' Ho).
  eexists. split.
  { unfold BcastServer.readPump. rewrite Hc. rewrite Hloop. exact Hun. }
  simpl. split; [by rewrite Hc1|]. split; [|split].
  - intros d dl Hd Hne Hdl. rewrite lookup_insert_ne by done.
    by rewrite Hh1, decide_True, Hdl by done.
  - by rewrite lookup_insert_eq.
  - intros d Hd. rewrite lookup_insert_ne by set_solver.
    by rewrite Hh1, decide_False by done.
Qed.

Lemma bcast_readPump_relays_witness :
  exists h',
    @BcastServer.readPump sample_platform ["hi"] 1%positive ex_bhub = Done h'
    /\ Bcast.clients h' = Bcast.clients ex_bhub ∖ {[1%positive]}
    /\ Bcast.heap h' !! 1%positive
       = Some (Bcast.mkClient "User-1" (mkChan 1 ["User-1: hi"] true)).
Proof.
  destruct (@bcast_readPump_relays sample_platform ["hi"] 1%positive
              (Bcast.mkClient "User-1" (make_chan 1)) ex_bhub
              ltac:(vm_compute; reflexivity) ltac:(set_solver)
              ltac:(vm_compute; reflexivity))
    as (h' & Hrun & Hcl & _ & Hself & _).
  exists h'. split; [exact Hrun|]. split; [exact Hcl|]. exact Hself.
Defined.

Section BcastWriterFacts.

Lemma texts_cons_text (m : string) (fs : list BcastServer.Frame) :
  texts (BcastServer.TextMessage m :: fs) = m :: texts fs.
Proof. reflexivity. Qed.

Lemma texts_cons_ping (fs : list BcastServer.Frame) :
  texts (BcastServer.PingMessage :: fs) = texts fs.
Proof. reflexivity. Qed.

Lemma last_cons_elem {A : Type} (x y : A) (l : list A) :
  y ∈ l -> last (x :: l) = last l.
Proof. intros Hy. destruct l; [by apply elem_of_nil in Hy|done]. Qed.

Ltac close_case :=
  repeat split; try done; try lia;
  try (by match goal with Hin : _ ∈ [] |- _ => apply elem_of_nil in Hin end).

Lemma bcast_write_loop_split (ws : list BcastServer.Wake) (ch : Chan string) :
  exists fs ch' e lost,
    BcastServer.write_loop ws ch = (fs, ch', e)
    /\ cap ch' = cap ch /\ closed ch' = closed ch
    /\ buf ch = texts fs ++ lost ++ buf ch'
    /\ length lost <= 1
    /\ (lost <> [] -> e = Returned)
    /\ (BcastServer.CloseMessage ∈ fs ->
        closed ch = true /\ buf ch' = [] /\ lost = []
        /\ last fs = Some BcastServer.CloseMessage /\ e = Returned).
Proof.
  revert ch. induction ws as [|w ws IH]; intros ch.
  - exists [], ch, Waiting, []. simpl. close_case.
  - destruct w as [ok|ok]; simpl.
    + destruct (buf ch) as [|m rest] eqn:Hb.
      * destruct (closed ch) eqn:Hcl.
        -- exists (if ok then [BcastServer.CloseMessage] else []), ch, Returned, [].
           rewrite Hb. destruct ok; simpl; close_case.
        -- destruct (IH ch) as (fs & ch' & e & lost & -> & Hcap & Hclo & Hbuf & Hl & Hr & Hc).
           exists fs, ch', e, lost. rewrite Hb in Hbuf.
           split; [done|]. split; [done|]. split; [congruence|]. split; [done|].
           split; [done|]. split; [done|]. intros Hin.
           destruct (Hc Hin) as (? & _). congruence.
      * destruct ok.
        -- destruct (IH (mkChan (cap ch) rest (closed ch)))
             as (fs & ch' & e & lost & -> & Hcap & Hclo & Hbuf & Hl & Hr & Hc).
           simpl in *.
           exists (BcastServer.TextMessage m :: fs), ch', e, lost.
           split; [done|]. split; [done|]. split; [done|].
           split; [by rewrite texts_cons_text, Hbuf|]. split; [done|].
           split; [done|]. intros Hin.
           apply elem_of_cons in Hin as [Hin|Hin]; [done|].
           destruct (Hc Hin) as (? & ? & ? & Hlast & ?).
           repeat split; try done. by rewrite (last_cons_elem _ _ _ Hin).
        -- exists [], (mkChan (cap ch) rest (closed ch)), Returned, [m].
           simpl. close_case.
    + destruct ok.
      * destruct (IH ch) as (fs & ch' & e & lost & -> & Hcap & Hclo & Hbuf & Hl & Hr & Hc).
        exists (BcastServer.PingMessage :: fs), ch', e, lost.
        split; [done|]. split; [done|]. split; [done|].
        split; [by rewrite texts_cons_ping|]. split; [done|].
        split; [done|]. intros Hin.
        apply elem_of_cons in Hin as [Hin|Hin]; [done|].
        destruct (Hc Hin) as (? & ? & ? & Hlast & ?).
        repeat split; try done. by rewrite (last_cons_elem _ _ _ Hin).
      * exists [], ch, Returned, []. simpl. close_case.
Qed.

Lemma bcast_write_loop_closing (q : list string) (cp : nat) :
  BcastServer.write_loop (replicate (S (length q)) (BcastServer.FromSend true))
                         (mkChan cp q true)
  = ((BcastServer.TextMessage <$> q) ++ [BcastServer.CloseMessage],
     mkChan cp [] true, Returned).
Proof.
  induction q as [|m q IH]; [done|].
  change (replicate (S (length (m :: q))) (BcastServer.FromSend true))
    with (BcastServer.FromSend true
          :: replicate (S (length q)) (BcastServer.FromSend true)).
  cbn [BcastServer.write_loop buf cap closed]. by rewrite IH.
Qed.

End BcastWriterFacts.

(** X14.  The writer of a client of the room-less hub ([writePump]),
    whatever wakes it and whichever writes fail, writes the messages of
    the mailbox as text frames in the order they were queued and takes
    them out of the mailbox; at most one message is taken and not
    written, the one whose write failed, and then the writer has returned.
    A close frame is written only when the mailbox is closed and every
    message that waited has been written; it is the last frame, and the
    writer has returned.  Woken once more than there are messages, with
    no failing write, the writer of a closed mailbox writes all of them
    and then the close frame. *)
Theorem bcast_writer_keeps_order (ws : list BcastServer.Wake) (c : ClientId)
  (cl : Bcast.Client) (h : Bcast.Hub) :
  Bcast.heap h !! c = Some cl ->
  (exists fs rest e lost,
     BcastServer.writePump ws c h
     = Done (fs,
             Bcast.mkHub (Bcast.clients h)
               (<[c := Bcast.mkClient (Bcast.ID cl)
                         (mkChan (cap (Bcast.Send cl)) rest
                                 (closed (Bcast.Send cl)))]> (Bcast.heap h)),
             e)
     /\ buf (Bcast.Send cl) = texts fs ++ lost ++ rest
     /\ length lost <= 1
     /\ (lost <> [] -> e = Returned)
     /\ (BcastServer.CloseMessage ∈ fs ->
         closed (Bcast.Send cl) = true /\ rest = [] /\ lost = []
         /\ last fs = Some BcastServer.CloseMessage /\ e = Returned))
  /\ (closed (Bcast.Send cl) = true ->
      BcastServer.writePump
        (replicate (S (length (buf (Bcast.Send cl)))) (BcastServer.FromSend true))
        c h
      = Done ((BcastServer.TextMessage <$> buf (Bcast.Send cl))
              ++ [BcastServer.CloseMessage],
              Bcast.mkHub (Bcast.clients h)
                (<[c := Bcast.mkClient (Bcast.ID cl)
                          (mkChan (cap (Bcast.Send cl)) [] true)]> (Bcast.heap h)),
              Returned)).
Proof.
  intros Hc. split.
  - destruct (bcast_write_loop_split ws (Bcast.Send cl))
      as (fs & ch' & e & lost & Hw & Hcap & Hclo & Hbuf & Hl & Hr & Hcm).
    exists fs, (buf ch'), e, lost. unfold BcastServer.writePump.
    rewrite Hc, Hw. split; [|done].
    destruct ch' as [cp b cls]. simpl in *. by rewrite Hcap, Hclo.
  - intros Hcl. unfold BcastServer.writePump. rewrite Hc.
    destruct (Bcast.Send cl) as [cp q cls] eqn:Hs. simpl in Hcl. subst cls.
    cbn [buf cap closed]. by rewrite bcast_write_loop_closing.
Qed.

Lemma bcast_writer_keeps_order_witness :
  Bcast.heap ex_full_bhub !! 1%positive
    = Some (Bcast.mkClient "User-1" (mkChan 1 ["User-2: one"] false))
  /\ BcastServer.writePump
       [BcastServer.FromTicker true; BcastServer.FromSend true;
        BcastServer.FromSend true]
       1%positive ex_full_bhub
     = Done ([BcastServer.PingMessage; BcastServer.TextMessage "User-2: one"],
             ex_bhub, Waiting)
  /\ exists fs rest e lost,
       BcastServer.writePump [BcastServer.FromSend false] 1%positive ex_full_bhub
       = Done (fs,
               Bcast.mkHub (Bcast.clients ex_full_bhub)
                 (<[1%positive := Bcast.mkClient "User-1" (mkChan 1 rest false)]>
                    (Bcast.heap ex_full_bhub)),
               e)
       /\ ["User-2: one"] = texts fs ++ lost ++ rest
       /\ length lost <= 1
       /\ (lost <> [] -> e = Returned).
Proof.
  assert (Hc : Bcast.heap ex_full_bhub !! 1%positive
               = Some (Bcast.mkClient "User-1" (mkChan 1 ["User-2: one"] false)))
    by (vm_compute; reflexivity).
  split; [exact Hc|]. split; [vm_compute; reflexivity|].
  destruct (bcast_writer_keeps_order [BcastServer.FromSend false] 1%positive
              _ ex_full_bhub Hc)
    as ((fs & rest & e & lost & Hw & Hb & Hl & Hr & _) & _).
  exists fs, rest, e, lost. split; [exact Hw|]. split; [exact Hb|].
  split; [exact Hl|exact Hr].
Defined.

(** X15.  [handleWS] does nothing when the upgrade fails.  Otherwise it
    registers a new client without waiting: the client joins the clients
    of the hub, which are kept, no other client object changes, its
    identifier is [User-] followed by the reading of the clock in
    nanoseconds, its mailbox is empty and open and holds up to 256
    messages.  Two readings of the clock give the same identifier only if
    they are equal. *)
Theorem handleWS_registers `{Platform}
  (nano nano' : Z) (c : ClientId) (h : Bcast.Hub) :
  BcastServer.handleWS false nano c h = Done (h, None)
  /\ (exists h',
        BcastServer.handleWS true nano c h = Done (h', Some c)
        /\ Bcast.clients h' = {[c]} ∪ Bcast.clients h
        /\ Bcast.heap h' !! c
           = Some (Bcast.mkClient ("User-" +:+ pretty nano) (mkChan 256 [] false))
        /\ (forall d, d <> c -> Bcast.heap h' !! d = Bcast.heap h !! d))
  /\ ("User-" +:+ pretty nano = "User-" +:+ pretty nano' -> nano = nano').
Proof.
  split; [done|]. split.
  - eexists. split; [reflexivity|]. simpl. split; [done|].
    split; [by rewrite lookup_insert_eq|].
    intros d Hd. by rewrite lookup_insert_ne.
  - intros Heq. apply (inj pretty).
    assert (Hdrop : forall a b : string, "User-" +:+ a = "User-" +:+ b -> a = b).
    { intros a b Hab. rewrite !append_cons in Hab. by simplify_eq. }
    by apply Hdrop.
Qed.

Lemma handleWS_registers_witness :
  exists h',
    @BcastServer.handleWS sample_platform true 1700000000000000123%Z 2%positive
      ex_bhub = Done (h', Some 2%positive)
    /\ Bcast.clients h' = {[2%positive]} ∪ Bcast.clients ex_bhub
    /\ Bcast.heap h' !! 2%positive
       = Some (Bcast.mkClient "User-1700000000000000123" (mkChan 256 [] false)).
Proof.
  destruct (@handleWS_registers sample_platform 1700000000000000123%Z 0%Z
              2%positive ex_bhub) as (_ & (h' & Hrun & Hcl & Hnew & _) & _).
  exists h'. split; [exact Hrun|]. split; [exact Hcl|]. exact Hnew.
Defined.

Section OutsiderFacts.
Context `{Platform}.

Lemma step_keeps_outsider (now : nat -> Time) (q : Request) (c : ClientId)
  (cl : Client) (h h' : Hub) :
  wf h -> heap h !! c = Some cl -> (forall k, c ∉ members h k) ->
  q <> Register c ->
  run_step now q h = Done h' ->
  heap h' !! c = Some cl /\ (forall k, c ∉ members h' k).
Proof.
  intros Hwf Hc Hout Hq Hrun.
  pose proof (run_step_cases now q h h' Hwf Hrun) as Hcases.
  destruct q as [d|d|m].
  - destruct Hcases as (dl & Hd & _ & ->).
    assert (Hne : c <> d) by congruence.
    split.
    + unfold after_register. simpl.
      rewrite offer_all_lookup, lookup_insert_ne by done.
      rewrite offer_all_lookup, Hc. simpl.
      pose proof (Hout (room dl)).
      by rewrite !decide_False by set_solver.
    + intros k. rewrite members_after_register.
      pose proof (Hout (room dl)). pose proof (Hout k).
      destruct (decide (k = room dl)); set_solver.
  - destruct Hcases as (dl & Hd & Hroom).
    destruct (rooms h !! room dl) as [r|] eqn:Hr; [|by subst h'].
    subst h'. pose proof (Hout (room dl)) as Ho.
    rewrite (members_lookup h _ r Hr) in Ho. split.
    + unfold after_unregister. simpl.
      rewrite !offer_all_lookup, Hc. simpl.
      by rewrite !decide_False by set_solver.
    + intros k. rewrite (members_after_unregister _ _ d dl r h k Hr).
      pose proof (Hout k). destruct (decide (k = room dl)); set_solver.
  - subst h'. split.
    + simpl. rewrite offer_all_lookup, Hc. simpl.
      by rewrite decide_False by apply Hout.
    + intros k. apply Hout.
Qed.

Lemma run_keeps_outsider (clock : nat -> nat -> Time) (qs : list Request)
  (k : nat) (c : ClientId) (cl : Client) (h h' : Hub) :
  wf h -> heap h !! c = Some cl -> (forall r, c ∉ members h r) ->
  Register c ∉ qs ->
  run clock k qs h = Done h' ->
  heap h' !! c = Some cl /\ (forall r, c ∉ members h' r).
Proof.
  revert k h. induction qs as [|q qs IH]; intros k h Hwf Hc Hout Hq Hrun.
  - injection Hrun as <-. done.
  - simpl in Hrun.
    destruct (run_step (clock k) q h) as [h1| |] eqn:H1; try done.
    apply not_elem_of_cons in Hq as [Hq Hqs].
    destruct (step_keeps_outsider (clock k) q c cl h h1 Hwf Hc Hout
                ltac:(congruence) H1) as [Hc1 Hout1].
    apply (IH (S k) h1); try done. by eapply run_step_wf.
Qed.

Lemma set_send_same (cl : Client) :
  buf (send cl) = [] ->
  set_send cl (mkChan (cap (send cl)) [] (closed (send cl))) = cl.
Proof. destruct cl as [u r [cp b cls]]. simpl. by intros ->. Qed.

End OutsiderFacts.

(** X16.  A session that is a member of no room, because it has left or
    has not been registered, receives nothing from the control loop for as
    long as it is not registered again: whatever is registered,
    unregistered or broadcast in a well-formed hub, its client object is
    as it was, with the same mailbox, and it is a member of no room.  The
    hub does not close the mailbox either: once the mailbox is empty the
    writer of the session ([writePump]) writes nothing and goes on
    waiting, whether its writes would fail or not. *)
Theorem left_session_gets_nothing `{Platform}
  (clock : nat -> nat -> Time) (k : nat) (qs : list Request)
  (c : ClientId) (cl : Client) (h h' : Hub) :
  wf h -> heap h !! c = Some cl -> c ∉ all_members h ->
  Register c ∉ qs ->
  run clock k qs h = Done h' ->
  heap h' !! c = Some cl
  /\ (c ∉ all_members h')
  /\ (buf (send cl) = [] ->
      forall fails, ChatServer.writePump fails c h' = Done ([], h', Waiting)).
Proof.
  intros Hwf Hc Hout Hq Hrun.
  assert (Hout0 : forall r, c ∉ members h r).
  { intros r Hin. apply Hout. apply elem_of_all_members. eauto. }
  destruct (run_keeps_outsider clock qs k c cl h h' Hwf Hc Hout0 Hq Hrun)
    as [Hc' Hout'].
  split; [done|]. split.
  { intros Hin. apply elem_of_all_members in Hin as [r Hr]. by apply (Hout' r). }
  intros Hempty fails.
  unfold ChatServer.writePump. rewrite Hc', Hempty.
  cbn [ChatServer.write_loop].
  rewrite (set_send_same cl Hempty), insert_id by done.
  by rewrite set_heap_id, (wf_open h c cl Hwf Hc).
Qed.

Lemma left_session_gets_nothing_witness :
  wf ex_before_join
  /\ heap ex_before_join !! 1%positive = Some (newClient "A" "lobby")
  /\ (1%positive ∉ all_members ex_before_join)
  /\ exists h',
       @run sample_platform ex_clock 0
         [Broadcast ex_chat; Unregister 2%positive; Register 2%positive;
          Unregister 3%positive]
         ex_before_join = Done h'
       /\ heap h' !! 1%positive = Some (newClient "A" "lobby")
       /\ (1%positive ∉ all_members h')
       /\ forall fails,
            ChatServer.writePump fails 1%positive h' = Done ([], h', Waiting).
Proof.
  assert (Hwf : wf ex_before_join) by (vm_compute; reflexivity).
  assert (Hc : heap ex_before_join !! 1%positive = Some (newClient "A" "lobby"))
    by (vm_compute; reflexivity).
  assert (Hout : 1%positive ∉ all_members ex_before_join).
  { intros Hin. vm_compute in Hin. discriminate Hin. }
  split; [exact Hwf|]. split; [exact Hc|]. split; [exact Hout|].
  eexists. split; [vm_compute; reflexivity|].
  match goal with |- heap ?h2 !! _ = _ /\ _ =>
    destruct (@left_session_gets_nothing sample_platform ex_clock 0
                [Broadcast ex_chat; Unregister 2%positive; Register 2%positive;
                 Unregister 3%positive]
                1%positive (newClient "A" "lobby") ex_before_join h2 Hwf Hc Hout)
      as (Hc' & Hout' & Hw)
  end.
  - intros Hin. repeat (apply elem_of_cons in Hin as [Hin|Hin]; [done|]).
    by apply elem_of_nil in Hin.
  - vm_compute. reflexivity.
  - split; [exact Hc'|]. split; [exact Hout'|]. apply Hw. reflexivity.
Defined.
